(** * NexusChat: ingestion, context composition and responder

    A shallow embedding of the upload / question-answering pipeline of
    NexusChat, as written in [app.py] (MongoDB backend) and [app_mysql.py]
    (MySQL backend), together with the properties of that pipeline.

    Conventions of the embedding:
    - a Python [str] is a [string]; every [ascii] stands for one character
      (code points below 256);
    - a collection / table is the list of its documents in insertion order;
    - [ObjectId]s and auto-increment keys are natural numbers handed out by a
      counter kept in the store; a request names one by its text as the
      routes return it, and [MongoApp] adds the texts that are spelled
      otherwise or are no identifier at all;
    - [datetime.utcnow()] is the [now] argument of the operation that calls it;
    - the generative model, the PDF reader and the OCR engine are oracles
      gathered in a record [env]; an oracle that raises is a [Fails] outcome
      carrying [str(e)]. *)

From Stdlib Require Import String Ascii List Arith Bool Lia Sorted Permutation.
Import ListNotations.
Open Scope string_scope.
Open Scope list_scope.
Open Scope nat_scope.
Set Warnings "-register-all".

(** ** Python string and list primitives used by the sources *)

Module PyStr.

Definition nl : string := String (ascii_of_nat 10) "".

(** [s[:n]] *)
Fixpoint slice_to (n : nat) (s : string) : string :=
  match n, s with
  | S n', String c s' => String c (slice_to n' s')
  | _, _ => ""
  end.

(** truth value of a string: [if s:] *)
Definition truthy (s : string) : bool :=
  match s with "" => false | _ => true end.

(** [sep.join(parts)] *)
Definition join (sep : string) (parts : list string) : string :=
  String.concat sep parts.

(** [c.lower()] for a character below 256: the letters A-Z and the
    accented capitals of Latin-1 (192-222, the sign 215 excepted) *)
Definition lower_char (c : ascii) : ascii :=
  let n := nat_of_ascii c in
  if ((65 <=? n) && (n <=? 90))
     || ((192 <=? n) && (n <=? 222) && negb (n =? 215))
  then ascii_of_nat (n + 32) else c.

(** [s.lower()] *)
Fixpoint lower (s : string) : string :=
  match s with
  | "" => ""
  | String c s' => String (lower_char c) (lower s')
  end.

(** [sub in s] *)
Fixpoint contains (sub s : string) : bool :=
  if String.prefix sub s then true
  else match s with
       | "" => false
       | String _ s' => contains sub s'
       end.

(** [c.isspace()] for a character below 256 *)
Definition isspace (c : ascii) : bool :=
  let n := nat_of_ascii c in
  ((9 <=? n) && (n <=? 13)) || ((28 <=? n) && (n <=? 32))
  || (n =? 133) || (n =? 160).

Fixpoint lstrip_by (p : ascii -> bool) (s : string) : string :=
  match s with
  | "" => ""
  | String c s' => if p c then lstrip_by p s' else s
  end.

Fixpoint rstrip_by (p : ascii -> bool) (s : string) : string :=
  match s with
  | "" => ""
  | String c s' =>
      match rstrip_by p s' with
      | "" => if p c then "" else String c ""
      | r => String c r
      end
  end.

(** [s.strip()] and [s.strip(chars)] *)
Definition strip_by (p : ascii -> bool) (s : string) : string :=
  rstrip_by p (lstrip_by p s).

Definition strip (s : string) : string := strip_by isspace s.

(** the last occurrence of [sep] cuts [s] in two *)
Fixpoint rcut (sep : ascii) (s : string) : option (string * string) :=
  match s with
  | "" => None
  | String c s' =>
      match rcut sep s' with
      | Some (a, b) => Some (String c a, b)
      | None => if Ascii.eqb c sep then Some ("", s') else None
      end
  end.

(** [s.rsplit(sep, 1)] *)
Definition rsplit1 (sep : ascii) (s : string) : list string :=
  match rcut sep s with
  | Some (a, b) => [a; b]
  | None => [s]
  end.

(** [s.split()]: the maximal runs of non-blank characters *)
Fixpoint split_ws_aux (cur : string) (s : string) : list string :=
  match s with
  | "" => match cur with "" => [] | _ => [cur] end
  | String c s' =>
      if isspace c
      then match cur with
           | "" => split_ws_aux "" s'
           | _ => cur :: split_ws_aux "" s'
           end
      else split_ws_aux (cur ++ String c "") s'
  end.

Definition split_ws (s : string) : list string := split_ws_aux "" s.

Fixpoint filter_chars (p : ascii -> bool) (s : string) : string :=
  match s with
  | "" => ""
  | String c s' =>
      if p c then String c (filter_chars p s') else filter_chars p s'
  end.

Fixpoint map_chars (f : ascii -> ascii) (s : string) : string :=
  match s with
  | "" => ""
  | String c s' => String (f c) (map_chars f s')
  end.

(** [x in xs] for a list of strings *)
Definition mem (x : string) (xs : list string) : bool :=
  existsb (String.eqb x) xs.

(** [l[-n:]] for a positive [n] *)
Definition last_n {A : Type} (n : nat) (l : list A) : list A :=
  skipn (List.length l - n) l.

End PyStr.

(** ** Values shared by the two backends *)

(** Result of a call into an external service ([generate_content],
    [fitz.open], [pytesseract.image_to_string]). *)
Inductive call_result : Type :=
| Gives (text : string)
| Fails (message : string).

(** JSON bodies produced by [jsonify]. A dict is its list of key/value
    pairs in the order the source writes them. *)
Inductive json : Type :=
| JNull
| JBool (b : bool)
| JNum (n : nat)
| JStr (s : string)
| JList (xs : list json)
| JObj (fields : list (string * json)).

(** [d[key]] on a JSON object *)
Fixpoint jlookup (key : string) (fields : list (string * json)) : option json :=
  match fields with
  | [] => None
  | (k, v) :: rest => if String.eqb k key then Some v else jlookup key rest
  end.


(** [d[key] = v] on a dict that does not hold [key] yet *)
Definition jset (fields : list (string * json)) (key : string) (v : json)
  : list (string * json) :=
  fields ++ [(key, v)].

(** The Python exceptions the routes can run into. *)
Inductive exn : Type :=
| IndexError
| InvalidId.

(** What a route returns: a JSON body with its HTTP status, or an exception
    that escapes the view function. *)
Inductive reply : Type :=
| Http (status : nat) (body : json)
| Raised (e : exn).

(** the fields of a reply whose body is a JSON object *)
Definition body_fields (r : reply) : list (string * json) :=
  match r with
  | Http _ (JObj fields) => fields
  | _ => []
  end.

Section Sorting.
Context {A : Type} (key : A -> nat).

Fixpoint insert_desc (x : A) (l : list A) : list A :=
  match l with
  | [] => [x]
  | y :: l' => if key y <=? key x then x :: l else y :: insert_desc x l'
  end.

(** [cursor.sort(key, -1)] and [ORDER BY key DESC]: descending, elements
    with equal keys keep their relative order (the databases leave the order
    of ties open). *)
Fixpoint sort_desc (l : list A) : list A :=
  match l with
  | [] => []
  | x :: l' => insert_desc x (sort_desc l')
  end.
End Sorting.

(** [update_one] and [delete_one] act on the first document that matches. *)
Section FirstMatch.
Context {A : Type} (p : A -> bool).

Fixpoint update_first (f : A -> A) (l : list A) : list A :=
  match l with
  | [] => []
  | x :: l' => if p x then f x :: l' else x :: update_first f l'
  end.

Fixpoint remove_first (l : list A) : list A :=
  match l with
  | [] => []
  | x :: l' => if p x then l' else x :: remove_first l'
  end.
End FirstMatch.

(** [ALLOWED_EXTENSIONS] and [allowed_file] are the same in both backends. *)
Definition ALLOWED_EXTENSIONS : list string :=
  ["txt"; "pdf"; "png"; "jpg"; "jpeg"; "gif"; "webp"].

Definition allowed_file (filename : string) : bool :=
  PyStr.contains "." filename &&
  match nth_error (PyStr.rsplit1 "."%char filename) 1 with
  | Some ext => PyStr.mem (PyStr.lower ext) ALLOWED_EXTENSIONS
  | None => false
  end.

(** the characters werkzeug keeps in a file name: [A-Za-z0-9_.-] *)
Definition filename_char_ok (c : ascii) : bool :=
  let n := nat_of_ascii c in
  ((65 <=? n) && (n <=? 90)) || ((97 <=? n) && (n <=? 122))
  || ((48 <=? n) && (n <=? 57)) || (n =? 95) || (n =? 46) || (n =? 45).

(** What [unicodedata.normalize("NFKD", c).encode("ascii", "ignore")] leaves
    of one character below 256: an ASCII character stays; an accented Latin
    letter loses its accent; the superscripts, ordinals and fractions become
    their digits and letters; the no-break space and the spacing accents
    become a blank; every other character disappears. *)
Definition nfkd_ascii (c : ascii) : string :=
  let n := nat_of_ascii c in
  let among := existsb (Nat.eqb n) in
  if n <? 128 then String c ""
  else if among [160; 168; 175; 180; 184] then " "
  else if among [170; 224; 225; 226; 227; 228; 229] then "a"
  else if among [186; 242; 243; 244; 245; 246] then "o"
  else if among [192; 193; 194; 195; 196; 197] then "A"
  else if among [200; 201; 202; 203] then "E"
  else if among [204; 205; 206; 207] then "I"
  else if among [210; 211; 212; 213; 214] then "O"
  else if among [217; 218; 219; 220] then "U"
  else if among [232; 233; 234; 235] then "e"
  else if among [236; 237; 238; 239] then "i"
  else if among [249; 250; 251; 252] then "u"
  else if among [253; 255] then "y"
  else if n =? 178 then "2"
  else if n =? 179 then "3"
  else if n =? 185 then "1"
  else if n =? 188 then "14"
  else if n =? 189 then "12"
  else if n =? 190 then "34"
  else if n =? 199 then "C"
  else if n =? 209 then "N"
  else if n =? 221 then "Y"
  else if n =? 231 then "c"
  else if n =? 241 then "n"
  else "".

Fixpoint normalize_to_ascii (s : string) : string :=
  match s with
  | "" => ""
  | String c s' => nfkd_ascii c ++ normalize_to_ascii s'
  end.

(** [werkzeug.utils.secure_filename], as both backends import it, for a
    POSIX host: the name is decomposed and what is not ASCII is dropped, "/"
    becomes a blank, the blank-separated words are joined with "_", every
    character outside [A-Za-z0-9_.-] is removed, and leading and trailing "."
    and "_" are stripped. *)
Definition secure_filename (filename : string) : string :=
  let ascii_only := normalize_to_ascii filename in
  let no_sep :=
    PyStr.map_chars (fun c => if Ascii.eqb c "/" then " "%char else c) ascii_only in
  let joined := PyStr.join "_" (PyStr.split_ws no_sep) in
  PyStr.strip_by (fun c => Ascii.eqb c "." || Ascii.eqb c "_")
                 (PyStr.filter_chars filename_char_ok joined).

(** [{"success": ..., "analysis": ...}] returned by [analyze_image_with_vision] *)
Record vision_result : Type := {
  success : bool;
  analysis : string
}.

(** [text[:n] + "..." if len(text) > n else text] *)
Definition preview (n : nat) (text : string) : string :=
  if n <? String.length text then PyStr.slice_to n text ++ "..." else text.

(** ** MongoDB backend ([app.py]) *)

Module Mongo.
Import PyStr.

(** *** Documents and collections *)

Record chat_session : Type := {
  cs_id : nat;
  cs_user_id : nat;
  session_name : string;
  cs_created_at : nat;
  cs_updated_at : nat
}.

Record message : Type := {
  m_id : nat;
  m_session_id : nat;
  sender : string;
  content : string;
  timestamp : nat
}.

Record uploaded_item : Type := {
  ui_id : nat;
  ui_session_id : nat;
  ui_user_id : nat;
  original_filename : string;
  file_type : string;
  file_size : nat;
  mime_type : string;
  file_content : string;
  extracted_text : string;
  uploaded_at : nat
}.

Record analysis_result : Type := {
  ar_id : nat;
  ar_item_id : nat;
  ar_session_id : nat;
  analysis_type : string;
  summary : string;
  created_at : nat
}.

Record store : Type := {
  chat_sessions : list chat_session;
  messages : list message;
  uploaded_items : list uploaded_item;
  analysis_results : list analysis_result;
  next_id : nat
}.

(** External collaborators of the request handlers. *)
Record env : Type := {
  (* model.generate_content(full_prompt).text *)
  generate_content : string -> call_result;
  (* vision_model.generate_content([user_prompt, image]).text, with the
     image opened from the given bytes *)
  vision_generate_content : string -> string -> call_result;
  (* fitz: the text of every page, None when opening or reading raises *)
  pdf_page_texts : string -> option (list string);
  (* pytesseract.image_to_string, None when it raises *)
  image_to_string : string -> option string;
  (* mimetypes.guess_type(name)[0] *)
  guess_type : string -> option string
}.

(** *** Collection operations *)

Definition insert_message (st : store) (session_id : nat)
    (who text : string) (now : nat) : store :=
  {| chat_sessions := chat_sessions st;
     messages := messages st ++
       [{| m_id := next_id st; m_session_id := session_id; sender := who;
           content := text; timestamp := now |}];
     uploaded_items := uploaded_items st;
     analysis_results := analysis_results st;
     next_id := S (next_id st) |}.

Definition insert_item (st : store) (doc : nat -> uploaded_item) : store :=
  {| chat_sessions := chat_sessions st;
     messages := messages st;
     uploaded_items := uploaded_items st ++ [doc (next_id st)];
     analysis_results := analysis_results st;
     next_id := S (next_id st) |}.

Definition insert_analysis (st : store) (item_id session_id : nat)
    (kind text : string) (now : nat) : store :=
  {| chat_sessions := chat_sessions st;
     messages := messages st;
     uploaded_items := uploaded_items st;
     analysis_results := analysis_results st ++
       [{| ar_id := next_id st; ar_item_id := item_id;
           ar_session_id := session_id; analysis_type := kind;
           summary := text; created_at := now |}];
     next_id := S (next_id st) |}.

(** [chat_sessions.update_one({"_id": id}, {"$set": {"updated_at": now}})] *)
Definition touch_session (st : store) (session_id now : nat) : store :=
  {| chat_sessions :=
       update_first (fun s => cs_id s =? session_id)
         (fun s => {| cs_id := cs_id s; cs_user_id := cs_user_id s;
                      session_name := session_name s;
                      cs_created_at := cs_created_at s;
                      cs_updated_at := now |})
         (chat_sessions st);
     messages := messages st;
     uploaded_items := uploaded_items st;
     analysis_results := analysis_results st;
     next_id := next_id st |}.

Definition messages_of (st : store) (session_id : nat) : list message :=
  filter (fun m => m_session_id m =? session_id) (messages st).

Definition items_of (st : store) (session_id : nat) : list uploaded_item :=
  filter (fun d => ui_session_id d =? session_id) (uploaded_items st).

(** [analysis_results.find_one({"item_id": id, "analysis_type": "vision_analysis"})] *)
Definition find_vision (st : store) (item_id : nat) : option analysis_result :=
  find (fun a => (ar_item_id a =? item_id) &&
                 String.eqb (analysis_type a) "vision_analysis")
       (analysis_results st).

Definition find_item (st : store) (item_id : nat) : option uploaded_item :=
  find (fun d => ui_id d =? item_id) (uploaded_items st).

(** [chat_sessions.find_one({"_id": id, "user_id": user})] *)
Definition find_session (st : store) (session_id user : nat)
  : option chat_session :=
  find (fun s => (cs_id s =? session_id) && (cs_user_id s =? user))
       (chat_sessions st).

(** *** Utility functions *)

Definition extract_text_from_pdf (E : env) (bytes : string) : string :=
  match pdf_page_texts E bytes with
  | Some pages => strip (join "" pages)
  | None => ""
  end.

Definition extract_text_from_image (E : env) (bytes : string) : string :=
  match image_to_string E bytes with
  | Some text => strip text
  | None => ""
  end.

Definition analyze_image_with_vision (E : env) (bytes user_prompt : string)
  : vision_result :=
  match vision_generate_content E user_prompt bytes with
  | Gives text => {| success := true; analysis := text |}
  | Fails e => {| success := false; analysis := "Error: " ++ e |}
  end.

Definition system_prompt : string :=
  "You are NexusChat, a friendly AI assistant.".

(** the [full_prompt] f-string of [get_ai_response] *)
Definition full_prompt (prompt context : string) : string :=
  system_prompt ++ nl ++ nl ++ "Context: " ++ context ++ nl ++ nl ++
  "User: " ++ prompt ++ nl ++ "Assistant:".

Definition get_ai_response (E : env) (prompt context : string) : string :=
  match generate_content E (full_prompt prompt context) with
  | Gives text => if truthy text then text else "No response."
  | Fails e => "AI error: " ++ e
  end.

(** *** Context composition of [send_message] *)

Definition text_fragment (d : uploaded_item) : string :=
  "Extracted text from " ++ original_filename d ++ ":" ++ nl ++
  slice_to 2000 (extracted_text d).

Definition vision_fragment (d : uploaded_item) (v : analysis_result) : string :=
  "Vision analysis for " ++ original_filename d ++ ":" ++ nl ++
  slice_to 1000 (summary v).

(** the list [file_contexts] after the two loops over [file_docs] *)
Definition file_contexts (st : store) (session_id : nat) : list string :=
  let file_docs := items_of st session_id in
  flat_map (fun d => if truthy (extracted_text d) then [text_fragment d] else [])
           file_docs
  ++
  flat_map (fun d => match find_vision st (ui_id d) with
                     | Some v => if truthy (summary v)
                                 then [vision_fragment d v] else []
                     | None => []
                     end)
           file_docs.

(** the [prompt] built when [file_contexts] is not empty *)
Definition grounded_prompt (question : string) (fragments : list string)
  : string :=
  let file_context := join (nl ++ nl) fragments in
  "You are an expert assistant. Answer the user's question based ONLY on the following uploaded document(s) or image(s)."
  ++ nl ++ "User question: " ++ question ++ nl ++
  nl ++ "---" ++ nl ++ nl ++ file_context ++ nl ++ nl ++
  "If the answer is not in the document/image, say 'I could not find the answer in the uploaded file.'".

Definition render_message (m : message) : string :=
  sender m ++ ": " ++ content m.

(** [messages.find({"session_id": id}).sort("timestamp", -1).limit(5)] *)
Definition recent_msgs (st : store) (session_id : nat) : list message :=
  firstn 5 (sort_desc timestamp (messages_of st session_id)).

(** the [context] of the fallback branch *)
Definition conversation_context (st : store) (session_id : nat) : string :=
  join nl (map render_message (rev (recent_msgs st session_id))).

Inductive mode : Type := FileGrounded | Conversational.

(** which branch of [if file_contexts:] runs *)
Definition context_mode (st : store) (session_id : nat) : mode :=
  match file_contexts st session_id with
  | [] => Conversational
  | _ :: _ => FileGrounded
  end.

(** *** Routes *)

(** The [login_required] decorator: [login] is [session["user_id"]] when
    the cookie holds one. *)
Definition login_required (login : option nat)
    (view : nat -> store -> store * reply) (st : store) : store * reply :=
  match login with
  | None => (st, Http 401 (JObj [("error", JStr "Login required")]))
  | Some user => view user st
  end.

(** [now k] is the reading of [datetime.utcnow()] at the k-th place the
    handler calls it. *)
Definition send_message_view (E : env) (session_id : nat) (raw_content : string)
    (now : nat -> nat) (user : nat) (st : store) : store * reply :=
  let content := strip raw_content in
  (* Save user message *)
  let st1 := insert_message st session_id "user" content (now 0) in
  (* Gather file context *)
  let fragments := file_contexts st1 session_id in
  let ai_reply :=
    match fragments with
    | _ :: _ => get_ai_response E (grounded_prompt content fragments) ""
    | [] => get_ai_response E content (conversation_context st1 session_id)
    end in
  let st2 := insert_message st1 session_id "assistant" ai_reply (now 1) in
  let st3 := touch_session st2 session_id (now 2) in
  (st3, Http 200 (JObj [("user_message", JStr content);
                        ("ai_message", JStr ai_reply)])).

Definition send_message (E : env) (login : option nat) (session_id : nat)
    (raw_content : string) (now : nat -> nat) (st : store) : store * reply :=
  login_required login (send_message_view E session_id raw_content now) st.

(** The text handed to [model.generate_content] while answering
    [raw_content] in [session_id], from the store as the request found it. *)
Definition composed_prompt (session_id : nat) (raw_content : string)
    (now : nat -> nat) (st : store) : string :=
  let content := strip raw_content in
  let st1 := insert_message st session_id "user" content (now 0) in
  match file_contexts st1 session_id with
  | (_ :: _) as fragments => full_prompt (grounded_prompt content fragments) ""
  | [] => full_prompt content (conversation_context st1 session_id)
  end.

(** One uploaded file of [request.files]. *)
Record upload : Type := {
  filename : string;
  bytes : string
}.

Definition image_extensions : list string :=
  ["png"; "jpg"; "jpeg"; "gif"; "webp"].

(** The extraction step of [upload_file]:
    [(extracted_text, vision_analysis, file_type)]. *)
Definition extract (E : env) (file_ext bytes : string)
  : string * option vision_result * string :=
  if String.eqb file_ext "pdf"
  then (extract_text_from_pdf E bytes, None, "pdf")
  else if mem file_ext image_extensions
  then (extract_text_from_image E bytes,
        Some (analyze_image_with_vision E bytes "Describe this image"),
        "image")
  else ("", None, "other").

Definition text_analysis_entry (text_summary : string) : json :=
  JObj [("type", JStr "text_analysis"); ("content", JStr text_summary)].

Definition vision_analysis_entry (v : vision_result) : json :=
  JObj [("type", JStr "vision_analysis"); ("content", JStr (analysis v));
        ("success", JBool (success v))].

(** the [response_data] dict of [upload_file] *)
Definition response_data (item_id : nat) (name kind : string)
    (analyses : list json) (extracted_text : string)
    (vision_analysis : option vision_result) : list (string * json) :=
  let base :=
    [("message", JStr "File uploaded and analyzed successfully");
     ("file_id", JNum item_id);
     ("filename", JStr name);
     ("file_type", JStr kind);
     ("analyses", JList analyses);
     ("analysis_available", JBool (0 <? List.length analyses))] in
  let with_text :=
    if truthy (strip extracted_text)
    then jset base "extracted_text" (JStr (preview 500 extracted_text))
    else base in
  match vision_analysis with
  | Some v =>
      if String.eqb kind "image" && success v
      then jset with_text "vision_preview" (JStr (preview 300 (analysis v)))
      else with_text
  | None => with_text
  end.

Definition upload_file_view (E : env) (file : option upload)
    (session_id : option nat) (now : nat -> nat) (user : nat) (st : store)
  : store * reply :=
  match file with
  | None => (st, Http 400 (JObj [("error", JStr "No file provided")]))
  | Some f =>
  match session_id with
  | None => (st, Http 400 (JObj [("error", JStr "Session ID required")]))
  | Some sid =>
  if String.eqb (filename f) ""
  then (st, Http 400 (JObj [("error", JStr "No file selected")]))
  else if negb (allowed_file (filename f))
  then (st, Http 400 (JObj [("error", JStr "File type not allowed")]))
  else
  (* Verify session belongs to user *)
  match find_session st sid user with
  | None => (st, Http 404 (JObj [("error", JStr "Session not found")]))
  | Some _ =>
  let size := String.length (bytes f) in
  let mime := match guess_type E (filename f) with
              | Some m => m
              | None => "application/octet-stream"
              end in
  let name := secure_filename (filename f) in
  match nth_error (rsplit1 "." name) 1 with
  | None => (st, Raised IndexError)
  | Some ext =>
  let file_ext := lower ext in
  let '(text, vision_analysis, kind) := extract E file_ext (bytes f) in
  (* Save file metadata in DB *)
  let item_id := next_id st in
  let st1 := insert_item st (fun id =>
    {| ui_id := id; ui_session_id := sid; ui_user_id := user;
       original_filename := name; file_type := kind; file_size := size;
       mime_type := mime; file_content := bytes f; extracted_text := text;
       uploaded_at := now 0 |}) in
  (* Save analyses *)
  let '(st2, analyses1) :=
    if truthy (strip text)
    then
      let text_summary :=
        get_ai_response E
          ("Summarize and extract key points:" ++ nl ++ nl ++ slice_to 2000 text)
          "" in
      (insert_analysis st1 item_id sid (kind ++ "_text_analysis")
                       text_summary (now 1),
       [text_analysis_entry text_summary])
    else (st1, []) in
  let '(st3, analyses) :=
    match vision_analysis with
    | Some v =>
        if String.eqb kind "image"
        then (insert_analysis st2 item_id sid "vision_analysis"
                              (analysis v) (now 2),
              analyses1 ++ [vision_analysis_entry v])
        else (st2, analyses1)
    | None => (st2, analyses1)
    end in
  (* Update session timestamp *)
  let st4 := touch_session st3 sid (now 3) in
  (st4, Http 200 (JObj (response_data item_id name kind analyses text
                                      vision_analysis)))
  end end end end.

Definition upload_file (E : env) (login : option nat) (file : option upload)
    (session_id : option nat) (now : nat -> nat) (st : store) : store * reply :=
  login_required login (upload_file_view E file session_id now) st.

(** one element of the [result] list of [get_analyses] *)
Definition analysis_entry (st : store) (a : analysis_result) : json :=
  let item := find_item st (ar_item_id a) in
  JObj [("id", JNum (ar_id a));
        ("item_id", JNum (ar_item_id a));
        ("analysis_type", JStr (analysis_type a));
        ("summary", JStr (summary a));
        ("created_at", JNum (created_at a));
        ("filename", JStr match item with
                          | Some d => original_filename d
                          | None => ""
                          end);
        ("file_type", JStr match item with
                           | Some d => file_type d
                           | None => ""
                           end)].

(** [analysis_results.find({"session_id": id}).sort("created_at", -1)] *)
Definition analyses_of (st : store) (session_id : nat) : list analysis_result :=
  sort_desc created_at
    (filter (fun a => ar_session_id a =? session_id) (analysis_results st)).

Definition listed_analyses (st : store) (session_id : nat) : list json :=
  map (analysis_entry st) (analyses_of st session_id).

Definition get_analyses (login : option nat) (session_id : nat) (st : store)
  : store * reply :=
  login_required login (fun _ st =>
    (st, Http 200 (JObj [("analyses", JList (listed_analyses st session_id))])))
    st.

(** [delete_uploaded_item] on the text of an identifier as the routes
    return it: [delete_many] then meets the [item_id] of the analyses of the
    item. *)
Definition delete_uploaded_item (login : option nat) (item_id : nat)
    (st : store) : store * reply :=
  login_required login (fun user st =>
    match find_item st item_id with
    | Some d =>
        if ui_user_id d =? user
        then
          ({| chat_sessions := chat_sessions st;
              messages := messages st;
              uploaded_items :=
                remove_first (fun d => ui_id d =? item_id) (uploaded_items st);
              analysis_results :=
                filter (fun a => negb (ar_item_id a =? item_id))
                       (analysis_results st);
              next_id := next_id st |},
           Http 200 (JObj [("message", JStr "Item deleted successfully")]))
        else (st, Http 404 (JObj [("error", JStr "Item not found")]))
    | None => (st, Http 404 (JObj [("error", JStr "Item not found")]))
    end) st.

End Mongo.

(** ** The route table of [app.py] over the modelled handlers *)

Module MongoApp.
Import Mongo.

(** [create_session]: a new chat, owned by the caller. The handler checks
    the cookie once more after the decorator did. *)
Definition create_session (login : option nat) (now : nat -> nat) (st : store)
  : store * reply :=
  login_required login (fun user st =>
    ({| chat_sessions := chat_sessions st ++
          [{| cs_id := next_id st; cs_user_id := user;
              session_name := "New Chat";
              cs_created_at := now 0; cs_updated_at := now 1 |}];
        messages := messages st;
        uploaded_items := uploaded_items st;
        analysis_results := analysis_results st;
        next_id := S (next_id st) |},
     Http 200 (JObj [("session_id", JNum (next_id st))]))) st.

(** A string of the request that the handler hands to [ObjectId(...)]: the
    text of an identifier, or a string that [ObjectId] refuses by raising
    [InvalidId]. *)
Inductive id_text : Type :=
| Oid (id : nat)
| NotAnOid.

(** [upload_file] on the form field [session_id] as it arrives. The handler
    reaches [ObjectId(session_id)] after its checks of the file and of its
    name, and before it writes anything. *)
Definition upload_file_request (E : env) (login : option nat)
    (file : option upload) (session_id : option id_text) (now : nat -> nat)
    (st : store) : store * reply :=
  match session_id with
  | None => upload_file E login file None now st
  | Some (Oid sid) => upload_file E login file (Some sid) now st
  | Some NotAnOid =>
      login_required login (fun _ st =>
        match file with
        | None => (st, Http 400 (JObj [("error", JStr "No file provided")]))
        | Some f =>
            if String.eqb (filename f) ""
            then (st, Http 400 (JObj [("error", JStr "No file selected")]))
            else if negb (allowed_file (filename f))
            then (st, Http 400 (JObj [("error", JStr "File type not allowed")]))
            else (st, Raised InvalidId)
        end) st
  end.

(** [get_analyses] on the path segment [session_id]: it is compared with the
    stored session identifiers as it is, and equals none of them when it is
    not the text of an identifier. *)
Definition get_analyses_request (login : option nat) (session_id : id_text)
    (st : store) : store * reply :=
  match session_id with
  | Oid sid => get_analyses login sid st
  | NotAnOid =>
      login_required login (fun _ st =>
        (st, Http 200 (JObj [("analyses", JList [])]))) st
  end.

(** The path segment [item_id] of [delete_uploaded_item]. [ObjectId] reads
    the hexadecimal digits of an identifier in either case, and [str] prints
    them in lower case: besides the text of an identifier as the routes
    return it there is, for an identifier whose text holds a letter, the
    same text with a letter in upper case. *)
Inductive item_text : Type :=
| ItemOid (id : nat)
| Respelled (id : nat)
| NotAnItemOid.

(** [delete_uploaded_item] on its path segment. The handler starts with
    [ObjectId(item_id)]; it looks the item up and deletes it under that
    identifier, and deletes the analyses whose [item_id] is the segment as a
    string - none of them when the segment is spelled otherwise than the
    routes store it. *)
Definition delete_uploaded_item_request (login : option nat)
    (item_id : item_text) (st : store) : store * reply :=
  match item_id with
  | ItemOid id => delete_uploaded_item login id st
  | Respelled id =>
      login_required login (fun user st =>
        match find_item st id with
        | Some d =>
            if ui_user_id d =? user
            then
              ({| chat_sessions := chat_sessions st;
                  messages := messages st;
                  uploaded_items :=
                    remove_first (fun d => ui_id d =? id) (uploaded_items st);
                  analysis_results := analysis_results st;
                  next_id := next_id st |},
               Http 200 (JObj [("message", JStr "Item deleted successfully")]))
            else (st, Http 404 (JObj [("error", JStr "Item not found")]))
        | None => (st, Http 404 (JObj [("error", JStr "Item not found")]))
        end) st
  | NotAnItemOid =>
      login_required login (fun _ st => (st, Raised InvalidId)) st
  end.

(** One request: the path and method select the handler, the rest is what
    the handler reads from the request. A message is posted to the text of
    an identifier. *)
Inductive request : Type :=
| PostSession
| PostMessage (session_id : nat) (raw_content : string)
| PostUpload (file : option upload) (session_id : option id_text)
| GetAnalyses (session_id : id_text)
| DeleteItem (item_id : item_text).

(** A request with the cookie and the clock it meets. *)
Record call : Type := {
  login : option nat;
  asked : request;
  clock : nat -> nat
}.

Definition route (E : env) (c : call) (st : store) : store * reply :=
  match asked c with
  | PostSession => create_session (login c) (clock c) st
  | PostMessage session_id raw =>
      send_message E (login c) session_id raw (clock c) st
  | PostUpload file session_id =>
      upload_file_request E (login c) file session_id (clock c) st
  | GetAnalyses session_id => get_analyses_request (login c) session_id st
  | DeleteItem item_id => delete_uploaded_item_request (login c) item_id st
  end.

(** every identifier of the request is spelled as the routes return it *)
Definition as_returned (c : call) : bool :=
  match asked c with
  | DeleteItem (Respelled _) => false
  | _ => true
  end.

(** the store after a sequence of requests, served one after the other *)
Fixpoint serve (E : env) (calls : list call) (st : store) : store :=
  match calls with
  | [] => st
  | c :: rest => serve E rest (fst (route E c st))
  end.

(** the store of a new deployment *)
Definition empty_store : store :=
  {| chat_sessions := []; messages := []; uploaded_items := [];
     analysis_results := []; next_id := 0 |}.

(** Item identifiers come from the counter, and no two items share one. *)
Definition identified (st : store) : Prop :=
  Forall (fun d => ui_id d < next_id st) (uploaded_items st)
  /\ NoDup (map ui_id (uploaded_items st)).

(** Consistency of the collections: identifiers come from the counter, no
    two items share one, and every analysis belongs to a stored item of the
    same session. *)
Definition consistent (st : store) : Prop :=
  Forall (fun d => ui_id d < next_id st) (uploaded_items st)
  /\ NoDup (map ui_id (uploaded_items st))
  /\ Forall (fun a => exists d, In d (uploaded_items st)
                                /\ ui_id d = ar_item_id a
                                /\ ui_session_id d = ar_session_id a)
            (analysis_results st).

End MongoApp.

(** ** MySQL backend ([app_mysql.py]) *)

Module MySQL.
Import PyStr.

(** *** Tables *)

Record chat_session : Type := {
  cs_id : nat;
  cs_user_id : nat;
  cs_updated_at : nat
}.

Record message : Type := {
  m_id : nat;
  m_session_id : nat;
  sender : string;
  content : string;
  timestamp : nat
}.

Record uploaded_item : Type := {
  ui_id : nat;
  ui_session_id : nat;
  ui_user_id : nat;
  stored_filename : string;
  original_filename : string;
  file_type : string;
  file_size : nat;
  mime_type : string;
  file_content : string;
  extracted_text : string;
  uploaded_at : nat
}.

Record analysis_result : Type := {
  ar_id : nat;
  ar_item_id : nat;
  ar_session_id : nat;
  analysis_type : string;
  summary : string;
  created_at : nat
}.

Record store : Type := {
  chat_sessions : list chat_session;
  messages : list message;
  uploaded_items : list uploaded_item;
  analysis_results : list analysis_result;
  next_id : nat
}.

Record env : Type := {
  (* model.generate_content(prompt).text *)
  generate_content : string -> call_result;
  (* vision_model.generate_content([vision_prompt, image]).text *)
  vision_generate_content : string -> string -> call_result;
  (* fitz: the text of every page, None when opening or reading raises *)
  pdf_page_texts : string -> option (list string);
  (* pytesseract.image_to_string, None when it raises *)
  image_to_string : string -> option string;
  (* mimetypes.guess_type(name)[0] *)
  guess_type : string -> option string;
  (* f"{user}_{session}_{now:%Y%m%d_%H%M%S}.{ext}" *)
  storage_name : nat -> nat -> nat -> string -> string;
  (* whether get_db() hands out a connection *)
  connected : bool
}.

Definition dq : string := String (ascii_of_nat 34) "".

(** *** Responder *)

Definition system_prompt : string :=
  "You are NexusChat, a helpful and friendly AI assistant. You should:" ++ nl ++
  "- Respond naturally and conversationally like a helpful friend" ++ nl ++
  "- Be warm, engaging, and personable in your responses" ++ nl ++
  "- Answer questions directly and helpfully" ++ nl ++
  "- If someone greets you (like " ++ dq ++ "hi" ++ dq ++ ", " ++ dq ++ "hello"
    ++ dq ++ ", " ++ dq ++ "how are you" ++ dq
    ++ "), respond naturally like a human would" ++ nl ++
  "- Keep responses concise but informative" ++ nl ++
  "- Don't over-analyze simple greetings or casual conversation" ++ nl ++
  "- Be supportive and encouraging" ++ nl ++
  nl ++
  "Remember: You're having a conversation, not analyzing text or providing academic explanations.".

Definition full_prompt (prompt context : string) : string :=
  if truthy context
  then system_prompt ++ nl ++ nl ++ "Previous conversation context: " ++ context
       ++ nl ++ nl ++ "User: " ++ prompt ++ nl ++ nl ++ "Assistant:"
  else system_prompt ++ nl ++ nl ++ "User: " ++ prompt ++ nl ++ nl ++ "Assistant:".

Definition empty_response_sentence : string :=
  "I received an empty response. Please try rephrasing your question.".
Definition model_not_found_sentence : string :=
  "I apologize, but I'm having trouble connecting to the AI service: Model not found. Please check the API configuration.".
Definition permission_sentence : string :=
  "I apologize, but there's an API permission issue. Please check your API key.".
Definition quota_sentence : string :=
  "I apologize, but the API quota has been exceeded. Please try again later.".
Definition authentication_sentence : string :=
  "I apologize, but there's an authentication issue with the AI service.".
Definition generic_prefix : string :=
  "I apologize, but I'm having trouble connecting to the AI service: ".

(** the [except Exception as e] branch of [get_ai_response], on [str(e)] *)
Definition classify_error (e : string) : string :=
  let error_msg := lower e in
  if contains "not found" error_msg || contains "404" error_msg
  then model_not_found_sentence
  else if contains "permission" error_msg || contains "403" error_msg
  then permission_sentence
  else if contains "quota" error_msg || contains "limit" error_msg
  then quota_sentence
  else if contains "key" error_msg || contains "auth" error_msg
  then authentication_sentence
  else generic_prefix ++ slice_to 100 e.

Definition get_ai_response (E : env) (prompt context : string) : string :=
  match generate_content E (full_prompt prompt context) with
  | Gives text => if truthy text then text else empty_response_sentence
  | Fails e => classify_error e
  end.

Definition analysis_prompt (text_content kind : string) : string :=
  if String.eqb (lower kind) "pdf"
  then "Analyze this PDF content and provide:" ++ nl ++
       "1. A concise summary (2-3 sentences)" ++ nl ++
       "2. Key points (bullet format)" ++ nl ++
       "3. Main topics covered" ++ nl ++
       "4. Any important data or insights" ++ nl ++
       nl ++
       "Content: " ++ text_content
  else "Analyze this text extracted from an image and provide:" ++ nl ++
       "1. A summary of what was found" ++ nl ++
       "2. Key information identified" ++ nl ++
       "3. Any structured data or important details" ++ nl ++
       nl ++
       "Extracted text: " ++ text_content.

Definition get_ai_analysis (E : env) (text_content kind : string) : string :=
  match generate_content E (analysis_prompt text_content kind) with
  | Gives text => text
  | Fails _ => "Unable to analyze the content at this time."
  end.

(** *** Extraction *)

Definition extract_text_from_pdf (E : env) (bytes : string) : string :=
  match pdf_page_texts E bytes with
  | Some pages => strip (fold_left String.append pages "")
  | None => ""
  end.

Definition extract_text_from_image (E : env) (bytes : string) : string :=
  match image_to_string E bytes with
  | Some text => strip text
  | None => ""
  end.

Definition vision_prompt (user_prompt : string) : string :=
  "You are an advanced AI vision assistant. Please analyze this image and provide:" ++ nl ++
  nl ++
  "1. **Main Description**: What do you see in this image?" ++ nl ++
  "2. **Objects/Elements**: List the key objects, people, or elements present" ++ nl ++
  "3. **Scene/Setting**: Describe the environment or setting" ++ nl ++
  "4. **Colors & Composition**: Notable colors, lighting, and visual composition" ++ nl ++
  "5. **Text Content**: Any text visible in the image (if any)" ++ nl ++
  "6. **Additional Insights**: Interesting details, mood, or context" ++ nl ++
  nl ++
  "User's specific request: " ++ user_prompt ++ nl ++
  nl ++
  "Please be detailed, accurate, and helpful in your analysis.".

Definition analyze_image_with_vision (E : env) (bytes user_prompt : string)
  : vision_result :=
  match vision_generate_content E (vision_prompt user_prompt) bytes with
  | Gives text => {| success := true; analysis := text |}
  | Fails e =>
      {| success := false;
         analysis := "Unable to analyze the image visually. Error: " ++ e |}
  end.

(** *** Table operations *)

Definition insert_message (st : store) (session_id : nat)
    (who text : string) (now : nat) : store :=
  {| chat_sessions := chat_sessions st;
     messages := messages st ++
       [{| m_id := next_id st; m_session_id := session_id; sender := who;
           content := text; timestamp := now |}];
     uploaded_items := uploaded_items st;
     analysis_results := analysis_results st;
     next_id := S (next_id st) |}.

Definition insert_item (st : store) (row : nat -> uploaded_item) : store :=
  {| chat_sessions := chat_sessions st;
     messages := messages st;
     uploaded_items := uploaded_items st ++ [row (next_id st)];
     analysis_results := analysis_results st;
     next_id := S (next_id st) |}.

Definition insert_analysis (st : store) (item_id session_id : nat)
    (kind text : string) (now : nat) : store :=
  {| chat_sessions := chat_sessions st;
     messages := messages st;
     uploaded_items := uploaded_items st;
     analysis_results := analysis_results st ++
       [{| ar_id := next_id st; ar_item_id := item_id;
           ar_session_id := session_id; analysis_type := kind;
           summary := text; created_at := now |}];
     next_id := S (next_id st) |}.

Definition touch_session (st : store) (session_id now : nat) : store :=
  {| chat_sessions :=
       map (fun s => if cs_id s =? session_id
                     then {| cs_id := cs_id s; cs_user_id := cs_user_id s;
                             cs_updated_at := now |}
                     else s) (chat_sessions st);
     messages := messages st;
     uploaded_items := uploaded_items st;
     analysis_results := analysis_results st;
     next_id := next_id st |}.

(** [SELECT id FROM chat_sessions WHERE id = %s AND user_id = %s] *)
Definition find_session (st : store) (session_id user : nat)
  : option chat_session :=
  find (fun s => (cs_id s =? session_id) && (cs_user_id s =? user))
       (chat_sessions st).

Definition messages_of (st : store) (session_id : nat) : list message :=
  filter (fun m => m_session_id m =? session_id) (messages st).

Definition find_item (st : store) (item_id : nat) : option uploaded_item :=
  find (fun d => ui_id d =? item_id) (uploaded_items st).

(** *** Routes *)

Definition error (status : nat) (text : string) : reply :=
  Http status (JObj [("error", JStr text)]).

(** The [login_required] decorator; [url_for('login')] is the path of the
    view function [login]. *)
Definition login_required (login : option nat) (is_json : bool)
    (view : nat -> store -> store * reply) (st : store) : store * reply :=
  match login with
  | None => if is_json then (st, error 401 "Authentication required")
            else (st, Http 302 (JStr "/api/auth/login"))
  | Some user => view user st
  end.

Definition render_message (m : message) : string :=
  (if String.eqb (sender m) "user" then "Human" else "Assistant")
  ++ ": " ++ content m.

(** the [conversation_context] of [send_message] *)
Definition conversation_context (st : store) (session_id : nat) : string :=
  let recent_messages :=
    firstn 10 (sort_desc timestamp (messages_of st session_id)) in
  join nl (map render_message (rev recent_messages)).

(** latest vision summary of an item:
    [analysis_type IN ('vision_analysis', 'custom_vision_analysis')
     ORDER BY created_at DESC LIMIT 1] *)
Definition latest_vision (st : store) (item_id : nat) : option analysis_result :=
  hd_error
    (sort_desc created_at
       (filter (fun a => (ar_item_id a =? item_id) &&
                         mem (analysis_type a)
                             ["vision_analysis"; "custom_vision_analysis"])
               (analysis_results st))).

(** the [file_content] of [send_message] *)
Definition file_context (st : store) (file_id : option nat)
    (session_id user : nat) : string :=
  match file_id with
  | Some (S _ as fid) =>
      match find (fun d => (ui_id d =? fid) && (ui_session_id d =? session_id)
                           && (ui_user_id d =? user)) (uploaded_items st) with
      | Some d =>
          let vision_context : string :=
            (if String.eqb (file_type d) "image"
             then match latest_vision st fid with
                  | Some v => nl ++ nl ++ "Image Visual Analysis:" ++ nl ++ summary v
                  | None => ""
                  end
             else "")%string in
          (nl ++ nl ++ "Uploaded File Context:" ++ nl ++ "File: "
           ++ original_filename d ++ nl ++ "Type: " ++ file_type d
           ++ (if truthy (strip (extracted_text d))
               then nl ++ "Extracted Text: " ++ extracted_text d else "")
           ++ vision_context)%string
      | None => ""
      end
  | _ => ""
  end.

Definition send_message_view (E : env) (session_id : option nat)
    (raw_content : string) (file_id : option nat) (now : nat -> nat)
    (user : nat) (st : store) : store * reply :=
  let content := strip raw_content in
  match session_id with
  | Some (S _ as sid) =>
      if negb (truthy content)
      then (st, error 400 "Session ID and content required")
      else if negb (connected E)
      then (st, error 500 "Database connection failed")
      else
      (* Verify session belongs to user *)
      match find_session st sid user with
      | None => (st, error 404 "Session not found")
      | Some _ =>
          (* Save user message *)
          let st1 := insert_message st sid "user" content (now 0) in
          let full_context :=
            (conversation_context st1 sid ++ file_context st1 file_id sid user)%string in
          let ai_response := get_ai_response E content full_context in
          (* Save AI response *)
          let st2 := insert_message st1 sid "assistant" ai_response (now 1) in
          let st3 := touch_session st2 sid (now 2) in
          (st3, Http 200 (JObj [("user_message", JStr content);
                                ("ai_message", JStr ai_response);
                                ("session_id", JNum sid)]))
      end
  | _ => (st, error 400 "Session ID and content required")
  end.

Definition send_message (E : env) (login : option nat) (is_json : bool)
    (session_id : option nat) (raw_content : string) (file_id : option nat)
    (now : nat -> nat) (st : store) : store * reply :=
  login_required login is_json
    (send_message_view E session_id raw_content file_id now) st.

Record upload : Type := {
  filename : string;
  bytes : string
}.

Definition image_extensions : list string :=
  ["png"; "jpg"; "jpeg"; "gif"; "webp"].

(** The extraction step of [upload_file]: [(extracted_text, vision_analysis,
    file_type)]; [vision_analysis] is [None] when the name is never bound. *)
Definition extract (E : env) (file_ext bytes : string)
  : string * option vision_result * string :=
  if String.eqb file_ext "pdf"
  then (extract_text_from_pdf E bytes, None, "pdf")
  else if mem file_ext image_extensions
  then (extract_text_from_image E bytes,
        Some (analyze_image_with_vision E bytes
                "Describe what you see in this image"),
        "image")
  else ("", None, "other").

Definition text_analysis_entry (text_analysis : string) : json :=
  JObj [("type", JStr "text_analysis"); ("content", JStr text_analysis)].

Definition vision_analysis_entry (v : vision_result) : json :=
  JObj [("type", JStr "vision_analysis"); ("content", JStr (analysis v));
        ("success", JBool (success v))].

Definition response_data (item_id : nat) (name kind : string)
    (analyses : list json) (extracted_text : string)
    (vision_analysis : option vision_result) : list (string * json) :=
  let base :=
    [("message", JStr "File uploaded and analyzed successfully");
     ("file_id", JNum item_id);
     ("filename", JStr name);
     ("file_type", JStr kind);
     ("analyses", JList analyses)] in
  let with_text :=
    if truthy (strip extracted_text)
    then jset base "extracted_text" (JStr (preview 500 extracted_text))
    else base in
  let with_vision :=
    match vision_analysis with
    | Some v =>
        if String.eqb kind "image" && success v
        then jset with_text "vision_preview" (JStr (preview 300 (analysis v)))
        else with_text
    | None => with_text
    end in
  jset with_vision "analysis_available" (JBool (0 <? List.length analyses)).

Definition upload_file_view (E : env) (file : option upload)
    (session_id : option nat) (now : nat -> nat) (user : nat) (st : store)
  : store * reply :=
  match file with
  | None => (st, error 400 "No file provided")
  | Some f =>
  match session_id with
  | None => (st, error 400 "Session ID required")
  | Some sid =>
  if String.eqb (filename f) ""
  then (st, error 400 "No file selected")
  else if negb (allowed_file (filename f))
  then (st, error 400 "File type not allowed")
  else if negb (connected E)
  then (st, error 500 "Database connection failed")
  else
  (* Verify session belongs to user *)
  match find_session st sid user with
  | None => (st, error 404 "Session not found")
  | Some _ =>
  let size := String.length (bytes f) in
  let mime := match guess_type E (filename f) with
              | Some m => m
              | None => "application/octet-stream"
              end in
  let name := secure_filename (filename f) in
  match nth_error (rsplit1 "." name) 1 with
  | None =>
      (* IndexError, caught by the handler's [except Exception] *)
      (st, error 500 "Failed to upload file")
  | Some ext =>
  let file_ext := lower ext in
  let '(text, vision_analysis, kind) := extract E file_ext (bytes f) in
  let item_id := next_id st in
  let st1 := insert_item st (fun id =>
    {| ui_id := id; ui_session_id := sid; ui_user_id := user;
       stored_filename := storage_name E user sid (now 0) file_ext;
       original_filename := name; file_type := kind; file_size := size;
       mime_type := mime; file_content := bytes f; extracted_text := text;
       uploaded_at := now 1 |}) in
  (* Text-based analysis (for PDFs and OCR text) *)
  let '(st2, analyses1) :=
    if truthy (strip text)
    then
      let text_analysis := get_ai_analysis E text kind in
      (insert_analysis st1 item_id sid (kind ++ "_text_analysis")
                       text_analysis (now 2),
       [text_analysis_entry text_analysis])
    else (st1, []) in
  (* Vision analysis (for images) *)
  let '(st3, analyses) :=
    match vision_analysis with
    | Some v =>
        if String.eqb kind "image"
        then (insert_analysis st2 item_id sid "vision_analysis"
                              (analysis v) (now 3),
              analyses1 ++ [vision_analysis_entry v])
        else (st2, analyses1)
    | None => (st2, analyses1)
    end in
  let st4 := touch_session st3 sid (now 4) in
  (st4, Http 200 (JObj (response_data item_id name kind analyses text
                                      vision_analysis)))
  end end end end.

Definition upload_file (E : env) (login : option nat) (is_json : bool)
    (file : option upload) (session_id : option nat) (now : nat -> nat)
    (st : store) : store * reply :=
  login_required login is_json (upload_file_view E file session_id now) st.

(** [analyze_specific_image]: a stored image is described again under a
    caller-supplied prompt. *)
Definition analyze_specific_image_view (E : env) (file_id : nat)
    (custom_prompt : string) (now : nat -> nat) (user : nat) (st : store)
  : store * reply :=
  if negb (connected E)
  then (st, error 500 "Database connection failed")
  else
  match find (fun d => (ui_id d =? file_id) && (ui_user_id d =? user)
                       && String.eqb (file_type d) "image")
             (uploaded_items st) with
  | None => (st, error 404 "Image not found")
  | Some d =>
      match nth_error (rsplit1 "." (original_filename d)) 1 with
      | None => (st, error 500 "Failed to analyze image")
      | Some _ =>
          let v := analyze_image_with_vision E (file_content d) custom_prompt in
          let st1 :=
            if success v
            then insert_analysis st file_id (ui_session_id d)
                                 "custom_vision_analysis" (analysis v) (now 0)
            else st in
          (st1, Http 200 (JObj [("success", JBool (success v));
                                ("analysis", JStr (analysis v));
                                ("prompt_used", JStr custom_prompt);
                                ("filename", JStr (original_filename d))]))
      end
  end.

Definition analyze_specific_image (E : env) (login : option nat)
    (is_json : bool) (file_id : nat) (custom_prompt : string)
    (now : nat -> nat) (st : store) : store * reply :=
  login_required login is_json
    (analyze_specific_image_view E file_id custom_prompt now) st.

(** one row of the [JOIN] of [get_analyses] *)
Definition analysis_row (a : analysis_result) (u : uploaded_item) : json :=
  JObj [("id", JNum (ar_id a));
        ("item_id", JNum (ar_item_id a));
        ("analysis_type", JStr (analysis_type a));
        ("summary", JStr (summary a));
        ("key_points", JNull);
        ("created_at", JNum (created_at a));
        ("filename", JStr (original_filename u));
        ("file_type", JStr (file_type u))].

(** [FROM analysis_results a JOIN uploaded_items u ON a.item_id = u.id
     WHERE a.session_id = %s ORDER BY a.created_at DESC], as the pairs the
    join keeps *)
Definition joined_analyses (st : store) (session_id : nat)
  : list (analysis_result * uploaded_item) :=
  flat_map (fun a => match find_item st (ar_item_id a) with
                     | Some u => [(a, u)]
                     | None => []
                     end)
    (sort_desc created_at
       (filter (fun a => ar_session_id a =? session_id) (analysis_results st))).

Definition get_analyses_view (E : env) (session_id : nat) (user : nat)
    (st : store) : store * reply :=
  if negb (connected E)
  then (st, error 500 "Database connection failed")
  else
  match find_session st session_id user with
  | None => (st, error 404 "Session not found")
  | Some _ =>
      (st, Http 200 (JObj [("analyses",
             JList (map (fun p => analysis_row (fst p) (snd p))
                        (joined_analyses st session_id)))]))
  end.

Definition get_analyses (E : env) (login : option nat) (is_json : bool)
    (session_id : nat) (st : store) : store * reply :=
  login_required login is_json (get_analyses_view E session_id) st.

End MySQL.

(** ** Reading a history, deleting an item: further routes *)

Section SortingAscending.
Context {A : Type} (key : A -> nat).

Fixpoint insert_asc (x : A) (l : list A) : list A :=
  match l with
  | [] => [x]
  | y :: l' => if key x <=? key y then x :: l else y :: insert_asc x l'
  end.

(** [cursor.sort(key, 1)] and [ORDER BY key ASC]: ascending, elements with
    equal keys keep their relative order (the databases leave the order of
    ties open). *)
Fixpoint sort_asc (l : list A) : list A :=
  match l with
  | [] => []
  | x :: l' => insert_asc x (sort_asc l')
  end.
End SortingAscending.

(** Routes of [app.py] that read the messages. *)
Module MongoHistory.
Import Mongo.

(** one element of the [result] list of [get_session_messages] *)
Definition message_entry (m : message) : json :=
  JObj [("sender", JStr (sender m));
        ("content", JStr (content m));
        ("timestamp", JNum (timestamp m))].

(** [messages.find({"session_id": session_id}).sort("timestamp", 1)] *)
Definition session_messages (st : store) (session_id : nat) : list message :=
  sort_asc timestamp (messages_of st session_id).

Definition get_session_messages (login : option nat) (session_id : nat)
    (st : store) : store * reply :=
  login_required login (fun _ st =>
    (st, Http 200 (JObj [("messages",
                          JList (map message_entry
                                     (session_messages st session_id)))])))
    st.

(** [session_ids] of [export_chat_history]: the sessions of the caller *)
Definition session_ids (st : store) (user : nat) : list nat :=
  map cs_id (filter (fun s => cs_user_id s =? user) (chat_sessions st)).

(** [messages.find({"session_id": {"$in": session_ids}}).sort("timestamp", 1)] *)
Definition all_messages (st : store) (user : nat) : list message :=
  sort_asc timestamp
    (filter (fun m => existsb (Nat.eqb (m_session_id m)) (session_ids st user))
            (messages st)).

(** a message document as [export_chat_history] returns it *)
Definition exported_message (m : message) : json :=
  JObj [("_id", JNum (m_id m));
        ("session_id", JNum (m_session_id m));
        ("sender", JStr (sender m));
        ("content", JStr (content m));
        ("timestamp", JNum (timestamp m))].

Definition export_chat_history (login : option nat) (st : store)
  : store * reply :=
  login_required login (fun user st =>
    (st, Http 200 (JList (map exported_message (all_messages st user))))) st.

End MongoHistory.

(** Further routes of [app_mysql.py]. *)
Module MySQLApp.
Import MySQL.

(** The [file_id] of the JSON body of [send_message], by what the handler
    and the database driver make of it: a value that is absent or falsy; a
    value that reaches the database and is compared there as a number; a
    value that the driver cannot turn into a parameter - a list or an
    object - so that [cursor.execute] raises. *)
Inductive file_ref : Type :=
| NoFile
| FileNumber (n : nat)
| Unsendable.

(** [send_message] on the [file_id] as it arrives. The connection commits
    every statement ([autocommit]); when the lookup of the file raises, the
    row of the caller's message is already stored, and the handler's
    [except Exception] answers 500. *)
Definition send_message_request (E : env) (login : option nat)
    (is_json : bool) (session_id : option nat) (raw_content : string)
    (file_id : file_ref) (now : nat -> nat) (st : store) : store * reply :=
  match file_id with
  | NoFile => send_message E login is_json session_id raw_content None now st
  | FileNumber n =>
      send_message E login is_json session_id raw_content (Some n) now st
  | Unsendable =>
      login_required login is_json (fun user st =>
        let content := PyStr.strip raw_content in
        match session_id with
        | Some (S _ as sid) =>
            if negb (PyStr.truthy content)
            then (st, error 400 "Session ID and content required")
            else if negb (connected E)
            then (st, error 500 "Database connection failed")
            else
            match find_session st sid user with
            | None => (st, error 404 "Session not found")
            | Some _ =>
                (insert_message st sid "user" content (now 0),
                 error 500 "Failed to process message")
            end
        | _ => (st, error 400 "Session ID and content required")
        end) st
  end.


(** one element of the [messages] list of [get_messages] *)
Definition message_row (m : message) : json :=
  JObj [("id", JNum (m_id m));
        ("sender", JStr (sender m));
        ("content", JStr (content m));
        ("timestamp", JNum (timestamp m))].

Definition get_messages_view (E : env) (session_id : nat) (user : nat)
    (st : store) : store * reply :=
  if negb (connected E)
  then (st, error 500 "Database connection failed")
  else
  (* Verify session belongs to user *)
  match find_session st session_id user with
  | None => (st, error 404 "Session not found")
  | Some _ =>
      (st, Http 200 (JObj [("messages",
             JList (map message_row
                        (sort_asc timestamp (messages_of st session_id))))]))
  end.

Definition get_messages (E : env) (login : option nat) (is_json : bool)
    (session_id : nat) (st : store) : store * reply :=
  login_required login is_json (get_messages_view E session_id) st.

(** [SELECT u.id FROM uploaded_items u JOIN chat_sessions s
     ON u.session_id = s.id WHERE u.id = %s AND s.user_id = %s] *)
Definition owned_item (st : store) (item_id user : nat)
  : option uploaded_item :=
  find (fun u => (ui_id u =? item_id)
                 && existsb (fun s => (cs_id s =? ui_session_id u)
                                      && (cs_user_id s =? user))
                            (chat_sessions st))
       (uploaded_items st).

(** [DELETE FROM uploaded_items WHERE id = %s]; the foreign key
    [analysis_results.item_id ... ON DELETE CASCADE] of [init_database]
    deletes the analyses of the item with it. *)
Definition delete_item_row (st : store) (item_id : nat) : store :=
  {| chat_sessions := chat_sessions st;
     messages := messages st;
     uploaded_items :=
       filter (fun u => negb (ui_id u =? item_id)) (uploaded_items st);
     analysis_results :=
       filter (fun a => negb (ar_item_id a =? item_id)) (analysis_results st);
     next_id := next_id st |}.

Definition delete_uploaded_item_view (E : env) (item_id : nat) (user : nat)
    (st : store) : store * reply :=
  if negb (connected E)
  then (st, error 500 "Database connection failed")
  else
  (* Verify item belongs to user *)
  match owned_item st item_id user with
  | None => (st, error 404 "Item not found")
  | Some _ =>
      (delete_item_row st item_id,
       Http 200 (JObj [("message", JStr "Item deleted successfully")]))
  end.

Definition delete_uploaded_item (E : env) (login : option nat)
    (is_json : bool) (item_id : nat) (st : store) : store * reply :=
  login_required login is_json (delete_uploaded_item_view E item_id) st.

End MySQLApp.

(** ** Temporary files ([app_mysql.py], [safe_delete_temp_file]) *)

Module TempFile.

Section Retry.

(** the type of [delay], and what [delay *= 2] makes of a delay *)
Context {num : Type} (double : num -> num).

(** [raises k]: the attempt numbered [k] - [os.path.exists] and then
    [os.unlink] - raises [OSError] *)
Variable raises : nat -> bool.

(** The loop [for attempt in range(max_attempts)], entered at [attempt] with
    [remaining] rounds to go: the value returned and the delays slept, in
    order. *)
Fixpoint attempts (max_attempts remaining attempt : nat) (delay : num)
  : bool * list num :=
  match remaining with
  | 0 => (false, [])
  | S remaining' =>
      if raises attempt
      then if attempt <? max_attempts - 1
           then let '(deleted, slept) :=
                  attempts max_attempts remaining' (S attempt) (double delay) in
                (deleted, delay :: slept)
           else (false, [])
      else (true, [])
  end.

Definition safe_delete_temp_file (max_attempts : nat) (delay : num)
  : bool * list num :=
  attempts max_attempts max_attempts 0 delay.

End Retry.

End TempFile.

(** ** Observations used in the statements *)

(** the first and the last character of a string *)
Definition first_char (s : string) : option ascii :=
  match s with
  | "" => None
  | String c _ => Some c
  end.

Fixpoint last_char (s : string) : option ascii :=
  match s with
  | "" => None
  | String c "" => Some c
  | String _ s' => last_char s'
  end.

(** every character of the string satisfies [p] *)
Fixpoint all_chars (p : ascii -> bool) (s : string) : bool :=
  match s with
  | "" => true
  | String c s' => p c && all_chars p s'
  end.

(** ** Scenarios used to exercise the routes *)

Module Scenario.
Import PyStr.

(** [n] copies of one character *)
Fixpoint replicate (n : nat) (c : ascii) : string :=
  match n with
  | 0 => ""
  | S n' => String c (replicate n' c)
  end.

(** the clock advances by one at every reading *)
Definition clock (k : nat) : nat := 100 + k.

(** user 7 owns session 1, nothing has been said or uploaded *)
Definition fresh : Mongo.store :=
  {| Mongo.chat_sessions :=
       [{| Mongo.cs_id := 1; Mongo.cs_user_id := 7;
           Mongo.session_name := "New Chat";
           Mongo.cs_created_at := 0; Mongo.cs_updated_at := 0 |}];
     Mongo.messages := [];
     Mongo.uploaded_items := [];
     Mongo.analysis_results := [];
     Mongo.next_id := 2 |}.

(** every external service is down; OCR finds no text *)
Definition services_down : Mongo.env :=
  {| Mongo.generate_content := fun _ => Fails "connection reset";
     Mongo.vision_generate_content := fun _ _ => Fails "connection reset";
     Mongo.pdf_page_texts := fun _ => None;
     Mongo.image_to_string := fun _ => Some "";
     Mongo.guess_type := fun _ => None |}.

(** a PDF whose single page holds 501 characters; the model answers "ok" *)
Definition long_pdf : Mongo.env :=
  {| Mongo.generate_content := fun _ => Gives "ok";
     Mongo.vision_generate_content := fun _ _ => Gives "a cat";
     Mongo.pdf_page_texts := fun _ => Some [replicate 501 "a"];
     Mongo.image_to_string := fun _ => Some "";
     Mongo.guess_type := fun _ => Some "application/pdf" |}.

Definition photo : Mongo.upload :=
  {| Mongo.filename := "photo.png"; Mongo.bytes := "PNG" |}.

Definition notes : Mongo.upload :=
  {| Mongo.filename := "notes.pdf"; Mongo.bytes := "%PDF" |}.

Definition dot_pdf : Mongo.upload :=
  {| Mongo.filename := ".pdf"; Mongo.bytes := "%PDF" |}.

(** Scenario D: no upload, and the exchange "hi" / "hello" so far *)
Definition greeted : Mongo.store :=
  {| Mongo.chat_sessions := Mongo.chat_sessions fresh;
     Mongo.messages :=
       [{| Mongo.m_id := 2; Mongo.m_session_id := 1; Mongo.sender := "user";
           Mongo.content := "hi"; Mongo.timestamp := 10 |};
        {| Mongo.m_id := 3; Mongo.m_session_id := 1;
           Mongo.sender := "assistant"; Mongo.content := "hello";
           Mongo.timestamp := 11 |}];
     Mongo.uploaded_items := [];
     Mongo.analysis_results := [];
     Mongo.next_id := 4 |}.

(** the store after [photo] was uploaded while every service was down *)
Definition after_failed_photo : Mongo.store :=
  fst (Mongo.upload_file services_down (Some 7) (Some photo) (Some 1)
                         clock fresh).

(** a scanned PDF whose text cannot be read, uploaded to the fresh session *)
Definition scan : Mongo.upload :=
  {| Mongo.filename := "scan.pdf"; Mongo.bytes := "%PDF" |}.

Definition after_blank_scan : Mongo.store :=
  fst (Mongo.upload_file services_down (Some 7) (Some scan) (Some 1)
                         clock fresh).

(** the vision model describes every image in 301 characters *)
Definition verbose_vision : Mongo.env :=
  {| Mongo.generate_content := fun _ => Gives "ok";
     Mongo.vision_generate_content := fun _ _ => Gives (replicate 301 "b");
     Mongo.pdf_page_texts := fun _ => None;
     Mongo.image_to_string := fun _ => Some "";
     Mongo.guess_type := fun _ => Some "image/png" |}.

Definition notes_reply : reply :=
  snd (Mongo.upload_file long_pdf (Some 7) (Some notes) (Some 1) clock fresh).

Definition photo_reply : reply :=
  snd (Mongo.upload_file verbose_vision (Some 7) (Some photo) (Some 1)
                         clock fresh).

(** Scenario C: an invoice whose text layer reads "Invoice #42 total $500" *)
Definition invoice_reader : Mongo.env :=
  {| Mongo.generate_content := fun _ => Gives "The total is $500.";
     Mongo.vision_generate_content := fun _ _ => Fails "not an image";
     Mongo.pdf_page_texts := fun _ => Some ["Invoice #42 total $500"];
     Mongo.image_to_string := fun _ => None;
     Mongo.guess_type := fun _ => Some "application/pdf" |}.

Definition invoice : Mongo.upload :=
  {| Mongo.filename := "invoice.pdf"; Mongo.bytes := "%PDF" |}.

Definition after_invoice : Mongo.store :=
  fst (Mongo.upload_file invoice_reader (Some 7) (Some invoice) (Some 1)
                         clock fresh).

(** the same session once a first question has been answered *)
Definition after_invoice_question : Mongo.store :=
  fst (Mongo.send_message invoice_reader (Some 7) 1 "What is the total?"
                          (fun k => 200 + k) after_invoice).

(** the context composed when a third message is sent in [greeted] *)
Definition greeted_context : string :=
  Mongo.conversation_context
    (Mongo.insert_message greeted 1 "user" (PyStr.strip "and then?") (clock 0))
    1.

(** the model answers every prompt with "Hello!" *)
Definition answering : Mongo.env :=
  {| Mongo.generate_content := fun _ => Gives "Hello!";
     Mongo.vision_generate_content := fun _ _ => Gives "a cat";
     Mongo.pdf_page_texts := fun _ => Some [];
     Mongo.image_to_string := fun _ => Some "";
     Mongo.guess_type := fun _ => None |}.

(** MySQL: user 7 owns session 1 *)
Definition sql_fresh : MySQL.store :=
  {| MySQL.chat_sessions :=
       [{| MySQL.cs_id := 1; MySQL.cs_user_id := 7;
           MySQL.cs_updated_at := 0 |}];
     MySQL.messages := [];
     MySQL.uploaded_items := [];
     MySQL.analysis_results := [];
     MySQL.next_id := 2 |}.

(** MySQL: the database is up, the model fails with the given message *)
Definition sql_failing (message : string) : MySQL.env :=
  {| MySQL.generate_content := fun _ => Fails message;
     MySQL.vision_generate_content := fun _ _ => Fails message;
     MySQL.pdf_page_texts := fun _ => None;
     MySQL.image_to_string := fun _ => Some "";
     MySQL.guess_type := fun _ => None;
     MySQL.storage_name := fun _ _ _ ext => ("7_1_20240101_000000." ++ ext)%string;
     MySQL.connected := true |}.

Definition sql_dot_pdf : MySQL.upload :=
  {| MySQL.filename := ".pdf"; MySQL.bytes := "%PDF" |}.

Definition sql_photo : MySQL.upload :=
  {| MySQL.filename := "photo.png"; MySQL.bytes := "PNG" |}.

(** a first session, a photo while the vision model is down, a question *)
Definition busy_day : list MongoApp.call :=
  [{| MongoApp.login := Some 7; MongoApp.asked := MongoApp.PostSession;
      MongoApp.clock := fun k => 10 + k |};
   {| MongoApp.login := Some 7;
      MongoApp.asked := MongoApp.PostUpload (Some photo) (Some (MongoApp.Oid 0));
      MongoApp.clock := fun k => 20 + k |};
   {| MongoApp.login := Some 7;
      MongoApp.asked := MongoApp.PostMessage 0 "what is shown?";
      MongoApp.clock := fun k => 30 + k |}].






(** a deletion under a path segment that is not the text of an identifier *)
Definition malformed_delete : MongoApp.call :=
  {| MongoApp.login := Some 7;
     MongoApp.asked := MongoApp.DeleteItem MongoApp.NotAnItemOid;
     MongoApp.clock := clock |}.

(** MySQL: the database is up and the model answers every prompt *)
Definition sql_answering : MySQL.env :=
  {| MySQL.generate_content := fun _ => Gives "Hello!";
     MySQL.vision_generate_content := fun _ _ => Gives "A cat on a sofa.";
     MySQL.pdf_page_texts := fun _ => Some ["Total due: 40 EUR"];
     MySQL.image_to_string := fun _ => Some "";
     MySQL.guess_type := fun _ => None;
     MySQL.storage_name := fun _ _ _ ext => ("7_1_20240101_000000." ++ ext)%string;
     MySQL.connected := true |}.

(** MySQL: user 7 owns session 1 and an invoice in it, user 8 owns session 2.
    A photo of user 7 is stored in session 1 as well. *)
Definition sql_shared : MySQL.store :=
  {| MySQL.chat_sessions :=
       [{| MySQL.cs_id := 1; MySQL.cs_user_id := 7;
           MySQL.cs_updated_at := 0 |};
        {| MySQL.cs_id := 2; MySQL.cs_user_id := 8;
           MySQL.cs_updated_at := 0 |}];
     MySQL.messages := [];
     MySQL.uploaded_items :=
       [{| MySQL.ui_id := 3; MySQL.ui_session_id := 1; MySQL.ui_user_id := 7;
           MySQL.stored_filename := "7_1_20240101_000000.pdf";
           MySQL.original_filename := "invoice.pdf";
           MySQL.file_type := "pdf"; MySQL.file_size := 4;
           MySQL.mime_type := "application/pdf";
           MySQL.file_content := "%PDF";
           MySQL.extracted_text := "Total due: 40 EUR";
           MySQL.uploaded_at := 5 |};
        {| MySQL.ui_id := 4; MySQL.ui_session_id := 1; MySQL.ui_user_id := 7;
           MySQL.stored_filename := "7_1_20240101_000001.png";
           MySQL.original_filename := "photo.png";
           MySQL.file_type := "image"; MySQL.file_size := 3;
           MySQL.mime_type := "image/png";
           MySQL.file_content := "PNG";
           MySQL.extracted_text := "";
           MySQL.uploaded_at := 6 |}];
     MySQL.analysis_results :=
       [{| MySQL.ar_id := 5; MySQL.ar_item_id := 3; MySQL.ar_session_id := 1;
           MySQL.analysis_type := "pdf_text_analysis";
           MySQL.summary := "An invoice."; MySQL.created_at := 5 |};
        {| MySQL.ar_id := 6; MySQL.ar_item_id := 4; MySQL.ar_session_id := 1;
           MySQL.analysis_type := "vision_analysis";
           MySQL.summary := "A cat."; MySQL.created_at := 6 |}];
     MySQL.next_id := 7 |}.

End Scenario.

(** * Properties *)

(** ** Strings *)

Lemma length_append (a b : string) :
  String.length (a ++ b) = String.length a + String.length b.
Proof.
  induction a as [| c a IH]; simpl; [reflexivity | now rewrite IH].
Qed.

Lemma slice_to_length (n : nat) (s : string) :
  String.length (PyStr.slice_to n s) <= n.
Proof.
  revert s; induction n as [| n IH]; intros [| c s]; simpl; try lia.
  specialize (IH s); lia.
Qed.

Lemma slice_to_short (n : nat) (s : string) :
  String.length s <= n -> PyStr.slice_to n s = s.
Proof.
  revert s; induction n as [| n IH]; intros [| c s]; simpl; intros H;
    try reflexivity; try lia.
  f_equal; apply IH; lia.
Qed.

Lemma slice_to_idempotent (n : nat) (s : string) :
  PyStr.slice_to n (PyStr.slice_to n s) = PyStr.slice_to n s.
Proof.
  apply slice_to_short, slice_to_length.
Qed.

Lemma preview_length (n : nat) (text : string) :
  String.length (preview n text) <= n + 3.
Proof.
  unfold preview.
  destruct (n <? String.length text) eqn:Hlt.
  - rewrite length_append. pose proof (slice_to_length n text). simpl. lia.
  - apply Nat.ltb_ge in Hlt. lia.
Qed.

Lemma preview_short (n : nat) (text : string) :
  String.length text <= n -> preview n text = text.
Proof.
  intros H. unfold preview.
  destruct (n <? String.length text) eqn:Hlt; [| reflexivity].
  apply Nat.ltb_lt in Hlt. lia.
Qed.

Lemma truthy_false (s : string) : PyStr.truthy s = false <-> s = "".
Proof.
  destruct s; simpl; split; intros H; try reflexivity; discriminate.
Qed.

(** ** File-grounded context ([app.py], [send_message]) *)

(** C6: every fragment of a file-grounded context is a header followed by a
    cut of the source text: at most 2000 characters of an item's extracted
    text, or at most 1000 characters of its vision summary, whatever the
    length of the source; the cut is idempotent and leaves a text that is
    already short enough untouched. *)
Theorem file_context_fragments_bounded (st : Mongo.store) (session_id : nat) :
  Forall (fun fragment =>
            exists d, In d (Mongo.items_of st session_id) /\
              ((exists body,
                   fragment = ("Extracted text from " ++ Mongo.original_filename d
                               ++ ":" ++ PyStr.nl ++ body)%string
                   /\ body = PyStr.slice_to 2000 (Mongo.extracted_text d)
                   /\ String.length body <= 2000)
               \/
               (exists v body,
                   Mongo.find_vision st (Mongo.ui_id d) = Some v
                   /\ fragment = ("Vision analysis for " ++ Mongo.original_filename d
                                  ++ ":" ++ PyStr.nl ++ body)%string
                   /\ body = PyStr.slice_to 1000 (Mongo.summary v)
                   /\ String.length body <= 1000)))
         (Mongo.file_contexts st session_id)
  /\ (forall n s, PyStr.slice_to n (PyStr.slice_to n s) = PyStr.slice_to n s)
  /\ (forall n s, String.length s <= n -> PyStr.slice_to n s = s).
Proof.
  split; [| split; [apply slice_to_idempotent | apply slice_to_short]].
  unfold Mongo.file_contexts.
  apply Forall_app; split; apply Forall_flat_map, Forall_forall; intros d Hd.
  - destruct (PyStr.truthy (Mongo.extracted_text d)); constructor; [| constructor].
    exists d; split; [exact Hd | left].
    eexists; split; [reflexivity | split; [reflexivity | apply slice_to_length]].
  - destruct (Mongo.find_vision st (Mongo.ui_id d)) as [v |] eqn:Hv;
      [| constructor].
    destruct (PyStr.truthy (Mongo.summary v)); constructor; [| constructor].
    exists d; split; [exact Hd | right].
    exists v; eexists; split; [exact Hv |].
    split; [reflexivity | split; [reflexivity | apply slice_to_length]].
Qed.

Lemma flat_map_nil {A B : Type} (f : A -> list B) (l : list A) :
  flat_map f l = [] <-> Forall (fun x => f x = []) l.
Proof.
  induction l as [| x l IH]; simpl.
  - split; [constructor | reflexivity].
  - split.
    + intros H. apply app_eq_nil in H. destruct H as [Hx Hl].
      constructor; [exact Hx | now apply IH].
    + intros H. inversion H as [| ? ? Hx Hl]; subst.
      rewrite Hx. simpl. now apply IH.
Qed.

Lemma flat_map_agree {A B : Type} (f g : A -> list B) (l : list A) :
  (forall x, In x l -> f x = g x) -> flat_map f l = flat_map g l.
Proof.
  induction l as [| x l IH]; simpl; intros H; [reflexivity |].
  rewrite (H x) by now left.
  f_equal. apply IH. intros y Hy. apply H. now right.
Qed.

(** Saving a message leaves the file contexts of every session as they were. *)
Lemma file_contexts_insert_message st s who text t session_id :
  Mongo.file_contexts (Mongo.insert_message st s who text t) session_id
  = Mongo.file_contexts st session_id.
Proof. reflexivity. Qed.

(** [file_contexts] is empty exactly when no item of the session has text and
    none has a vision record with a summary. *)
Lemma file_contexts_empty_iff (st : Mongo.store) (session_id : nat) :
  Mongo.file_contexts st session_id = [] <->
  (forall d, In d (Mongo.items_of st session_id) ->
     Mongo.extracted_text d = "" /\
     (forall v, Mongo.find_vision st (Mongo.ui_id d) = Some v ->
                Mongo.summary v = "")).
Proof.
  unfold Mongo.file_contexts. split.
  - intros H. apply app_eq_nil in H. destruct H as [Ht Hv].
    rewrite flat_map_nil, Forall_forall in Ht, Hv.
    intros d Hd. specialize (Ht d Hd). specialize (Hv d Hd). split.
    + destruct (Mongo.extracted_text d); [reflexivity | discriminate].
    + intros v Hfind. rewrite Hfind in Hv.
      destruct (Mongo.summary v); [reflexivity | discriminate].
  - intros H.
    assert (Ht : flat_map (fun d => if PyStr.truthy (Mongo.extracted_text d)
                                    then [Mongo.text_fragment d] else [])
                          (Mongo.items_of st session_id) = []).
    { apply flat_map_nil, Forall_forall. intros d Hd.
      destruct (H d Hd) as [Htext _]. now rewrite Htext. }
    rewrite Ht. simpl.
    apply flat_map_nil, Forall_forall. intros d Hd.
    destruct (H d Hd) as [_ Hvis].
    destruct (Mongo.find_vision st (Mongo.ui_id d)) as [v |]; [| reflexivity].
    now rewrite (Hvis v eq_refl).
Qed.

(** The reply of [send_message] is what the model made of [composed_prompt]. *)
Lemma send_message_asks_composed_prompt E user session_id raw now st :
  snd (Mongo.send_message E (Some user) session_id raw now st) =
  Http 200
    (JObj [("user_message", JStr (PyStr.strip raw));
           ("ai_message",
            JStr match Mongo.generate_content E
                         (Mongo.composed_prompt session_id raw now st) with
                 | Gives text => if PyStr.truthy text then text else "No response."
                 | Fails e => ("AI error: " ++ e)%string
                 end)]).
Proof.
  unfold Mongo.send_message, Mongo.login_required, Mongo.send_message_view,
    Mongo.composed_prompt, Mongo.get_ai_response.
  simpl snd.
  destruct (Mongo.file_contexts _ session_id); reflexivity.
Qed.

(** C1, as the code has it: when no item of the session has extracted text
    and none has a stored vision record with a non-empty summary, the answer
    operation takes the conversational branch and sends the recent-message
    context to the model. *)
Theorem conversational_fallback (st : Mongo.store) (session_id : nat)
    (raw : string) (now : nat -> nat) :
  (forall d, In d (Mongo.items_of st session_id) ->
     Mongo.extracted_text d = "" /\
     (forall v, Mongo.find_vision st (Mongo.ui_id d) = Some v ->
                Mongo.summary v = "")) ->
  let asked :=
    Mongo.insert_message st session_id "user" (PyStr.strip raw) (now 0) in
  Mongo.context_mode asked session_id = Mongo.Conversational /\
  Mongo.composed_prompt session_id raw now st =
    Mongo.full_prompt (PyStr.strip raw)
                      (Mongo.conversation_context asked session_id).
Proof.
  intros H asked.
  apply file_contexts_empty_iff in H.
  unfold Mongo.context_mode, Mongo.composed_prompt.
  fold asked.
  assert (Hasked : Mongo.file_contexts asked session_id = [])
    by (unfold asked; now rewrite file_contexts_insert_message).
  rewrite Hasked.
  split; reflexivity.
Qed.

Lemma conversational_fallback_witness :
  Mongo.context_mode
    (Mongo.insert_message Scenario.after_blank_scan 1 "user"
                          (PyStr.strip " anything new? ") (Scenario.clock 0)) 1
  = Mongo.Conversational.
Proof.
  destruct (conversational_fallback Scenario.after_blank_scan 1
              " anything new? " Scenario.clock) as [Hmode _].
  - intros d Hd. vm_compute in Hd. destruct Hd as [<- | []].
    split; [reflexivity | intros v Hv; vm_compute in Hv; discriminate Hv].
  - exact Hmode.
Defined.

(** C1 at a concrete session: its only item is a photo without readable
    text whose visual-description call failed, and still the answer operation
    is file-grounded, with the diagnostic of the failed call as its context. *)
Lemma failed_vision_session_is_file_grounded :
  Forall (fun d => Mongo.extracted_text d = "")
         (Mongo.items_of Scenario.after_failed_photo 1)
  /\ success (Mongo.analyze_image_with_vision Scenario.services_down
                (Mongo.bytes Scenario.photo) "Describe this image") = false
  /\ Mongo.file_contexts Scenario.after_failed_photo 1
     = [("Vision analysis for photo.png:" ++ PyStr.nl
         ++ "Error: connection reset")%string]
  /\ Mongo.context_mode
       (Mongo.insert_message Scenario.after_failed_photo 1 "user"
                             "what is shown?" 200) 1
     = Mongo.FileGrounded.
Proof.
  vm_compute. repeat split. repeat constructor.
Qed.

(** ** Accepted uploads ([app.py], [upload_file]) *)

Ltac finish_upload :=
  repeat split;
  first [ assumption | reflexivity | cbn [app]; rewrite app_nil_r; reflexivity ].

(** What an upload answered with status 200 has stored and returned. *)
Lemma upload_file_accepted E login file sid now st st' fields :
  Mongo.upload_file E login file sid now st = (st', Http 200 (JObj fields)) ->
  exists user f s ext id_text id_vision,
    login = Some user /\ file = Some f /\ sid = Some s /\
    allowed_file (Mongo.filename f) = true /\
    nth_error (PyStr.rsplit1 "." (secure_filename (Mongo.filename f))) 1 = Some ext /\
    let '(text, vision, kind) := Mongo.extract E (PyStr.lower ext) (Mongo.bytes f) in
    let text_part :=
      if PyStr.truthy (PyStr.strip text)
      then Some (Mongo.get_ai_response E
                   ("Summarize and extract key points:" ++ PyStr.nl ++ PyStr.nl
                    ++ PyStr.slice_to 2000 text) "")
      else None in
    let vision_part :=
      match vision with
      | Some v => if String.eqb kind "image" then Some v else None
      | None => None
      end in
    Mongo.analysis_results st'
      = Mongo.analysis_results st
        ++ match text_part with
           | Some t =>
               [{| Mongo.ar_id := id_text; Mongo.ar_item_id := Mongo.next_id st;
                   Mongo.ar_session_id := s;
                   Mongo.analysis_type := kind ++ "_text_analysis";
                   Mongo.summary := t; Mongo.created_at := now 1 |}]
           | None => []
           end
        ++ match vision_part with
           | Some v =>
               [{| Mongo.ar_id := id_vision; Mongo.ar_item_id := Mongo.next_id st;
                   Mongo.ar_session_id := s;
                   Mongo.analysis_type := "vision_analysis";
                   Mongo.summary := analysis v; Mongo.created_at := now 2 |}]
           | None => []
           end /\
    fields = Mongo.response_data (Mongo.next_id st)
               (secure_filename (Mongo.filename f)) kind
               (match text_part with
                | Some t => [Mongo.text_analysis_entry t]
                | None => []
                end ++
                match vision_part with
                | Some v => [Mongo.vision_analysis_entry v]
                | None => []
                end)
               text vision.
Proof.
  intros H.
  unfold Mongo.upload_file, Mongo.login_required, Mongo.upload_file_view in H.
  destruct login as [user |]; [| discriminate].
  destruct file as [f |]; [| discriminate].
  destruct sid as [s |]; [| discriminate].
  destruct (String.eqb (Mongo.filename f) ""); [discriminate |].
  destruct (allowed_file (Mongo.filename f)) eqn:Hallowed; [| discriminate].
  simpl negb in H. cbv iota in H.
  destruct (Mongo.find_session st s user); [| discriminate].
  destruct (nth_error (PyStr.rsplit1 "." (secure_filename (Mongo.filename f))) 1)
    as [ext |] eqn:Hext; [| discriminate].
  exists user, f, s, ext.
  destruct (Mongo.extract E (PyStr.lower ext) (Mongo.bytes f))
    as [[text vision] kind].
  cbv beta iota zeta.
  destruct (PyStr.truthy (PyStr.strip text)) eqn:Htext;
    destruct vision as [v |];
    try destruct (String.eqb kind "image") eqn:Hkind;
    injection H as <- <-;
    cbn [Mongo.analysis_results Mongo.touch_session Mongo.insert_analysis
         Mongo.insert_item Mongo.next_id];
    rewrite <- ?app_assoc;
    exists (S (Mongo.next_id st));
    first [ exists (S (S (Mongo.next_id st))); solve [finish_upload]
          | exists (S (Mongo.next_id st)); solve [finish_upload] ].
Qed.

(** The item an accepted upload adds, and the collections it leaves alone. *)
Lemma upload_file_effect E login file sid now st st' fields :
  Mongo.upload_file E login file sid now st = (st', Http 200 (JObj fields)) ->
  exists user f s ext,
    login = Some user /\ file = Some f /\ sid = Some s /\
    Mongo.find_session st s user <> None /\
    nth_error (PyStr.rsplit1 "." (secure_filename (Mongo.filename f))) 1
      = Some ext /\
    let '(text, _, kind) :=
      Mongo.extract E (PyStr.lower ext) (Mongo.bytes f) in
    Mongo.uploaded_items st'
      = Mongo.uploaded_items st
        ++ [{| Mongo.ui_id := Mongo.next_id st; Mongo.ui_session_id := s;
               Mongo.ui_user_id := user;
               Mongo.original_filename := secure_filename (Mongo.filename f);
               Mongo.file_type := kind;
               Mongo.file_size := String.length (Mongo.bytes f);
               Mongo.mime_type :=
                 match Mongo.guess_type E (Mongo.filename f) with
                 | Some m => m
                 | None => "application/octet-stream"
                 end;
               Mongo.file_content := Mongo.bytes f;
               Mongo.extracted_text := text;
               Mongo.uploaded_at := now 0 |}]
    /\ Mongo.messages st' = Mongo.messages st
    /\ Mongo.next_id st < Mongo.next_id st'
    /\ jlookup "file_id" fields = Some (JNum (Mongo.next_id st)).
Proof.
  intros H.
  unfold Mongo.upload_file, Mongo.login_required, Mongo.upload_file_view in H.
  destruct login as [user |]; [| discriminate].
  destruct file as [f |]; [| discriminate].
  destruct sid as [s |]; [| discriminate].
  destruct (String.eqb (Mongo.filename f) ""); [discriminate |].
  destruct (negb (allowed_file (Mongo.filename f))); [discriminate |].
  destruct (Mongo.find_session st s user) eqn:Hsession; [| discriminate].
  destruct (nth_error (PyStr.rsplit1 "." (secure_filename (Mongo.filename f))) 1)
    as [ext |] eqn:Hext; [| discriminate].
  exists user, f, s, ext.
  destruct (Mongo.extract E (PyStr.lower ext) (Mongo.bytes f))
    as [[text vision] kind].
  cbv beta iota zeta.
  assert (Hfile_id : forall analyses,
             jlookup "file_id"
               (Mongo.response_data (Mongo.next_id st)
                  (secure_filename (Mongo.filename f)) kind analyses text vision)
             = Some (JNum (Mongo.next_id st))).
  { intros analyses. unfold Mongo.response_data.
    destruct (PyStr.truthy (PyStr.strip text)); destruct vision as [v |];
      try destruct (String.eqb kind "image" && success v); reflexivity. }
  destruct (PyStr.truthy (PyStr.strip text));
    destruct vision as [v |];
    try destruct (String.eqb kind "image");
    injection H as <- <-;
    cbn [Mongo.uploaded_items Mongo.messages Mongo.touch_session
         Mongo.insert_analysis Mongo.insert_item Mongo.next_id];
    (repeat split; try reflexivity; try congruence; try lia; try apply Hfile_id).
Qed.

(** The three ways [extract] dispatches on the extension. *)
Lemma extract_cases E file_ext bytes :
  (file_ext = "pdf" /\
   Mongo.extract E file_ext bytes
   = (Mongo.extract_text_from_pdf E bytes, None, "pdf"))
  \/ (PyStr.mem file_ext Mongo.image_extensions = true /\
      Mongo.extract E file_ext bytes
      = (Mongo.extract_text_from_image E bytes,
         Some (Mongo.analyze_image_with_vision E bytes "Describe this image"),
         "image"))
  \/ (PyStr.mem file_ext Mongo.image_extensions = false /\
      Mongo.extract E file_ext bytes = ("", None, "other")).
Proof.
  unfold Mongo.extract.
  destruct (String.eqb file_ext "pdf") eqn:Hpdf.
  - left. apply String.eqb_eq in Hpdf. now split.
  - destruct (PyStr.mem file_ext Mongo.image_extensions) eqn:Himg.
    + right; left. now split.
    + right; right. now split.
Qed.


Lemma response_data_extracted_text id name kind analyses text vision s :
  jlookup "extracted_text"
          (Mongo.response_data id name kind analyses text vision)
  = Some (JStr s) -> s = preview 500 text.
Proof.
  unfold Mongo.response_data.
  destruct (PyStr.truthy (PyStr.strip text)); destruct vision as [v |];
    try destruct (String.eqb kind "image" && success v);
    cbn; intros H; congruence.
Qed.

Lemma response_data_vision_preview id name kind analyses text vision s :
  jlookup "vision_preview"
          (Mongo.response_data id name kind analyses text vision)
  = Some (JStr s) ->
  exists v, vision = Some v /\ success v = true /\ s = preview 300 (analysis v).
Proof.
  unfold Mongo.response_data.
  destruct (PyStr.truthy (PyStr.strip text)); destruct vision as [v |];
    try destruct (String.eqb kind "image" && success v) eqn:Hok;
    cbn; intros H; try discriminate;
    apply andb_prop in Hok; destruct Hok as [_ Hok];
    exists v; repeat split; congruence.
Qed.




Lemma response_data_vision_preview_image id name kind analyses text vision s :
  jlookup "vision_preview"
          (Mongo.response_data id name kind analyses text vision)
  = Some (JStr s) ->
  exists v, vision = Some v /\ String.eqb kind "image" = true
            /\ s = preview 300 (analysis v).
Proof.
  unfold Mongo.response_data.
  destruct (PyStr.truthy (PyStr.strip text)); destruct vision as [v |];
    try destruct (String.eqb kind "image" && success v) eqn:Hok;
    cbn; intros H; try discriminate;
    apply andb_prop in Hok; destruct Hok as [Hok _];
    exists v; repeat split; congruence.
Qed.

Lemma preview_cases (n : nat) (text : string) :
  String.length (preview n text) <= n + 3
  /\ (String.length text <= n -> preview n text = text)
  /\ (n < String.length text ->
      preview n text = (PyStr.slice_to n text ++ "...")%string).
Proof.
  split; [apply preview_length | split; [apply preview_short |]].
  intros Hlong. unfold preview. apply Nat.ltb_lt in Hlong. now rewrite Hlong.
Qed.

(** C7, as the code has it: an accepted upload stores one item, and the
    [extracted_text] it returns is the preview of the text stored with that
    item: the text itself when it has at most 500 characters, its first 500
    characters followed by a three-character ellipsis otherwise - at most
    503 characters. The [vision_preview] it returns is in the same way the
    preview, with 300 in place of 500 and so at most 303 characters, of the
    description stored in the [vision_analysis] record of that item. *)
Theorem upload_previews_bounded E login file sid now st st' fields :
  Mongo.upload_file E login file sid now st = (st', Http 200 (JObj fields)) ->
  exists d,
    Mongo.uploaded_items st' = Mongo.uploaded_items st ++ [d]
    /\ (forall s, jlookup "extracted_text" fields = Some (JStr s) ->
          let text := Mongo.extracted_text d in
          s = preview 500 text
          /\ String.length s <= 503
          /\ (String.length text <= 500 -> s = text)
          /\ (500 < String.length text ->
              s = (PyStr.slice_to 500 text ++ "...")%string))
    /\ (forall s, jlookup "vision_preview" fields = Some (JStr s) ->
          exists a,
            In a (Mongo.analysis_results st')
            /\ Mongo.ar_item_id a = Mongo.ui_id d
            /\ Mongo.analysis_type a = "vision_analysis"
            /\ let text := Mongo.summary a in
               s = preview 300 text
               /\ String.length s <= 303
               /\ (String.length text <= 300 -> s = text)
               /\ (300 < String.length text ->
                   s = (PyStr.slice_to 300 text ++ "...")%string)).
Proof.
  intros H.
  destruct (upload_file_effect _ _ _ _ _ _ _ _ H)
    as (user & f & s0 & ext & -> & -> & -> & _ & Hext & Heffect).
  destruct (upload_file_accepted _ _ _ _ _ _ _ _ H)
    as (user' & f' & s0' & ext' & id_text & id_vision
        & Huser & Hf & Hs & _ & Hext' & Hrest).
  injection Huser as <-. injection Hf as <-. injection Hs as <-.
  rewrite Hext in Hext'. injection Hext' as <-.
  destruct (Mongo.extract E (PyStr.lower ext) (Mongo.bytes f))
    as [[text vision] kind].
  destruct Heffect as (Hitems & _).
  destruct Hrest as [Hanalyses ->].
  eexists. split; [exact Hitems |].
  split; intros s Hs; cbv zeta.
  - apply response_data_extracted_text in Hs. subst s.
    simpl Mongo.extracted_text.
    split; [reflexivity | apply (preview_cases 500)].
  - apply response_data_vision_preview_image in Hs.
    destruct Hs as (v & -> & Himage & ->).
    rewrite Himage in Hanalyses.
    eexists. split; [| split; [| split]].
    + rewrite Hanalyses. apply in_or_app. right. apply in_or_app. right.
      left. reflexivity.
    + reflexivity.
    + reflexivity.
    + simpl Mongo.summary.
      split; [reflexivity | apply (preview_cases 300)].
Qed.

Lemma upload_previews_bounded_witness :
  String.length (Scenario.replicate 500 "a" ++ "...") <= 503.
Proof.
  destruct (upload_previews_bounded Scenario.long_pdf (Some 7)
              (Some Scenario.notes) (Some 1) Scenario.clock Scenario.fresh
              (fst (Mongo.upload_file Scenario.long_pdf (Some 7)
                      (Some Scenario.notes) (Some 1) Scenario.clock
                      Scenario.fresh))
              (body_fields Scenario.notes_reply)) as (d & _ & Htext & _).
  - vm_compute. reflexivity.
  - apply (Htext (Scenario.replicate 500 "a" ++ "...")%string).
    vm_compute. reflexivity.
Defined.

(** C7 at concrete uploads: a text of 501 characters comes back as a preview
    of 503 characters, and a description of 301 characters as one of 303. *)
Lemma previews_exceed_500_and_300 :
  (exists s, Scenario.notes_reply
             = Http 200 (JObj (body_fields Scenario.notes_reply))
             /\ jlookup "extracted_text" (body_fields Scenario.notes_reply)
                = Some (JStr s)
             /\ String.length s = 503)
  /\
  (exists s, Scenario.photo_reply
             = Http 200 (JObj (body_fields Scenario.photo_reply))
             /\ jlookup "vision_preview" (body_fields Scenario.photo_reply)
                = Some (JStr s)
             /\ String.length s = 303).
Proof.
  split; eexists; (split; [vm_compute; reflexivity |]);
    (split; [vm_compute; reflexivity | vm_compute; reflexivity]).
Qed.

(** ** Prompt composition ([app.py], [send_message]) *)

(** C9: in file-grounded mode the text sent to the model depends only on the
    question, on the items of the session and on the vision records found for
    them: two stores that agree on these send the same prompt, whatever their
    message histories (and clocks) are. *)
Theorem grounded_prompt_ignores_history
    (st1 st2 : Mongo.store) (session_id : nat) (raw : string)
    (now1 now2 : nat -> nat) :
  Mongo.items_of st1 session_id = Mongo.items_of st2 session_id ->
  (forall d, In d (Mongo.items_of st1 session_id) ->
             Mongo.find_vision st1 (Mongo.ui_id d)
             = Mongo.find_vision st2 (Mongo.ui_id d)) ->
  Mongo.context_mode st1 session_id = Mongo.FileGrounded ->
  Mongo.composed_prompt session_id raw now1 st1
  = Mongo.composed_prompt session_id raw now2 st2
  /\ Mongo.composed_prompt session_id raw now1 st1
     = Mongo.full_prompt
         (Mongo.grounded_prompt (PyStr.strip raw)
                                (Mongo.file_contexts st1 session_id)) "".
Proof.
  intros Hitems Hvision Hmode.
  assert (Hsame : Mongo.file_contexts st2 session_id
                  = Mongo.file_contexts st1 session_id).
  { unfold Mongo.file_contexts. rewrite <- Hitems. f_equal.
    apply flat_map_agree. intros d Hd. now rewrite (Hvision d Hd). }
  unfold Mongo.composed_prompt.
  rewrite !file_contexts_insert_message, Hsame.
  unfold Mongo.context_mode in Hmode.
  destruct (Mongo.file_contexts st1 session_id); [discriminate |].
  split; reflexivity.
Qed.

Lemma grounded_prompt_ignores_history_witness :
  Mongo.composed_prompt 1 "Who issued it?" Scenario.clock
                        Scenario.after_invoice
  = Mongo.composed_prompt 1 "Who issued it?" (fun k => 300 + k)
                          Scenario.after_invoice_question.
Proof.
  apply (grounded_prompt_ignores_history
           Scenario.after_invoice Scenario.after_invoice_question 1
           "Who issued it?" Scenario.clock (fun k => 300 + k)).
  - vm_compute. reflexivity.
  - intros d Hd. vm_compute in Hd. destruct Hd as [<- | []].
    vm_compute. reflexivity.
  - vm_compute. reflexivity.
Defined.

(** The two stores of the example above do differ in their histories. *)
Lemma invoice_histories_differ :
  Mongo.messages Scenario.after_invoice = []
  /\ map Mongo.content (Mongo.messages Scenario.after_invoice_question)
     = ["What is the total?"; "The total is $500."].
Proof. vm_compute. split; reflexivity. Qed.

(** ** Recent-message context ([app.py], [send_message]) *)

Section DescendingSort.
Context {A : Type} (key : A -> nat).

Lemma insert_desc_smallest (x : A) (l : list A) :
  Forall (fun y => key x < key y) l -> insert_desc key x l = l ++ [x].
Proof.
  induction 1 as [| y l Hy _ IH]; simpl; [reflexivity |].
  destruct (key y <=? key x) eqn:Hle.
  - apply Nat.leb_le in Hle. lia.
  - now rewrite IH.
Qed.

(** Sorting a chronological list in descending order reverses it. *)
Lemma sort_desc_chronological (l : list A) :
  StronglySorted lt (map key l) -> sort_desc key l = rev l.
Proof.
  induction l as [| x l IH]; simpl; intros Hsorted; [reflexivity |].
  apply StronglySorted_inv in Hsorted. destruct Hsorted as [Hl Hx].
  rewrite IH by exact Hl.
  apply insert_desc_smallest, Forall_rev.
  rewrite Forall_map in Hx. exact Hx.
Qed.

Lemma chronological_snoc (l : list A) (x : A) :
  StronglySorted lt (map key l) ->
  Forall (fun y => key y < key x) l ->
  StronglySorted lt (map key (l ++ [x])).
Proof.
  induction l as [| y l IH]; simpl; intros Hsorted Hall.
  - repeat constructor.
  - apply StronglySorted_inv in Hsorted. destruct Hsorted as [Hl Hy].
    inversion Hall as [| ? ? Hyx Hall']; subst.
    constructor; [now apply IH |].
    rewrite map_app, Forall_app. split; [exact Hy |].
    repeat constructor. exact Hyx.
Qed.

(** The [n] largest of a chronological list, put back in order, are its
    last [n] elements. *)
Lemma recent_of_chronological (n : nat) (l : list A) :
  StronglySorted lt (map key l) ->
  rev (firstn n (sort_desc key l)) = PyStr.last_n n l.
Proof.
  intros Hsorted. rewrite sort_desc_chronological by exact Hsorted.
  unfold PyStr.last_n. now rewrite firstn_rev, rev_involutive.
Qed.
End DescendingSort.

Lemma messages_of_insert_message st session_id who text t :
  Mongo.messages_of (Mongo.insert_message st session_id who text t) session_id
  = Mongo.messages_of st session_id
    ++ [{| Mongo.m_id := Mongo.next_id st; Mongo.m_session_id := session_id;
           Mongo.sender := who; Mongo.content := text;
           Mongo.timestamp := t |}].
Proof.
  unfold Mongo.messages_of, Mongo.insert_message. simpl.
  rewrite filter_app. simpl. now rewrite Nat.eqb_refl.
Qed.

(** C5, as the code has it: with the session's messages stored in
    chronological order, the conversational context is made of the last five
    messages of the history extended with the question just saved, oldest
    first, one ["{sender}: {content}"] line each, joined by newlines. *)
Theorem conversational_context_is_recent_history
    (st : Mongo.store) (session_id : nat) (raw : string) (now : nat -> nat) :
  StronglySorted lt (map Mongo.timestamp (Mongo.messages_of st session_id)) ->
  Forall (fun m => Mongo.timestamp m < now 0) (Mongo.messages_of st session_id) ->
  Mongo.context_mode st session_id = Mongo.Conversational ->
  let question :=
    {| Mongo.m_id := Mongo.next_id st; Mongo.m_session_id := session_id;
       Mongo.sender := "user"; Mongo.content := PyStr.strip raw;
       Mongo.timestamp := now 0 |} in
  let history := Mongo.messages_of st session_id ++ [question] in
  Mongo.composed_prompt session_id raw now st
  = Mongo.full_prompt (PyStr.strip raw)
      (PyStr.join PyStr.nl
         (map (fun m => (Mongo.sender m ++ ": " ++ Mongo.content m)%string)
              (PyStr.last_n 5 history)))
  /\ Mongo.recent_msgs
       (Mongo.insert_message st session_id "user" (PyStr.strip raw) (now 0))
       session_id
     = firstn 5 (rev history).
Proof.
  intros Hsorted Hbefore Hmode question history.
  pose proof (chronological_snoc Mongo.timestamp _ question Hsorted Hbefore)
    as Hhistory.
  fold history in Hhistory.
  unfold Mongo.composed_prompt, Mongo.context_mode in *.
  rewrite file_contexts_insert_message.
  destruct (Mongo.file_contexts st session_id); [| discriminate].
  unfold Mongo.conversation_context, Mongo.recent_msgs.
  rewrite messages_of_insert_message. fold question. fold history.
  split.
  - now rewrite recent_of_chronological.
  - now rewrite sort_desc_chronological.
Qed.

Lemma conversational_context_is_recent_history_witness :
  Mongo.composed_prompt 1 "and then?" Scenario.clock Scenario.greeted
  = Mongo.full_prompt "and then?"
      ("user: hi" ++ PyStr.nl ++ "assistant: hello" ++ PyStr.nl
       ++ "user: and then?").
Proof.
  destruct (conversational_context_is_recent_history
              Scenario.greeted 1 "and then?" Scenario.clock) as [Hprompt _].
  - vm_compute. repeat constructor.
  - simpl. repeat (constructor; [simpl; unfold Scenario.clock; lia |]).
    constructor.
  - reflexivity.
  - rewrite Hprompt. vm_compute. reflexivity.
Defined.

(** C5 at Scenario D: the session has no item and the two prior messages
    "user: hi" and "assistant: hello"; the context composed for the third
    message holds three lines, the last one being the question itself. *)
Lemma scenario_d_context_includes_the_question :
  Mongo.items_of Scenario.greeted 1 = []
  /\ map Mongo.render_message (Mongo.messages_of Scenario.greeted 1)
     = ["user: hi"; "assistant: hello"]
  /\ Mongo.composed_prompt 1 "and then?" Scenario.clock Scenario.greeted
     = Mongo.full_prompt "and then?" Scenario.greeted_context
  /\ Scenario.greeted_context
     = ("user: hi" ++ PyStr.nl ++ "assistant: hello" ++ PyStr.nl
        ++ "user: and then?")%string
  /\ Scenario.greeted_context
     <> ("user: hi" ++ PyStr.nl ++ "assistant: hello")%string.
Proof.
  repeat split; try (vm_compute; reflexivity).
  vm_compute. discriminate.
Qed.

(** ** Session ownership ([send_message]) *)


(** The MySQL [send_message] refuses a session the caller does not own, and
    leaves the store as it was. *)
Lemma mysql_send_message_checks_owner
    E user is_json session_id raw file_id now st :
  MySQL.find_session st session_id user = None ->
  fst (MySQL.send_message E (Some user) is_json (Some session_id) raw file_id
                          now st) = st
  /\ (MySQL.connected E = true ->
      PyStr.truthy (PyStr.strip raw) = true ->
      session_id <> 0 ->
      snd (MySQL.send_message E (Some user) is_json (Some session_id) raw
                              file_id now st)
      = MySQL.error 404 "Session not found").
Proof.
  intros Hfind.
  unfold MySQL.send_message, MySQL.login_required, MySQL.send_message_view.
  destruct session_id as [| sid]; [split; [reflexivity | congruence] |].
  rewrite Hfind.
  destruct (PyStr.truthy (PyStr.strip raw)); simpl;
    destruct (MySQL.connected E); simpl; split; congruence.
Qed.

(** C3 at a concrete request: session 1 belongs to user 7, user 8 posts a
    message to it; the MongoDB route answers 200 and stores both the message
    and the reply in the session. *)
Theorem foreign_session_message_is_stored :
  Mongo.find_session Scenario.fresh 1 7 <> None
  /\ Mongo.find_session Scenario.fresh 1 8 = None
  /\ snd (Mongo.send_message Scenario.answering (Some 8) 1 "hello"
                             Scenario.clock Scenario.fresh)
     = Http 200 (JObj [("user_message", JStr "hello");
                       ("ai_message", JStr "Hello!")])
  /\ Mongo.messages Scenario.fresh = []
  /\ map (fun m => (Mongo.m_session_id m, Mongo.sender m, Mongo.content m))
         (Mongo.messages
            (fst (Mongo.send_message Scenario.answering (Some 8) 1 "hello"
                                     Scenario.clock Scenario.fresh)))
     = [(1, "user", "hello"); (1, "assistant", "Hello!")].
Proof.
  vm_compute. repeat split. discriminate.
Qed.

(** ** Extension of the sanitized file name ([upload_file]) *)

(** An accepted name whose sanitized form holds no dot makes the MongoDB
    route raise, for every store in which the caller owns the session. *)
Lemma mongo_upload_raises_without_dot E user f s now st :
  Mongo.filename f <> "" ->
  allowed_file (Mongo.filename f) = true ->
  Mongo.find_session st s user <> None ->
  PyStr.rcut "." (secure_filename (Mongo.filename f)) = None ->
  Mongo.upload_file E (Some user) (Some f) (Some s) now st
  = (st, Raised IndexError).
Proof.
  intros Hname Hallowed Hsession Hdot.
  unfold Mongo.upload_file, Mongo.login_required, Mongo.upload_file_view.
  apply String.eqb_neq in Hname. rewrite Hname, Hallowed. simpl negb.
  destruct (Mongo.find_session st s user); [| congruence].
  unfold PyStr.rsplit1. now rewrite Hdot.
Qed.

(** Other accepted names that lose their stem. *)
Lemma stemless_names :
  map (fun name => (allowed_file name, secure_filename name))
      ["_.pdf"; "../.png"; " .jpg"; "#.gif"]
  = [(true, "pdf"); (true, "png"); (true, "jpg"); (true, "gif")].
Proof. vm_compute. reflexivity. Qed.

(** C10 at the file name ".pdf": the allow-list accepts it, the sanitizer
    strips its leading dot, and the extension lookup on the sanitized name is
    out of range. The MongoDB route lets the [IndexError] escape; the MySQL
    route catches it and answers 500. Nothing is stored. *)
Theorem dot_pdf_extension_out_of_range :
  allowed_file ".pdf" = true
  /\ secure_filename ".pdf" = "pdf"
  /\ PyStr.rsplit1 "." (secure_filename ".pdf") = ["pdf"]
  /\ nth_error (PyStr.rsplit1 "." (secure_filename ".pdf")) 1 = None
  /\ Mongo.upload_file Scenario.answering (Some 7) (Some Scenario.dot_pdf)
                       (Some 1) Scenario.clock Scenario.fresh
     = (Scenario.fresh, Raised IndexError)
  /\ MySQL.upload_file (Scenario.sql_failing "down") (Some 7) true
                       (Some Scenario.sql_dot_pdf) (Some 1) Scenario.clock
                       Scenario.sql_fresh
     = (Scenario.sql_fresh, MySQL.error 500 "Failed to upload file").
Proof.
  vm_compute. repeat split.
Qed.

(** ** Failure categories of the responder ([get_ai_response]) *)

(** The categories are tried in a fixed order; [classify_error] returns one
    of four fixed sentences, or the generic prefix followed by the first
    hundred characters of the message. *)
Lemma classify_error_cases (e : string) :
  let m := PyStr.lower e in
  (PyStr.contains "not found" m || PyStr.contains "404" m = true
   /\ MySQL.classify_error e = MySQL.model_not_found_sentence)
  \/ (PyStr.contains "not found" m || PyStr.contains "404" m = false
      /\ PyStr.contains "permission" m || PyStr.contains "403" m = true
      /\ MySQL.classify_error e = MySQL.permission_sentence)
  \/ (PyStr.contains "not found" m || PyStr.contains "404" m = false
      /\ PyStr.contains "permission" m || PyStr.contains "403" m = false
      /\ PyStr.contains "quota" m || PyStr.contains "limit" m = true
      /\ MySQL.classify_error e = MySQL.quota_sentence)
  \/ (PyStr.contains "not found" m || PyStr.contains "404" m = false
      /\ PyStr.contains "permission" m || PyStr.contains "403" m = false
      /\ PyStr.contains "quota" m || PyStr.contains "limit" m = false
      /\ PyStr.contains "key" m || PyStr.contains "auth" m = true
      /\ MySQL.classify_error e = MySQL.authentication_sentence)
  \/ (PyStr.contains "not found" m || PyStr.contains "404" m = false
      /\ PyStr.contains "permission" m || PyStr.contains "403" m = false
      /\ PyStr.contains "quota" m || PyStr.contains "limit" m = false
      /\ PyStr.contains "key" m || PyStr.contains "auth" m = false
      /\ MySQL.classify_error e
         = (MySQL.generic_prefix ++ PyStr.slice_to 100 e)%string).
Proof.
  intros m. unfold MySQL.classify_error. fold m.
  destruct (PyStr.contains "not found" m || PyStr.contains "404" m);
    [left; now split |].
  destruct (PyStr.contains "permission" m || PyStr.contains "403" m);
    [right; left; now repeat split |].
  destruct (PyStr.contains "quota" m || PyStr.contains "limit" m);
    [right; right; left; now repeat split |].
  destruct (PyStr.contains "key" m || PyStr.contains "auth" m);
    [right; right; right; left; now repeat split |].
  right; right; right; right. now repeat split.
Qed.

(** The MongoDB responder has no categories: the message of the failure
    follows the prefix ["AI error: "] as it is. *)
Lemma mongo_responder_returns_the_message E prompt context e :
  Mongo.generate_content E (Mongo.full_prompt prompt context) = Fails e ->
  Mongo.get_ai_response E prompt context = ("AI error: " ++ e)%string.
Proof.
  intros H. unfold Mongo.get_ai_response. now rewrite H.
Qed.

(** C4, as the code of [app_mysql.py] has it: a failure whose lower-cased
    message mentions "quota" or "limit", and none of "not found", "404",
    "permission", "403" (which are tried first), is answered with the
    rate-limit sentence, a constant that does not depend on the message.
    Every failure is answered with one of the four fixed sentences, or with
    the generic prefix followed by at most the first 100 characters of the
    message. *)
Theorem quota_failure_gets_rate_limit_sentence
    (E : MySQL.env) (prompt context e : string) :
  MySQL.generate_content E (MySQL.full_prompt prompt context) = Fails e ->
  let m := PyStr.lower e in
  let answer := MySQL.get_ai_response E prompt context in
  (PyStr.contains "quota" m || PyStr.contains "limit" m = true ->
   PyStr.contains "not found" m || PyStr.contains "404" m = false ->
   PyStr.contains "permission" m || PyStr.contains "403" m = false ->
   answer = MySQL.quota_sentence)
  /\ (In answer [MySQL.model_not_found_sentence; MySQL.permission_sentence;
                 MySQL.quota_sentence; MySQL.authentication_sentence]
      \/ (answer = (MySQL.generic_prefix ++ PyStr.slice_to 100 e)%string
          /\ String.length (PyStr.slice_to 100 e) <= 100
          /\ String.length answer <= String.length MySQL.generic_prefix + 100)).
Proof.
  intros Hfail m answer.
  assert (Hanswer : answer = MySQL.classify_error e).
  { unfold answer, MySQL.get_ai_response. now rewrite Hfail. }
  rewrite Hanswer.
  pose proof (slice_to_length 100 e) as Hcut.
  destruct (classify_error_cases e)
    as [[H1 ->] | [(H1 & H2 & ->) | [(H1 & H2 & H3 & ->)
        | [(H1 & H2 & H3 & H4 & ->) | (H1 & H2 & H3 & H4 & ->)]]]];
    fold m in H1; try fold m in H2; try fold m in H3; try fold m in H4.
  - split; [intros; congruence | left; simpl; tauto].
  - split; [intros; congruence | left; simpl; tauto].
  - split; [reflexivity | left; simpl; tauto].
  - split; [intros; congruence | left; simpl; tauto].
  - split; [intros; congruence | right].
    repeat split; [exact Hcut | rewrite length_append; lia].
Qed.

Lemma quota_failure_gets_rate_limit_sentence_witness :
  MySQL.get_ai_response (Scenario.sql_failing "429 Quota exceeded") "hi" ""
  = MySQL.quota_sentence.
Proof.
  apply (quota_failure_gets_rate_limit_sentence
           (Scenario.sql_failing "429 Quota exceeded") "hi" ""
           "429 Quota exceeded");
    vm_compute; reflexivity.
Defined.

(** C4 at a concrete failure: the message mentions "quota", but also "403",
    and the answer is the permission sentence, not the rate-limit one. *)
Lemma quota_failure_with_403_gets_permission_sentence :
  PyStr.contains "quota" "403 Forbidden: quota exceeded" = true
  /\ MySQL.get_ai_response
       (Scenario.sql_failing "403 Forbidden: quota exceeded") "hi" ""
     = MySQL.permission_sentence
  /\ MySQL.permission_sentence <> MySQL.quota_sentence.
Proof.
  repeat split; try (vm_compute; reflexivity).
  vm_compute. discriminate.
Qed.

(** ** Listing the analyses of a session ([get_analyses]) *)

Section SortMembers.
Context {A : Type} (key : A -> nat).

Lemma in_insert_desc (x y : A) (l : list A) :
  In y (insert_desc key x l) <-> y = x \/ In y l.
Proof.
  induction l as [| z l IH]; simpl.
  - intuition congruence.
  - destruct (key z <=? key x); simpl; [intuition congruence |].
    rewrite IH. intuition congruence.
Qed.

Lemma in_sort_desc (y : A) (l : list A) :
  In y (sort_desc key l) <-> In y l.
Proof.
  induction l as [| x l IH]; simpl; [tauto |].
  rewrite in_insert_desc, IH. intuition congruence.
Qed.
End SortMembers.

Section DescendingOrder.
Context {A : Type} (key : A -> nat).





End DescendingOrder.




(** ** The same upload properties on the MySQL route ([app_mysql.py]) *)

(** What a MySQL upload answered with status 200 has stored and returned. *)
Lemma mysql_upload_file_accepted E login is_json file sid now st st' fields :
  MySQL.upload_file E login is_json file sid now st
  = (st', Http 200 (JObj fields)) ->
  exists user f s ext id_text id_vision,
    login = Some user /\ file = Some f /\ sid = Some s /\
    nth_error (PyStr.rsplit1 "." (secure_filename (MySQL.filename f))) 1
      = Some ext /\
    let '(text, vision, kind) :=
      MySQL.extract E (PyStr.lower ext) (MySQL.bytes f) in
    let text_part :=
      if PyStr.truthy (PyStr.strip text)
      then Some (MySQL.get_ai_analysis E text kind) else None in
    let vision_part :=
      match vision with
      | Some v => if String.eqb kind "image" then Some v else None
      | None => None
      end in
    MySQL.analysis_results st'
      = MySQL.analysis_results st
        ++ match text_part with
           | Some t =>
               [{| MySQL.ar_id := id_text; MySQL.ar_item_id := MySQL.next_id st;
                   MySQL.ar_session_id := s;
                   MySQL.analysis_type := kind ++ "_text_analysis";
                   MySQL.summary := t; MySQL.created_at := now 2 |}]
           | None => []
           end
        ++ match vision_part with
           | Some v =>
               [{| MySQL.ar_id := id_vision; MySQL.ar_item_id := MySQL.next_id st;
                   MySQL.ar_session_id := s;
                   MySQL.analysis_type := "vision_analysis";
                   MySQL.summary := analysis v; MySQL.created_at := now 3 |}]
           | None => []
           end /\
    fields = MySQL.response_data (MySQL.next_id st)
               (secure_filename (MySQL.filename f)) kind
               (match text_part with
                | Some t => [MySQL.text_analysis_entry t]
                | None => []
                end ++
                match vision_part with
                | Some v => [MySQL.vision_analysis_entry v]
                | None => []
                end)
               text vision.
Proof.
  intros H.
  unfold MySQL.upload_file, MySQL.login_required, MySQL.upload_file_view,
    MySQL.error in H.
  destruct login as [user |]; [| destruct is_json; discriminate].
  destruct file as [f |]; [| discriminate].
  destruct sid as [s |]; [| discriminate].
  destruct (String.eqb (MySQL.filename f) ""); [discriminate |].
  destruct (negb (allowed_file (MySQL.filename f))); [discriminate |].
  destruct (negb (MySQL.connected E)); [discriminate |].
  destruct (MySQL.find_session st s user); [| discriminate].
  destruct (nth_error (PyStr.rsplit1 "." (secure_filename (MySQL.filename f))) 1)
    as [ext |] eqn:Hext; [| discriminate].
  exists user, f, s, ext.
  destruct (MySQL.extract E (PyStr.lower ext) (MySQL.bytes f))
    as [[text vision] kind].
  cbv beta iota zeta.
  destruct (PyStr.truthy (PyStr.strip text)) eqn:Htext;
    destruct vision as [v |];
    try destruct (String.eqb kind "image") eqn:Hkind;
    injection H as <- <-;
    cbn [MySQL.analysis_results MySQL.touch_session MySQL.insert_analysis
         MySQL.insert_item MySQL.next_id];
    rewrite <- ?app_assoc;
    exists (S (MySQL.next_id st));
    first [ exists (S (S (MySQL.next_id st))); solve [finish_upload]
          | exists (S (MySQL.next_id st)); solve [finish_upload] ].
Qed.

Lemma mysql_extract_cases E file_ext bytes :
  (file_ext = "pdf" /\
   MySQL.extract E file_ext bytes
   = (MySQL.extract_text_from_pdf E bytes, None, "pdf"))
  \/ (PyStr.mem file_ext MySQL.image_extensions = true /\
      MySQL.extract E file_ext bytes
      = (MySQL.extract_text_from_image E bytes,
         Some (MySQL.analyze_image_with_vision E bytes
                 "Describe what you see in this image"),
         "image"))
  \/ (PyStr.mem file_ext MySQL.image_extensions = false /\
      MySQL.extract E file_ext bytes = ("", None, "other")).
Proof.
  unfold MySQL.extract.
  destruct (String.eqb file_ext "pdf") eqn:Hpdf.
  - left. apply String.eqb_eq in Hpdf. now split.
  - destruct (PyStr.mem file_ext MySQL.image_extensions) eqn:Himg.
    + right; left. now split.
    + right; right. now split.
Qed.

(** The MySQL route too stores a [vision_analysis] record for every accepted
    image, with the diagnostic of a failed call as its summary. *)
Lemma mysql_image_upload_persists_vision_record
    E login is_json file sid now st st' fields :
  MySQL.upload_file E login is_json file sid now st
  = (st', Http 200 (JObj fields)) ->
  exists f s ext text_records vision_records,
    file = Some f /\ sid = Some s /\
    nth_error (PyStr.rsplit1 "." (secure_filename (MySQL.filename f))) 1
      = Some ext /\
    MySQL.analysis_results st'
      = MySQL.analysis_results st ++ text_records ++ vision_records /\
    Forall (fun a => MySQL.analysis_type a <> "vision_analysis") text_records /\
    let v := MySQL.analyze_image_with_vision E (MySQL.bytes f)
               "Describe what you see in this image" in
    if PyStr.mem (PyStr.lower ext) MySQL.image_extensions
    then exists id,
           vision_records =
             [{| MySQL.ar_id := id; MySQL.ar_item_id := MySQL.next_id st;
                 MySQL.ar_session_id := s;
                 MySQL.analysis_type := "vision_analysis";
                 MySQL.summary := analysis v;
                 MySQL.created_at := now 3 |}]
    else vision_records = [].
Proof.
  intros H.
  destruct (mysql_upload_file_accepted _ _ _ _ _ _ _ _ _ H)
    as (user & f & s & ext & id_text & id_vision & _ & -> & -> & Hext & Hrest).
  exists f, s, ext.
  destruct (mysql_extract_cases E (PyStr.lower ext) (MySQL.bytes f))
    as [[Hpdf Hex] | [[Himg Hex] | [Himg Hex]]];
    rewrite Hex in Hrest; cbv beta iota zeta in Hrest;
    destruct Hrest as [Hstore _].
  - rewrite Hpdf. cbn [PyStr.mem existsb String.eqb Ascii.eqb Bool.eqb orb
                       MySQL.image_extensions].
    do 2 eexists. repeat split; try exact Hext; try exact Hstore.
    destruct (PyStr.truthy _); repeat constructor. cbn. discriminate.
  - rewrite Himg.
    do 2 eexists. repeat split; try exact Hext; try exact Hstore.
    + destruct (PyStr.truthy _); repeat constructor. cbn. discriminate.
    + exists id_vision. reflexivity.
  - rewrite Himg.
    do 2 eexists. repeat split; try exact Hext; try exact Hstore.
    constructor.
Qed.

Lemma mysql_response_data_previews id name kind analyses text vision :
  (forall s, jlookup "extracted_text"
               (MySQL.response_data id name kind analyses text vision)
             = Some (JStr s) -> s = preview 500 text)
  /\ (forall s, jlookup "vision_preview"
                  (MySQL.response_data id name kind analyses text vision)
                = Some (JStr s) ->
                exists v, vision = Some v /\ s = preview 300 (analysis v)).
Proof.
  unfold MySQL.response_data.
  destruct (PyStr.truthy (PyStr.strip text)); destruct vision as [v |];
    try destruct (String.eqb kind "image" && success v);
    cbn; split; intros s H; try discriminate; try congruence;
    exists v; split; congruence.
Qed.

(** The item that an accepted MySQL upload stores. *)
Lemma mysql_upload_file_item E login is_json file sid now st st' fields :
  MySQL.upload_file E login is_json file sid now st
  = (st', Http 200 (JObj fields)) ->
  exists f ext d,
    file = Some f /\
    nth_error (PyStr.rsplit1 "." (secure_filename (MySQL.filename f))) 1
      = Some ext /\
    MySQL.uploaded_items st' = MySQL.uploaded_items st ++ [d] /\
    MySQL.ui_id d = MySQL.next_id st /\
    MySQL.extracted_text d
    = fst (fst (MySQL.extract E (PyStr.lower ext) (MySQL.bytes f))).
Proof.
  intros H.
  unfold MySQL.upload_file, MySQL.login_required, MySQL.upload_file_view,
    MySQL.error in H.
  destruct login as [user |]; [| destruct is_json; discriminate].
  destruct file as [f |]; [| discriminate].
  destruct sid as [s |]; [| discriminate].
  destruct (String.eqb (MySQL.filename f) ""); [discriminate |].
  destruct (negb (allowed_file (MySQL.filename f))); [discriminate |].
  destruct (negb (MySQL.connected E)); [discriminate |].
  destruct (MySQL.find_session st s user); [| discriminate].
  destruct (nth_error (PyStr.rsplit1 "." (secure_filename (MySQL.filename f))) 1)
    as [ext |] eqn:Hext; [| discriminate].
  exists f, ext.
  destruct (MySQL.extract E (PyStr.lower ext) (MySQL.bytes f))
    as [[text vision] kind].
  cbv beta iota zeta in H.
  destruct (PyStr.truthy (PyStr.strip text));
    destruct vision as [v |];
    try destruct (String.eqb kind "image");
    injection H as <- _; eexists;
    (split; [reflexivity |]); (split; [exact Hext |]);
    (split; [simpl; reflexivity |]); split; reflexivity.
Qed.

(** The previews of the MySQL route are cut in the same way: the
    [extracted_text] is the preview of the text stored with the new item,
    the [vision_preview] that of the description stored in its
    [vision_analysis] record; they hold at most 503 and 303 characters. *)
Lemma mysql_upload_previews_bounded
    E login is_json file sid now st st' fields :
  MySQL.upload_file E login is_json file sid now st
  = (st', Http 200 (JObj fields)) ->
  exists d,
    MySQL.uploaded_items st' = MySQL.uploaded_items st ++ [d]
    /\ (forall s, jlookup "extracted_text" fields = Some (JStr s) ->
                  s = preview 500 (MySQL.extracted_text d)
                  /\ String.length s <= 503)
    /\ (forall s, jlookup "vision_preview" fields = Some (JStr s) ->
                  exists a,
                    In a (MySQL.analysis_results st')
                    /\ MySQL.ar_item_id a = MySQL.ui_id d
                    /\ MySQL.analysis_type a = "vision_analysis"
                    /\ s = preview 300 (MySQL.summary a)
                    /\ String.length s <= 303).
Proof.
  intros H.
  destruct (mysql_upload_file_item _ _ _ _ _ _ _ _ _ H)
    as (f0 & ext0 & d & Hf0 & Hext0 & Hitems & Hid & Htext_of).
  destruct (mysql_upload_file_accepted _ _ _ _ _ _ _ _ _ H)
    as (user & f & s0 & ext & id_text & id_vision & _ & Hf & _ & Hext & Hrest).
  rewrite Hf0 in Hf. injection Hf as <-.
  rewrite Hext0 in Hext. injection Hext as <-.
  destruct (MySQL.extract E (PyStr.lower ext0) (MySQL.bytes f0))
    as [[text vision] kind].
  simpl in Htext_of.
  destruct Hrest as [Hanalyses ->].
  destruct (mysql_response_data_previews
              (MySQL.next_id st) (secure_filename (MySQL.filename f0)) kind
              (match
                  (if PyStr.truthy (PyStr.strip text)
                   then Some (MySQL.get_ai_analysis E text kind) else None)
                with
                | Some t => [MySQL.text_analysis_entry t]
                | None => []
                end ++
                match
                  match vision with
                  | Some v => if String.eqb kind "image" then Some v else None
                  | None => None
                  end
                with
                | Some v => [MySQL.vision_analysis_entry v]
                | None => []
                end) text vision) as [Htext Hvision].
  exists d. split; [exact Hitems |].
  split; intros s Hs.
  - rewrite (Htext s Hs), Htext_of. split; [reflexivity |].
    apply (preview_length 500).
  - pose proof Hs as Hpresent.
    destruct (Hvision s Hs) as (v & -> & ->).
    assert (Himage : String.eqb kind "image" = true).
    { unfold MySQL.response_data in Hpresent.
      destruct (String.eqb kind "image"); [reflexivity |].
      exfalso.
      destruct (PyStr.truthy (PyStr.strip text)); cbn in Hpresent;
        discriminate. }
    rewrite Himage in Hanalyses.
    eexists. split; [| split; [| split; [| split]]].
    + rewrite Hanalyses. apply in_or_app. right. apply in_or_app. right.
      left. reflexivity.
    + simpl. now rewrite Hid.
    + reflexivity.
    + reflexivity.
    + apply (preview_length 300).
Qed.

(** A photo uploaded to the MySQL backend while the vision model is down. *)
Lemma mysql_failed_vision_call_is_persisted :
  map (fun a => (MySQL.ar_item_id a, MySQL.analysis_type a, MySQL.summary a))
      (MySQL.analysis_results
         (fst (MySQL.upload_file (Scenario.sql_failing "connection reset")
                 (Some 7) true (Some Scenario.sql_photo) (Some 1)
                 Scenario.clock Scenario.sql_fresh)))
  = [(2, "vision_analysis",
      "Unable to analyze the image visually. Error: connection reset")].
Proof. vm_compute. reflexivity. Qed.

(** The re-analysis route of the MySQL backend stores the new description
    only after a successful call; a failed call leaves the store as it was. *)
Lemma reanalysis_stores_on_success_only E file_id custom_prompt now user st d :
  MySQL.connected E = true ->
  find (fun d => (MySQL.ui_id d =? file_id) && (MySQL.ui_user_id d =? user)
                 && String.eqb (MySQL.file_type d) "image")
       (MySQL.uploaded_items st) = Some d ->
  success (MySQL.analyze_image_with_vision E (MySQL.file_content d)
                                           custom_prompt) = false ->
  fst (MySQL.analyze_specific_image_view E file_id custom_prompt now user st)
  = st.
Proof.
  intros Hup Hfind Hfailed.
  unfold MySQL.analyze_specific_image_view. rewrite Hup, Hfind. simpl negb.
  cbv iota.
  destruct (nth_error (PyStr.rsplit1 "." (MySQL.original_filename d)) 1);
    [| reflexivity].
  now rewrite Hfailed.
Qed.

(** * Further properties of the code *)

(** ** The allow-list ([allowed_file]) *)

Lemma rcut_none_iff (sep : ascii) (s : string) :
  PyStr.rcut sep s = None <-> PyStr.contains (String sep "") s = false.
Proof.
  induction s as [| c s IH]; simpl; [tauto |].
  destruct (ascii_dec sep c) as [-> | Hne].
  - rewrite Ascii.eqb_refl.
    assert (Hp : String.prefix "" s = true) by now destruct s.
    rewrite Hp.
    destruct (PyStr.rcut c s) as [[a b] |]; split; discriminate.
  - assert (Hcs : Ascii.eqb c sep = false)
      by (apply Ascii.eqb_neq; congruence).
    rewrite Hcs.
    destruct (PyStr.rcut sep s) as [[a b] |].
    + split; [discriminate |]. intros H. apply IH in H. discriminate.
    + split; [intros _; now apply IH | reflexivity].
Qed.

(** [rcut] cuts at the last separator: the two parts put the string back
    together, and the second part holds no separator. *)
Lemma rcut_some (sep : ascii) (s a b : string) :
  PyStr.rcut sep s = Some (a, b) ->
  s = (a ++ String sep b)%string /\ PyStr.rcut sep b = None.
Proof.
  revert a b; induction s as [| c s IH]; simpl; intros a b H; [discriminate |].
  destruct (PyStr.rcut sep s) as [[a' b'] |] eqn:Hcut.
  - injection H as <- <-. destruct (IH a' b' eq_refl) as [-> Hb].
    split; [reflexivity | exact Hb].
  - destruct (Ascii.eqb_spec c sep) as [-> | Hne]; [| discriminate].
    injection H as <- <-. split; [reflexivity | exact Hcut].
Qed.

Lemma rcut_app (sep : ascii) (a b : string) :
  PyStr.rcut sep b = None ->
  PyStr.rcut sep (a ++ String sep b) = Some (a, b).
Proof.
  intros Hb. induction a as [| c a IH]; simpl.
  - now rewrite Hb, Ascii.eqb_refl.
  - now rewrite IH.
Qed.

Lemma mem_In (x : string) (xs : list string) :
  PyStr.mem x xs = true <-> In x xs.
Proof.
  unfold PyStr.mem. rewrite existsb_exists. split.
  - intros (y & Hy & Heq). apply String.eqb_eq in Heq. now subst.
  - intros H. exists x. split; [exact H | apply String.eqb_refl].
Qed.

(** X1: a file name is accepted exactly when it reads [stem.ext] where
    [ext], the text after its last dot, is one of the seven allowed
    extensions up to letter case. *)
Theorem allowed_file_iff (name : string) :
  allowed_file name = true <->
  exists stem ext,
    name = (stem ++ "." ++ ext)%string
    /\ PyStr.contains "." ext = false
    /\ In (PyStr.lower ext) ALLOWED_EXTENSIONS.
Proof.
  unfold allowed_file, PyStr.rsplit1. split.
  - intros H. apply andb_prop in H. destruct H as [_ H].
    destruct (PyStr.rcut "." name) as [[stem ext] |] eqn:Hcut;
      [| discriminate].
    simpl in H. apply rcut_some in Hcut. destruct Hcut as [-> Hext].
    exists stem, ext. split; [reflexivity |].
    split; [now apply rcut_none_iff | now apply mem_In].
  - intros (stem & ext & -> & Hdot & Hext).
    apply rcut_none_iff in Hdot.
    change (stem ++ "." ++ ext)%string with (stem ++ String "." ext)%string.
    rewrite (rcut_app "." stem ext Hdot). simpl nth_error.
    apply andb_true_intro. split; [| now apply mem_In].
    destruct (PyStr.contains "." (stem ++ String "." ext)) eqn:Hc;
      [reflexivity |].
    apply rcut_none_iff in Hc. rewrite (rcut_app "." stem ext Hdot) in Hc.
    discriminate.
Qed.

(** ** Trimmed extraction ([extract_text_from_pdf], [extract_text_from_image]) *)

Section Stripping.
Variable p : ascii -> bool.

Lemma lstrip_by_first (s : string) (c : ascii) :
  first_char (PyStr.lstrip_by p s) = Some c -> p c = false.
Proof.
  induction s as [| d s IH]; simpl; [discriminate |].
  destruct (p d) eqn:Hd; [exact IH |].
  simpl. intros H. injection H as <-. exact Hd.
Qed.

Lemma rstrip_by_first (s : string) (c : ascii) :
  first_char (PyStr.rstrip_by p s) = Some c -> first_char s = Some c.
Proof.
  destruct s as [| d s]; simpl; [discriminate |].
  destruct (PyStr.rstrip_by p s); [destruct (p d); [discriminate |] |];
    simpl; exact (fun H => H).
Qed.

Lemma rstrip_by_last (s : string) (c : ascii) :
  last_char (PyStr.rstrip_by p s) = Some c -> p c = false.
Proof.
  induction s as [| d s IH]; simpl; [discriminate |].
  destruct (PyStr.rstrip_by p s) as [| e r] eqn:Hr.
  - destruct (p d) eqn:Hd; simpl; [discriminate |].
    intros H. injection H as <-. exact Hd.
  - exact IH.
Qed.

Lemma lstrip_by_length (s : string) :
  String.length (PyStr.lstrip_by p s) <= String.length s.
Proof.
  induction s as [| d s IH]; simpl; [lia |].
  destruct (p d); simpl; lia.
Qed.

Lemma rstrip_by_length (s : string) :
  String.length (PyStr.rstrip_by p s) <= String.length s.
Proof.
  induction s as [| d s IH]; simpl; [lia |].
  destruct (PyStr.rstrip_by p s); [destruct (p d) |]; simpl in *; lia.
Qed.

Lemma lstrip_by_fixed (s : string) :
  (forall c, first_char s = Some c -> p c = false) -> PyStr.lstrip_by p s = s.
Proof.
  destruct s as [| d s]; simpl; intros H; [reflexivity |].
  now rewrite (H d eq_refl).
Qed.

Lemma rstrip_by_fixed (s : string) :
  (forall c, last_char s = Some c -> p c = false) -> PyStr.rstrip_by p s = s.
Proof.
  induction s as [| d s IH]; intros H; [reflexivity |].
  destruct s as [| e s].
  - simpl. now rewrite (H d eq_refl).
  - change (PyStr.rstrip_by p (String d (String e s)))
      with (match PyStr.rstrip_by p (String e s) with
            | "" => if p d then "" else String d ""
            | r => String d r
            end).
    rewrite IH; [reflexivity |]. intros c Hc. apply H. exact Hc.
Qed.

(** [strip] leaves a text that neither starts nor ends with a stripped
    character, never longer than the original, and stripping it again
    changes nothing. *)
Lemma strip_by_spec (s : string) :
  (forall c, first_char (PyStr.strip_by p s) = Some c -> p c = false)
  /\ (forall c, last_char (PyStr.strip_by p s) = Some c -> p c = false)
  /\ String.length (PyStr.strip_by p s) <= String.length s
  /\ PyStr.strip_by p (PyStr.strip_by p s) = PyStr.strip_by p s.
Proof.
  assert (Hfirst : forall c, first_char (PyStr.strip_by p s) = Some c ->
                             p c = false).
  { intros c H. apply rstrip_by_first in H. now apply lstrip_by_first in H. }
  assert (Hlast : forall c, last_char (PyStr.strip_by p s) = Some c ->
                            p c = false).
  { intros c H. now apply rstrip_by_last in H. }
  repeat split; try assumption.
  - unfold PyStr.strip_by.
    pose proof (rstrip_by_length (PyStr.lstrip_by p s)).
    pose proof (lstrip_by_length s). lia.
  - unfold PyStr.strip_by at 1.
    rewrite (lstrip_by_fixed _ Hfirst). now apply rstrip_by_fixed.
Qed.
End Stripping.

(** X2: the text kept for a PDF or an image never starts or ends with white
    space, is no longer than what the reader returned, is left unchanged by
    another [strip], and is empty when the reader raised. *)
Theorem extracted_text_is_trimmed (E : Mongo.env) (bytes : string) :
  let trimmed (t : string) :=
    (forall c, first_char t = Some c -> PyStr.isspace c = false)
    /\ (forall c, last_char t = Some c -> PyStr.isspace c = false)
    /\ PyStr.strip t = t in
  trimmed (Mongo.extract_text_from_pdf E bytes)
  /\ trimmed (Mongo.extract_text_from_image E bytes)
  /\ (forall pages, Mongo.pdf_page_texts E bytes = Some pages ->
        String.length (Mongo.extract_text_from_pdf E bytes)
        <= String.length (PyStr.join "" pages))
  /\ (forall raw, Mongo.image_to_string E bytes = Some raw ->
        String.length (Mongo.extract_text_from_image E bytes)
        <= String.length raw)
  /\ (Mongo.pdf_page_texts E bytes = None ->
      Mongo.extract_text_from_pdf E bytes = "")
  /\ (Mongo.image_to_string E bytes = None ->
      Mongo.extract_text_from_image E bytes = "").
Proof.
  intros trimmed.
  assert (Hstrip : forall s, trimmed (PyStr.strip s)).
  { intros s. destruct (strip_by_spec PyStr.isspace s) as (H1 & H2 & _ & H4).
    repeat split; assumption. }
  assert (Hnil : trimmed "").
  { repeat split; simpl; discriminate. }
  unfold Mongo.extract_text_from_pdf, Mongo.extract_text_from_image.
  repeat split;
    try (destruct (Mongo.pdf_page_texts E bytes); [apply Hstrip | apply Hnil]);
    try (destruct (Mongo.image_to_string E bytes); [apply Hstrip | apply Hnil]).
  - intros pages ->.
    now destruct (strip_by_spec PyStr.isspace (PyStr.join "" pages))
      as (_ & _ & H & _).
  - intros raw ->.
    now destruct (strip_by_spec PyStr.isspace raw) as (_ & _ & H & _).
  - now intros ->.
  - now intros ->.
Qed.

(** ** What an upload stores ([app.py], [upload_file]) *)

(** An upload that is not answered with status 200 has stored nothing. *)
Lemma upload_file_rejected E login file sid now st st' r :
  Mongo.upload_file E login file sid now st = (st', r) ->
  (forall body, r <> Http 200 body) ->
  st' = st.
Proof.
  intros H Hr.
  unfold Mongo.upload_file, Mongo.login_required, Mongo.upload_file_view in H.
  destruct login as [user |]; [| now injection H as <- _].
  destruct file as [f |]; [| now injection H as <- _].
  destruct sid as [s |]; [| now injection H as <- _].
  destruct (String.eqb (Mongo.filename f) ""); [now injection H as <- _ |].
  destruct (negb (allowed_file (Mongo.filename f)));
    [now injection H as <- _ |].
  destruct (Mongo.find_session st s user); [| now injection H as <- _].
  destruct (nth_error (PyStr.rsplit1 "." (secure_filename (Mongo.filename f))) 1);
    [| now injection H as <- _].
  destruct (Mongo.extract E (PyStr.lower _) (Mongo.bytes f))
    as [[text vision] kind].
  destruct (PyStr.truthy (PyStr.strip text));
    destruct vision as [v |];
    try destruct (String.eqb kind "image");
    injection H as _ <-; exfalso; eapply Hr; reflexivity.
Qed.

(** ** Consistency of the collections under the routes of [app.py] *)

Lemma upload_file_cases E login file sid now st st' r :
  Mongo.upload_file E login file sid now st = (st', r) ->
  (exists fields, r = Http 200 (JObj fields))
  \/ (st' = st /\ forall body, r <> Http 200 body).
Proof.
  intros H.
  unfold Mongo.upload_file, Mongo.login_required, Mongo.upload_file_view in H.
  destruct login as [user |];
    [| right; injection H as <- <-; split; [reflexivity | discriminate]].
  destruct file as [f |];
    [| right; injection H as <- <-; split; [reflexivity | discriminate]].
  destruct sid as [s |];
    [| right; injection H as <- <-; split; [reflexivity | discriminate]].
  destruct (String.eqb (Mongo.filename f) "");
    [right; injection H as <- <-; split; [reflexivity | discriminate] |].
  destruct (negb (allowed_file (Mongo.filename f)));
    [right; injection H as <- <-; split; [reflexivity | discriminate] |].
  destruct (Mongo.find_session st s user);
    [| right; injection H as <- <-; split; [reflexivity | discriminate]].
  destruct (nth_error (PyStr.rsplit1 "." (secure_filename (Mongo.filename f))) 1);
    [| right; injection H as <- <-; split; [reflexivity | discriminate]].
  left.
  destruct (Mongo.extract E (PyStr.lower _) (Mongo.bytes f))
    as [[text vision] kind].
  destruct (PyStr.truthy (PyStr.strip text));
    destruct vision as [v |];
    try destruct (String.eqb kind "image");
    injection H as _ <-; eexists; reflexivity.
Qed.

Lemma remove_first_In {A : Type} (p : A -> bool) (x : A) (l : list A) :
  In x (remove_first p l) -> In x l.
Proof.
  induction l as [| y l IH]; simpl; [tauto |].
  destruct (p y); simpl; tauto.
Qed.

Lemma remove_first_keeps {A : Type} (p : A -> bool) (x : A) (l : list A) :
  In x l -> p x = false -> In x (remove_first p l).
Proof.
  induction l as [| y l IH]; simpl; [tauto |].
  intros [-> | Hin] Hp.
  - rewrite Hp. now left.
  - destruct (p y); [exact Hin | right; now apply IH].
Qed.

Lemma remove_first_NoDup {A B : Type} (p : A -> bool) (f : A -> B)
    (l : list A) :
  NoDup (map f l) -> NoDup (map f (remove_first p l)).
Proof.
  induction l as [| y l IH]; simpl; intros H; [constructor |].
  inversion H as [| ? ? Hy Hl]; subst.
  destruct (p y); [exact Hl |].
  simpl. constructor; [| now apply IH].
  intros Hin. apply Hy. apply in_map_iff in Hin.
  destruct Hin as (z & Hz & Hin). apply in_map_iff. exists z.
  split; [exact Hz | now apply remove_first_In in Hin].
Qed.

(** Collections that only gained identifiers stay consistent. *)
Lemma consistent_same_files (st st' : Mongo.store) :
  Mongo.uploaded_items st' = Mongo.uploaded_items st ->
  Mongo.analysis_results st' = Mongo.analysis_results st ->
  Mongo.next_id st <= Mongo.next_id st' ->
  MongoApp.consistent st -> MongoApp.consistent st'.
Proof.
  intros Hitems Hanalyses Hid (Hfresh & Hunique & Howned).
  unfold MongoApp.consistent. rewrite Hitems, Hanalyses.
  repeat split; try assumption.
  eapply Forall_impl; [| exact Hfresh]. simpl. intros d Hd. lia.
Qed.

Lemma upload_file_consistent E login file sid now st :
  MongoApp.consistent st ->
  MongoApp.consistent (fst (Mongo.upload_file E login file sid now st)).
Proof.
  intros Hst.
  destruct (Mongo.upload_file E login file sid now st) as [st' r] eqn:Hup.
  simpl.
  destruct (upload_file_cases _ _ _ _ _ _ _ _ Hup) as [[fields ->] | [-> _]];
    [| exact Hst].
  destruct (upload_file_effect _ _ _ _ _ _ _ _ Hup)
    as (user & f & s & ext & -> & -> & -> & _ & Hext & Heffect).
  destruct (upload_file_accepted _ _ _ _ _ _ _ _ Hup)
    as (user' & f' & s' & ext' & id_text & id_vision
        & Huser & Hf & Hs & _ & Hext' & Hrecords).
  injection Hf as <-. injection Hs as <-.
  rewrite Hext in Hext'. injection Hext' as <-.
  destruct (Mongo.extract E (PyStr.lower ext) (Mongo.bytes f))
    as [[text vision] kind].
  destruct Heffect as (Hitems & _ & Hid & _).
  destruct Hrecords as [Hanalyses _].
  destruct Hst as (Hfresh & Hunique & Howned).
  unfold MongoApp.consistent. rewrite Hitems, Hanalyses.
  split; [| split].
  - apply Forall_app. split.
    + eapply Forall_impl; [| exact Hfresh]. simpl. intros d Hd. lia.
    + repeat constructor. exact Hid.
  - rewrite map_app. simpl.
    assert (Hnew : ~ In (Mongo.next_id st)
                        (map Mongo.ui_id (Mongo.uploaded_items st))).
    { intros Hin. apply in_map_iff in Hin. destruct Hin as (d & Hd & Hin).
      rewrite Forall_forall in Hfresh. specialize (Hfresh d Hin). lia. }
    clear - Hunique Hnew.
    induction (map Mongo.ui_id (Mongo.uploaded_items st)) as [| x l IH];
      simpl.
    + repeat constructor. simpl. tauto.
    + inversion Hunique as [| ? ? Hx Hl]; subst.
      constructor.
      * rewrite in_app_iff. simpl. intros [Hin | [Heq | []]];
          [now apply Hx | apply Hnew; now left].
      * apply IH; [exact Hl |]. intros Hin. apply Hnew. now right.
  - apply Forall_app. split.
    + eapply Forall_impl; [| exact Howned]. simpl.
      intros a (d & Hd & Hda). exists d.
      split; [apply in_or_app; now left | exact Hda].
    + assert (Hlast : forall a,
                 Mongo.ar_item_id a = Mongo.next_id st ->
                 Mongo.ar_session_id a = s ->
                 exists d, In d (Mongo.uploaded_items st ++
                   [{| Mongo.ui_id := Mongo.next_id st;
                       Mongo.ui_session_id := s; Mongo.ui_user_id := user;
                       Mongo.original_filename :=
                         secure_filename (Mongo.filename f);
                       Mongo.file_type := kind;
                       Mongo.file_size := String.length (Mongo.bytes f);
                       Mongo.mime_type :=
                         match Mongo.guess_type E (Mongo.filename f) with
                         | Some m => m
                         | None => "application/octet-stream"
                         end;
                       Mongo.file_content := Mongo.bytes f;
                       Mongo.extracted_text := text;
                       Mongo.uploaded_at := now 0 |}])
                   /\ Mongo.ui_id d = Mongo.ar_item_id a
                   /\ Mongo.ui_session_id d = Mongo.ar_session_id a).
      { intros a Ha Hs. eexists. split; [apply in_or_app; right; now left |].
        simpl. split; congruence. }
      apply Forall_app. split.
      * destruct (PyStr.truthy (PyStr.strip text)); repeat constructor.
        now apply Hlast.
      * destruct vision as [v |]; [| constructor].
        destruct (String.eqb kind "image"); repeat constructor.
        now apply Hlast.
Qed.

Lemma unique_by_key {A B : Type} (f : A -> B) (l : list A) (x y : A) :
  NoDup (map f l) -> In x l -> In y l -> f x = f y -> x = y.
Proof.
  induction l as [| z l IH]; simpl; intros Hunique Hx Hy Hxy; [contradiction |].
  inversion Hunique as [| ? ? Hz Hl]; subst.
  destruct Hx as [-> | Hx], Hy as [-> | Hy]; try reflexivity.
  - exfalso. apply Hz. apply in_map_iff. exists y. split; congruence.
  - exfalso. apply Hz. apply in_map_iff. exists x. split; congruence.
  - now apply IH.
Qed.

Lemma delete_uploaded_item_consistent login item_id st :
  MongoApp.consistent st ->
  MongoApp.consistent (fst (Mongo.delete_uploaded_item login item_id st)).
Proof.
  intros Hst.
  unfold Mongo.delete_uploaded_item, Mongo.login_required.
  destruct login as [user |]; [| exact Hst].
  destruct (Mongo.find_item st item_id) as [d |]; [| exact Hst].
  destruct (Mongo.ui_user_id d =? user); [| exact Hst].
  destruct Hst as (Hfresh & Hunique & Howned).
  unfold MongoApp.consistent. simpl. split; [| split].
  - rewrite Forall_forall in *. intros x Hx.
    apply Hfresh. now apply remove_first_In in Hx.
  - now apply remove_first_NoDup.
  - rewrite Forall_forall in *. intros a Ha.
    apply filter_In in Ha. destruct Ha as [Ha Hkeep].
    destruct (Howned a Ha) as (x & Hx & Hid & Hsession).
    exists x. split; [| now split].
    apply remove_first_keeps; [exact Hx |].
    rewrite Hid. apply negb_true_iff in Hkeep. exact Hkeep.
Qed.

Lemma identified_same_files (st st' : Mongo.store) :
  Mongo.uploaded_items st' = Mongo.uploaded_items st ->
  Mongo.next_id st <= Mongo.next_id st' ->
  MongoApp.identified st -> MongoApp.identified st'.
Proof.
  intros Hitems Hid (Hfresh & Hunique).
  unfold MongoApp.identified. rewrite Hitems. split; [| exact Hunique].
  eapply Forall_impl; [| exact Hfresh]. simpl. intros d Hd. lia.
Qed.

Lemma NoDup_snoc_fresh (l : list nat) (n : nat) :
  NoDup l -> Forall (fun k => k < n) l -> NoDup (l ++ [n]).
Proof.
  induction l as [| x l IH]; simpl; intros Hunique Hbelow.
  - repeat constructor. simpl. tauto.
  - inversion Hunique as [| ? ? Hx Hl]; subst.
    inversion Hbelow as [| ? ? Hxn Hln]; subst.
    constructor; [| now apply IH].
    rewrite in_app_iff. simpl. intros [Hin | [Heq | []]];
      [now apply Hx | lia].
Qed.

Lemma upload_file_identified E login file sid now st :
  MongoApp.identified st ->
  MongoApp.identified (fst (Mongo.upload_file E login file sid now st)).
Proof.
  intros Hst.
  destruct (Mongo.upload_file E login file sid now st) as [st' r] eqn:Hup.
  simpl.
  destruct (upload_file_cases _ _ _ _ _ _ _ _ Hup) as [[fields ->] | [-> _]];
    [| exact Hst].
  destruct (upload_file_effect _ _ _ _ _ _ _ _ Hup)
    as (user & f & s & ext & -> & -> & -> & _ & Hext & Heffect).
  destruct (Mongo.extract E (PyStr.lower ext) (Mongo.bytes f))
    as [[text vision] kind].
  destruct Heffect as (Hitems & _ & Hid & _).
  destruct Hst as (Hfresh & Hunique).
  unfold MongoApp.identified. rewrite Hitems. split.
  - apply Forall_app. split.
    + eapply Forall_impl; [| exact Hfresh]. simpl. intros d Hd. lia.
    + repeat constructor. exact Hid.
  - rewrite map_app. simpl. apply NoDup_snoc_fresh; [exact Hunique |].
    rewrite Forall_map. exact Hfresh.
Qed.

Lemma upload_file_request_unchanged_or_upload E login file session_id now st :
  fst (MongoApp.upload_file_request E login file session_id now st) = st
  \/ exists sid,
       MongoApp.upload_file_request E login file session_id now st
       = Mongo.upload_file E login file sid now st.
Proof.
  unfold MongoApp.upload_file_request.
  destruct session_id as [[sid |] |]; eauto.
  left. unfold Mongo.login_required.
  destruct login; [| reflexivity].
  destruct file as [f |]; [| reflexivity].
  destruct (String.eqb (Mongo.filename f) ""); [reflexivity |].
  now destruct (negb (allowed_file (Mongo.filename f))).
Qed.

Lemma route_identified E c st :
  MongoApp.identified st -> MongoApp.identified (fst (MongoApp.route E c st)).
Proof.
  intros Hst. unfold MongoApp.route.
  destruct (MongoApp.asked c) as [| session_id raw | file session_id
                                  | session_id | item_id].
  - unfold MongoApp.create_session, Mongo.login_required.
    destruct (MongoApp.login c); [| exact Hst].
    apply (identified_same_files st); simpl; auto.
  - unfold Mongo.send_message, Mongo.login_required.
    destruct (MongoApp.login c); [| exact Hst].
    apply (identified_same_files st); simpl; auto.
  - destruct (upload_file_request_unchanged_or_upload E (MongoApp.login c)
                file session_id (MongoApp.clock c) st) as [-> | [sid ->]];
      [exact Hst | now apply upload_file_identified].
  - unfold MongoApp.get_analyses_request, Mongo.get_analyses,
      Mongo.login_required.
    now destruct session_id, (MongoApp.login c).
  - assert (Hremoved : forall id,
               MongoApp.identified
                 {| Mongo.chat_sessions := Mongo.chat_sessions st;
                    Mongo.messages := Mongo.messages st;
                    Mongo.uploaded_items :=
                      remove_first (fun d => Mongo.ui_id d =? id)
                                   (Mongo.uploaded_items st);
                    Mongo.analysis_results := Mongo.analysis_results st;
                    Mongo.next_id := Mongo.next_id st |}).
    { intros id. destruct Hst as (Hfresh & Hunique). split; simpl.
      - rewrite Forall_forall in *. intros x Hx.
        apply Hfresh. now apply remove_first_In in Hx.
      - now apply remove_first_NoDup. }
    unfold MongoApp.delete_uploaded_item_request, Mongo.delete_uploaded_item,
      Mongo.login_required.
    destruct item_id as [id | id |];
      destruct (MongoApp.login c) as [user |]; try exact Hst;
      destruct (Mongo.find_item st id) as [d |]; try exact Hst;
      destruct (Mongo.ui_user_id d =? user); try exact Hst.
    + destruct (Hremoved id) as [Hfresh Hunique]. now split.
    + apply Hremoved.
Qed.

Lemma serve_identified E calls st :
  MongoApp.identified st -> MongoApp.identified (MongoApp.serve E calls st).
Proof.
  revert st. induction calls as [| c calls IH]; simpl; intros st Hst;
    [exact Hst |].
  apply IH. now apply route_identified.
Qed.

Lemma route_consistent E c st :
  MongoApp.as_returned c = true ->
  MongoApp.consistent st -> MongoApp.consistent (fst (MongoApp.route E c st)).
Proof.
  intros Hspelled Hst. unfold MongoApp.as_returned in Hspelled.
  unfold MongoApp.route.
  destruct (MongoApp.asked c) as [| session_id raw | file session_id
                                  | session_id | item_id].
  - unfold MongoApp.create_session, Mongo.login_required.
    destruct (MongoApp.login c); [| exact Hst].
    apply (consistent_same_files st); simpl; auto.
  - unfold Mongo.send_message, Mongo.login_required.
    destruct (MongoApp.login c); [| exact Hst].
    apply (consistent_same_files st); simpl; auto.
  - destruct (upload_file_request_unchanged_or_upload E (MongoApp.login c)
                file session_id (MongoApp.clock c) st) as [-> | [sid ->]];
      [exact Hst | now apply upload_file_consistent].
  - unfold MongoApp.get_analyses_request, Mongo.get_analyses,
      Mongo.login_required.
    now destruct session_id, (MongoApp.login c).
  - unfold MongoApp.delete_uploaded_item_request.
    destruct item_id as [id | id |];
      [now apply delete_uploaded_item_consistent | discriminate |].
    unfold Mongo.login_required. now destruct (MongoApp.login c).
Qed.

Lemma serve_consistent E calls st :
  Forall (fun c => MongoApp.as_returned c = true) calls ->
  MongoApp.consistent st -> MongoApp.consistent (MongoApp.serve E calls st).
Proof.
  intros Hcalls. revert st.
  induction Hcalls as [| c calls Hc _ IH]; simpl; intros st Hst;
    [exact Hst |].
  apply IH. now apply route_consistent.
Qed.

(** X3: whatever requests the routes of [app.py] have served since the
    deployment, one after the other, item identifiers come from the counter
    and are unique. When moreover every deletion named its item as the
    routes return it, the collections are consistent: every analysis record
    belongs to a stored item of the same session, and the listing of
    analyses shows every record with the file name and type of its item.
    (A deletion under another spelling of the identifier removes the item
    and keeps its analyses, which are then listed without a file name.) *)
Theorem served_store_is_consistent (E : Mongo.env)
    (calls : list MongoApp.call) :
  let st := MongoApp.serve E calls MongoApp.empty_store in
  MongoApp.identified st
  /\ (Forall (fun c => MongoApp.as_returned c = true) calls ->
      MongoApp.consistent st
      /\ forall session_id a,
           In a (Mongo.analyses_of st session_id) ->
           exists d, Mongo.find_item st (Mongo.ar_item_id a) = Some d
                     /\ Mongo.ui_session_id d = session_id
                     /\ Mongo.analysis_entry st a
                        = JObj [("id", JNum (Mongo.ar_id a));
                                ("item_id", JNum (Mongo.ar_item_id a));
                                ("analysis_type", JStr (Mongo.analysis_type a));
                                ("summary", JStr (Mongo.summary a));
                                ("created_at", JNum (Mongo.created_at a));
                                ("filename", JStr (Mongo.original_filename d));
                                ("file_type", JStr (Mongo.file_type d))]).
Proof.
  intros st.
  split; [apply serve_identified; split; constructor |].
  intros Hcalls.
  assert (Hst : MongoApp.consistent st).
  { apply serve_consistent; [exact Hcalls |]. repeat split; constructor. }
  split; [exact Hst |].
  intros session_id a Ha.
  unfold Mongo.analyses_of in Ha. apply in_sort_desc, filter_In in Ha.
  destruct Ha as [Ha Hsession]. apply Nat.eqb_eq in Hsession.
  destruct Hst as (_ & Hunique & Howned).
  rewrite Forall_forall in Howned.
  destruct (Howned a Ha) as (d & Hd & Hid & Hds).
  destruct (Mongo.find_item st (Mongo.ar_item_id a)) as [d' |] eqn:Hfind.
  - pose proof Hfind as Hsome. apply find_some in Hsome.
    destruct Hsome as [Hd' Hid']. apply Nat.eqb_eq in Hid'.
    assert (d' = d) by (apply (unique_by_key Mongo.ui_id _ _ _ Hunique Hd' Hd);
                        congruence).
    subst d'. exists d. unfold Mongo.analysis_entry. rewrite Hfind.
    repeat split; congruence.
  - exfalso. pose proof (find_none _ _ Hfind d Hd) as Hnone.
    simpl in Hnone. rewrite Hid, Nat.eqb_refl in Hnone. discriminate.
Qed.

(** The sequence [busy_day] does leave an item with its analysis behind. *)
Lemma busy_day_is_served :
  let st := MongoApp.serve Scenario.services_down Scenario.busy_day
                           MongoApp.empty_store in
  map Mongo.original_filename (Mongo.uploaded_items st) = ["photo.png"]
  /\ map Mongo.analysis_type (Mongo.analysis_results st) = ["vision_analysis"]
  /\ List.length (Mongo.messages st) = 2.
Proof. vm_compute. repeat split. Qed.

(** ** Refused requests ([app.py]) *)

(** X4: a request to [create_session], [upload_file], [get_analyses] or
    [delete_uploaded_item] of [app.py] that is not answered with status 200
    - no login, a missing or refused file, a session or an item that is not
    the caller's, an exception that escapes because an identifier is not
    well formed or the sanitized name has no extension - leaves every
    collection as it was. ([send_message] is not among these routes: it
    stores the message before it turns to the session.) *)
Theorem refused_request_stores_nothing
    (E : Mongo.env) (c : MongoApp.call) (st st' : Mongo.store) (r : reply) :
  (forall session_id raw,
      MongoApp.asked c <> MongoApp.PostMessage session_id raw) ->
  MongoApp.route E c st = (st', r) ->
  (forall body, r <> Http 200 body) ->
  st' = st.
Proof.
  intros Hkind Hroute Hr. unfold MongoApp.route in Hroute.
  destruct (MongoApp.asked c) as [| session_id raw | file session_id
                                  | session_id | item_id].
  - unfold MongoApp.create_session, Mongo.login_required in Hroute.
    destruct (MongoApp.login c); injection Hroute as <- <-;
      [exfalso; eapply Hr; reflexivity | reflexivity].
  - exfalso. now apply (Hkind session_id raw).
  - unfold MongoApp.upload_file_request in Hroute.
    destruct session_id as [[sid |] |];
      try (eapply upload_file_rejected; eassumption).
    unfold Mongo.login_required in Hroute.
    destruct (MongoApp.login c); [| now injection Hroute as <- _].
    destruct file as [f |]; [| now injection Hroute as <- _].
    destruct (String.eqb (Mongo.filename f) "");
      [now injection Hroute as <- _ |].
    destruct (negb (allowed_file (Mongo.filename f)));
      now injection Hroute as <- _.
  - unfold MongoApp.get_analyses_request, Mongo.get_analyses,
      Mongo.login_required in Hroute.
    destruct session_id, (MongoApp.login c); now injection Hroute as <- _.
  - unfold MongoApp.delete_uploaded_item_request, Mongo.delete_uploaded_item,
      Mongo.login_required in Hroute.
    destruct item_id as [item_id | item_id |];
      destruct (MongoApp.login c) as [user |];
      try (now injection Hroute as <- _);
      (destruct (Mongo.find_item st item_id) as [d |];
       [| now injection Hroute as <- _]);
      (destruct (Mongo.ui_user_id d =? user); injection Hroute as <- <-;
       [exfalso; eapply Hr; reflexivity | reflexivity]).
Qed.

Lemma refused_request_stores_nothing_witness :
  fst (MongoApp.route Scenario.answering Scenario.malformed_delete
                      Scenario.after_invoice)
  = Scenario.after_invoice.
Proof.
  apply (refused_request_stores_nothing Scenario.answering
           Scenario.malformed_delete Scenario.after_invoice _
           (snd (MongoApp.route Scenario.answering Scenario.malformed_delete
                                Scenario.after_invoice))).
  - intros session_id raw. discriminate.
  - vm_compute. reflexivity.
  - intros body. vm_compute. discriminate.
Defined.

(** ** Uploading, finding and deleting an item ([app.py]) *)

Lemma find_app_none {A : Type} (p : A -> bool) (l l' : list A) :
  find p l = None -> find p (l ++ l') = find p l'.
Proof.
  induction l as [| x l IH]; simpl; [reflexivity |].
  destruct (p x); [discriminate | exact IH].
Qed.

Lemma find_none_fresh (st : Mongo.store) :
  MongoApp.consistent st -> Mongo.find_item st (Mongo.next_id st) = None.
Proof.
  intros (Hfresh & _ & _). unfold Mongo.find_item.
  destruct (find _ _) as [d |] eqn:Hfind; [| reflexivity].
  apply find_some in Hfind. destruct Hfind as [Hd Hid].
  apply Nat.eqb_eq in Hid. rewrite Forall_forall in Hfresh.
  specialize (Hfresh d Hd). lia.
Qed.

(** X5: in a consistent store, the [file_id] an accepted upload returns was
    not in use before and now finds the stored item, which carries the
    sanitized file name, the caller, the session, and the bytes sent with
    their length. *)
Theorem uploaded_item_is_found
    (E : Mongo.env) (user s : nat) (f : Mongo.upload) (now : nat -> nat)
    (st st' : Mongo.store) (fields : list (string * json)) :
  MongoApp.consistent st ->
  Mongo.upload_file E (Some user) (Some f) (Some s) now st
  = (st', Http 200 (JObj fields)) ->
  exists id d,
    jlookup "file_id" fields = Some (JNum id)
    /\ Mongo.find_item st id = None
    /\ Mongo.find_item st' id = Some d
    /\ Mongo.original_filename d = secure_filename (Mongo.filename f)
    /\ Mongo.ui_user_id d = user
    /\ Mongo.ui_session_id d = s
    /\ Mongo.file_content d = Mongo.bytes f
    /\ Mongo.file_size d = String.length (Mongo.bytes f)
    /\ List.length (Mongo.uploaded_items st')
       = S (List.length (Mongo.uploaded_items st)).
Proof.
  intros Hst Hup.
  destruct (upload_file_effect _ _ _ _ _ _ _ _ Hup)
    as (user' & f' & s' & ext & Huser & Hf & Hs & _ & _ & Heffect).
  injection Huser as <-. injection Hf as <-. injection Hs as <-.
  destruct (Mongo.extract E (PyStr.lower ext) (Mongo.bytes f))
    as [[text vision] kind].
  destruct Heffect as (Hitems & _ & _ & Hfile_id).
  pose proof (find_none_fresh st Hst) as Hfresh.
  exists (Mongo.next_id st). eexists.
  split; [exact Hfile_id | split; [exact Hfresh |]].
  split.
  - unfold Mongo.find_item in *. rewrite Hitems.
    rewrite (find_app_none _ _ _ Hfresh). simpl.
    now rewrite Nat.eqb_refl.
  - simpl. rewrite Hitems, length_app. simpl.
    repeat split; try reflexivity. lia.
Qed.

Lemma uploaded_item_is_found_witness :
  Mongo.find_item Scenario.after_invoice 2 <> None.
Proof.
  destruct (uploaded_item_is_found Scenario.invoice_reader 7 1
              Scenario.invoice Scenario.clock Scenario.fresh
              Scenario.after_invoice
              (body_fields
                 (snd (Mongo.upload_file Scenario.invoice_reader (Some 7)
                         (Some Scenario.invoice) (Some 1) Scenario.clock
                         Scenario.fresh))))
    as (id & d & Hid & _ & Hfind & _).
  - unfold MongoApp.consistent. simpl. repeat split; constructor.
  - vm_compute. reflexivity.
  - vm_compute in Hid. injection Hid as <-. rewrite Hfind. discriminate.
Defined.

Lemma remove_first_find_none {A : Type} (key : A -> nat) (k : nat)
    (l : list A) :
  NoDup (map key l) ->
  find (fun x => key x =? k) (remove_first (fun x => key x =? k) l) = None.
Proof.
  induction l as [| x l IH]; simpl; intros Hunique; [reflexivity |].
  inversion Hunique as [| ? ? Hx Hl]; subst.
  destruct (key x =? k) eqn:Hk.
  - apply Nat.eqb_eq in Hk.
    destruct (find _ l) as [y |] eqn:Hfind; [| reflexivity].
    apply find_some in Hfind. destruct Hfind as [Hy Hyk].
    apply Nat.eqb_eq in Hyk. exfalso. apply Hx.
    apply in_map_iff. exists y. split; [congruence | exact Hy].
  - simpl. rewrite Hk. now apply IH.
Qed.

(** X6: what [delete_uploaded_item] does with the path segment it is given.
    When the segment is not the text of an identifier, [ObjectId] raises
    [InvalidId] and nothing changes. When it names, in either spelling, no
    item or an item of another user, the route answers 404 and changes
    nothing. Otherwise the deletion succeeds: all other items and the
    messages are kept and - in a store whose identifiers are unique - the
    item can no longer be found. Under the spelling that the routes return,
    every analysis record of the item is removed and no other; under another
    spelling of the same identifier, no analysis record is removed. *)
Theorem delete_uploaded_item_spec
    (user : nat) (item : MongoApp.item_text) (st : Mongo.store) :
  let st' := fst (MongoApp.delete_uploaded_item_request (Some user) item st) in
  let r := snd (MongoApp.delete_uploaded_item_request (Some user) item st) in
  (item = MongoApp.NotAnItemOid -> r = Raised InvalidId /\ st' = st)
  /\ (forall item_id,
        item = MongoApp.ItemOid item_id \/ item = MongoApp.Respelled item_id ->
        ~ (exists d, Mongo.find_item st item_id = Some d
                     /\ Mongo.ui_user_id d = user) ->
        r = Http 404 (JObj [("error", JStr "Item not found")]) /\ st' = st)
  /\ (forall item_id,
        item = MongoApp.ItemOid item_id \/ item = MongoApp.Respelled item_id ->
        (exists d, Mongo.find_item st item_id = Some d
                   /\ Mongo.ui_user_id d = user) ->
        r = Http 200 (JObj [("message", JStr "Item deleted successfully")])
        /\ (forall d, In d (Mongo.uploaded_items st) ->
                      Mongo.ui_id d <> item_id ->
                      In d (Mongo.uploaded_items st'))
        /\ (forall d, In d (Mongo.uploaded_items st') ->
                      In d (Mongo.uploaded_items st))
        /\ Mongo.messages st' = Mongo.messages st
        /\ (MongoApp.identified st -> Mongo.find_item st' item_id = None)
        /\ (item = MongoApp.ItemOid item_id ->
            forall a, In a (Mongo.analysis_results st') <->
                      In a (Mongo.analysis_results st)
                      /\ Mongo.ar_item_id a <> item_id)
        /\ (item = MongoApp.Respelled item_id ->
            Mongo.analysis_results st' = Mongo.analysis_results st)).
Proof.
  unfold MongoApp.delete_uploaded_item_request, Mongo.delete_uploaded_item,
    Mongo.login_required.
  destruct item as [id | id |]; simpl.
  3:{ split; [now split |].
      split; intros item_id [Hid | Hid]; discriminate. }
  all: split; [discriminate |].
  all: destruct (Mongo.find_item st id) as [d |] eqn:Hfind;
    [destruct (Mongo.ui_user_id d =? user) eqn:Howner |]; simpl.
  all: split; intros item_id Hid; destruct Hid as [Hid | Hid];
    try discriminate; injection Hid as <-; intros Hitem.
  (* the text as returned, of an item of the caller *)
  - exfalso. apply Hitem. exists d. split; [exact Hfind |].
    now apply Nat.eqb_eq.
  - split; [reflexivity |].
    split; [intros x Hx Hother; apply remove_first_keeps;
            [exact Hx | now apply Nat.eqb_neq] |].
    split; [intros x; apply remove_first_In |].
    split; [reflexivity |].
    split; [intros (_ & Hunique); unfold Mongo.find_item; simpl;
            now apply remove_first_find_none |].
    split; [| discriminate].
    intros _ a. rewrite filter_In, negb_true_iff, Nat.eqb_neq. tauto.
  (* the text as returned, of an item of another user *)
  - now split.
  - destruct Hitem as (d' & Hd' & Huser). rewrite Hfind in Hd'.
    injection Hd' as <-. apply Nat.eqb_neq in Howner. contradiction.
  (* the text as returned, of no item *)
  - now split.
  - destruct Hitem as (d' & Hd' & _). rewrite Hfind in Hd'. discriminate.
  (* another spelling, of an item of the caller *)
  - exfalso. apply Hitem. exists d. split; [exact Hfind |].
    now apply Nat.eqb_eq.
  - split; [reflexivity |].
    split; [intros x Hx Hother; apply remove_first_keeps;
            [exact Hx | now apply Nat.eqb_neq] |].
    split; [intros x; apply remove_first_In |].
    split; [reflexivity |].
    split; [intros (_ & Hunique); unfold Mongo.find_item; simpl;
            now apply remove_first_find_none |].
    split; [discriminate | reflexivity].
  (* another spelling, of an item of another user *)
  - now split.
  - destruct Hitem as (d' & Hd' & Huser). rewrite Hfind in Hd'.
    injection Hd' as <-. apply Nat.eqb_neq in Howner. contradiction.
  (* another spelling, of no item *)
  - now split.
  - destruct Hitem as (d' & Hd' & _). rewrite Hfind in Hd'. discriminate.
Qed.

(** X7: in a consistent store, deleting the item that an accepted upload
    has just stored, by the same caller, succeeds and gives back the item
    and analysis collections as they were before the upload. *)
Theorem upload_then_delete_restores
    (E : Mongo.env) (user s : nat) (f : Mongo.upload) (now : nat -> nat)
    (st st' : Mongo.store) (fields : list (string * json)) (id : nat) :
  MongoApp.consistent st ->
  Mongo.upload_file E (Some user) (Some f) (Some s) now st
  = (st', Http 200 (JObj fields)) ->
  jlookup "file_id" fields = Some (JNum id) ->
  let deleted := Mongo.delete_uploaded_item (Some user) id st' in
  snd deleted = Http 200 (JObj [("message", JStr "Item deleted successfully")])
  /\ Mongo.uploaded_items (fst deleted) = Mongo.uploaded_items st
  /\ Mongo.analysis_results (fst deleted) = Mongo.analysis_results st.
Proof.
  intros Hst Hup Hid.
  destruct (upload_file_effect _ _ _ _ _ _ _ _ Hup)
    as (user' & f' & s' & ext & Huser & Hf & Hs & _ & Hext & Heffect).
  injection Huser as <-. injection Hf as <-. injection Hs as <-.
  destruct (upload_file_accepted _ _ _ _ _ _ _ _ Hup)
    as (user' & f' & s' & ext' & id_text & id_vision
        & Huser & Hf & Hs & _ & Hext' & Hrecords).
  injection Huser as <-. injection Hf as <-. injection Hs as <-.
  rewrite Hext in Hext'. injection Hext' as <-.
  destruct (Mongo.extract E (PyStr.lower ext) (Mongo.bytes f))
    as [[text vision] kind].
  destruct Heffect as (Hitems & _ & _ & Hfile_id).
  destruct Hrecords as [Hanalyses _].
  rewrite Hfile_id in Hid. injection Hid as <-.
  pose proof (find_none_fresh st Hst) as Hfresh.
  destruct Hst as (Hlt & _ & Howned).
  unfold Mongo.delete_uploaded_item, Mongo.login_required, Mongo.find_item
    in *.
  rewrite Hitems, (find_app_none _ _ _ Hfresh). simpl.
  rewrite !Nat.eqb_refl. simpl. split; [reflexivity |]. split.
  - clear - Hfresh.
    induction (Mongo.uploaded_items st) as [| x l IH]; simpl in *.
    + now rewrite Nat.eqb_refl.
    + destruct (Mongo.ui_id x =? Mongo.next_id st); [discriminate |].
      f_equal. now apply IH.
  - rewrite Hanalyses, !filter_app.
    assert (Hold : filter (fun a => negb (Mongo.ar_item_id a =? Mongo.next_id st))
                          (Mongo.analysis_results st)
                   = Mongo.analysis_results st).
    { apply forallb_filter_id, forallb_forall. intros a Ha.
      rewrite Forall_forall in Howned, Hlt.
      destruct (Howned a Ha) as (d & Hd & Hda & _).
      specialize (Hlt d Hd). apply negb_true_iff, Nat.eqb_neq. lia. }
    rewrite Hold.
    destruct (PyStr.truthy (PyStr.strip text)); destruct vision as [v |];
      try destruct (String.eqb kind "image");
      simpl; rewrite ?Nat.eqb_refl; simpl; now rewrite ?app_nil_r.
Qed.

Lemma upload_then_delete_restores_witness :
  Mongo.uploaded_items
    (fst (Mongo.delete_uploaded_item (Some 7) 2 Scenario.after_invoice))
  = Mongo.uploaded_items Scenario.fresh.
Proof.
  apply (upload_then_delete_restores Scenario.invoice_reader 7 1
           Scenario.invoice Scenario.clock Scenario.fresh
           Scenario.after_invoice
           (body_fields
              (snd (Mongo.upload_file Scenario.invoice_reader (Some 7)
                      (Some Scenario.invoice) (Some 1) Scenario.clock
                      Scenario.fresh))) 2).
  - unfold MongoApp.consistent. simpl. repeat split; constructor.
  - vm_compute. reflexivity.
  - vm_compute. reflexivity.
Defined.

(** ** Which analyses an upload creates ([app.py], [upload_file]) *)

Lemma extracted_text_stripped_aux (E : Mongo.env) (bytes : string) :
  PyStr.strip (Mongo.extract_text_from_pdf E bytes)
  = Mongo.extract_text_from_pdf E bytes
  /\ PyStr.strip (Mongo.extract_text_from_image E bytes)
     = Mongo.extract_text_from_image E bytes.
Proof.
  unfold Mongo.extract_text_from_pdf, Mongo.extract_text_from_image.
  split.
  - destruct (Mongo.pdf_page_texts E bytes) as [pages |]; [| reflexivity].
    now destruct (strip_by_spec PyStr.isspace (PyStr.join "" pages))
      as (_ & _ & _ & H).
  - destruct (Mongo.image_to_string E bytes) as [raw |]; [| reflexivity].
    now destruct (strip_by_spec PyStr.isspace raw) as (_ & _ & _ & H).
Qed.

Lemma extract_text_stripped E file_ext bytes :
  let text := fst (fst (Mongo.extract E file_ext bytes)) in
  PyStr.strip text = text.
Proof.
  destruct (extracted_text_stripped_aux E bytes) as [Hpdf Himg].
  destruct (extract_cases E file_ext bytes)
    as [[_ ->] | [[_ ->] | [_ ->]]]; simpl; [exact Hpdf | exact Himg |].
  reflexivity.
Qed.

Lemma response_data_analysis_available id name kind analyses text vision :
  jlookup "analysis_available"
          (Mongo.response_data id name kind analyses text vision)
  = Some (JBool (0 <? List.length analyses)).
Proof.
  unfold Mongo.response_data.
  destruct (PyStr.truthy (PyStr.strip text)); destruct vision as [v |];
    try destruct (String.eqb kind "image" && success v); reflexivity.
Qed.

Ltac solve_content :=
  repeat split; intros;
  first [ discriminate | reflexivity | congruence | simpl; lia | simpl; tauto
        | solve [repeat constructor]
        | match goal with
          | H : Mongo.analysis_results ?s = _ |- Mongo.analysis_results ?s = _ =>
              rewrite H; simpl; now rewrite app_nil_r
          end ].

(** X8: an accepted upload adds one item, of type pdf, image or other. A
    text-analysis record for it is stored exactly when its stored text is
    not empty, and a vision record exactly when it is an image; there is at
    most one of each. A file of type other - an accepted .txt file - is
    stored with an empty text and without any analysis, and the reply says
    that no analysis is available. *)
Theorem upload_analyses_follow_content
    E login file sid now st st' fields :
  Mongo.upload_file E login file sid now st = (st', Http 200 (JObj fields)) ->
  exists d text_records vision_records,
    Mongo.uploaded_items st' = Mongo.uploaded_items st ++ [d]
    /\ Mongo.analysis_results st'
       = Mongo.analysis_results st ++ text_records ++ vision_records
    /\ In (Mongo.file_type d) ["pdf"; "image"; "other"]
    /\ (text_records = [] <-> Mongo.extracted_text d = "")
    /\ (vision_records = [] <-> Mongo.file_type d <> "image")
    /\ Forall (fun a => Mongo.ar_item_id a = Mongo.ui_id d
                        /\ Mongo.ar_session_id a = Mongo.ui_session_id d
                        /\ Mongo.analysis_type a
                           = (Mongo.file_type d ++ "_text_analysis")%string)
              text_records
    /\ Forall (fun a => Mongo.ar_item_id a = Mongo.ui_id d
                        /\ Mongo.ar_session_id a = Mongo.ui_session_id d
                        /\ Mongo.analysis_type a = "vision_analysis")
              vision_records
    /\ List.length text_records <= 1
    /\ List.length vision_records <= 1
    /\ (Mongo.file_type d = "other" ->
        Mongo.extracted_text d = ""
        /\ Mongo.analysis_results st' = Mongo.analysis_results st
        /\ jlookup "analysis_available" fields = Some (JBool false)).
Proof.
  intros Hup.
  destruct (upload_file_effect _ _ _ _ _ _ _ _ Hup)
    as (user & f & s & ext & -> & -> & -> & _ & Hext & Heffect).
  destruct (upload_file_accepted _ _ _ _ _ _ _ _ Hup)
    as (user' & f' & s' & ext' & id_text & id_vision
        & Huser & Hf & Hs & _ & Hext' & Hrecords).
  injection Huser as <-. injection Hf as <-. injection Hs as <-.
  rewrite Hext in Hext'. injection Hext' as <-.
  pose proof (extract_text_stripped E (PyStr.lower ext) (Mongo.bytes f))
    as Hstripped.
  destruct (extract_cases E (PyStr.lower ext) (Mongo.bytes f))
    as [[_ Hex] | [[_ Hex] | [_ Hex]]];
    rewrite Hex in Heffect, Hrecords, Hstripped;
    cbv beta iota zeta in Heffect, Hrecords, Hstripped;
    simpl fst in Hstripped;
    destruct Heffect as (Hitems & _ & _ & _);
    destruct Hrecords as [Hanalyses ->];
    rewrite response_data_analysis_available;
    try rewrite Hstripped in Hanalyses |- *;
    (eexists; do 2 eexists;
     split; [exact Hitems | split; [exact Hanalyses |]]);
    simpl Mongo.file_type; simpl Mongo.extracted_text; simpl Mongo.ui_id;
    simpl Mongo.ui_session_id.
  - destruct (Mongo.extract_text_from_pdf E (Mongo.bytes f)) as [| c t];
      simpl; solve_content.
  - destruct (Mongo.extract_text_from_image E (Mongo.bytes f)) as [| c t];
      simpl; solve_content.
  - simpl; solve_content.
Qed.

Lemma upload_analyses_follow_content_witness :
  List.length (Mongo.analysis_results Scenario.after_invoice)
  <= List.length (Mongo.analysis_results Scenario.fresh) + 2.
Proof.
  destruct (upload_analyses_follow_content Scenario.invoice_reader (Some 7)
              (Some Scenario.invoice) (Some 1) Scenario.clock Scenario.fresh
              Scenario.after_invoice
              (body_fields
                 (snd (Mongo.upload_file Scenario.invoice_reader (Some 7)
                         (Some Scenario.invoice) (Some 1) Scenario.clock
                         Scenario.fresh))))
    as (d & texts & visions & _ & Hanalyses & _ & _ & _ & _ & _
        & Htexts & Hvisions & _).
  - vm_compute. reflexivity.
  - rewrite Hanalyses, !length_app. lia.
Defined.

(** ** Messages of the MySQL backend ([app_mysql.py], [send_message]) *)

Lemma mysql_classify_error_nonempty (e : string) :
  MySQL.classify_error e <> "".
Proof.
  unfold MySQL.classify_error.
  repeat match goal with
         | |- (if ?b then _ else _) <> _ => destruct b
         end; discriminate.
Qed.

Lemma mysql_get_ai_response_nonempty E prompt context :
  MySQL.get_ai_response E prompt context <> "".
Proof.
  unfold MySQL.get_ai_response.
  destruct (MySQL.generate_content E _) as [text | e].
  - destruct (PyStr.truthy text) eqn:Htext; [| discriminate].
    intros ->. discriminate.
  - apply mysql_classify_error_nonempty.
Qed.

Lemma mysql_send_message_cases
    E login is_json session_id raw file_id now st st' r :
  MySQL.send_message E login is_json session_id raw file_id now st = (st', r) ->
  (exists user sid ai_response,
      login = Some user /\ session_id = Some sid
      /\ MySQL.find_session st sid user <> None
      /\ PyStr.strip raw <> "" /\ ai_response <> ""
      /\ r = Http 200 (JObj [("user_message", JStr (PyStr.strip raw));
                             ("ai_message", JStr ai_response);
                             ("session_id", JNum sid)])
      /\ MySQL.messages st'
         = MySQL.messages st ++
           [{| MySQL.m_id := MySQL.next_id st; MySQL.m_session_id := sid;
               MySQL.sender := "user"; MySQL.content := PyStr.strip raw;
               MySQL.timestamp := now 0 |};
            {| MySQL.m_id := S (MySQL.next_id st); MySQL.m_session_id := sid;
               MySQL.sender := "assistant"; MySQL.content := ai_response;
               MySQL.timestamp := now 1 |}]
      /\ MySQL.uploaded_items st' = MySQL.uploaded_items st
      /\ MySQL.analysis_results st' = MySQL.analysis_results st
      /\ map (fun s => (MySQL.cs_id s, MySQL.cs_user_id s))
             (MySQL.chat_sessions st')
         = map (fun s => (MySQL.cs_id s, MySQL.cs_user_id s))
               (MySQL.chat_sessions st))
  \/ (st' = st /\ forall body, r <> Http 200 body).
Proof.
  unfold MySQL.send_message, MySQL.login_required, MySQL.send_message_view,
    MySQL.error.
  intros Hsend.
  destruct login as [user |];
    [| destruct is_json; injection Hsend as <- <-; right; now split].
  destruct session_id as [[| sid'] |];
    try (injection Hsend as <- <-; right; now split).
  destruct (PyStr.truthy (PyStr.strip raw)) eqn:Hcontent; simpl negb in Hsend;
    cbv iota in Hsend;
    [| injection Hsend as <- <-; right; now split].
  destruct (MySQL.connected E); simpl negb in Hsend; cbv iota in Hsend;
    [| injection Hsend as <- <-; right; now split].
  destruct (MySQL.find_session st (S sid') user) eqn:Howner;
    [| injection Hsend as <- <-; right; now split].
  injection Hsend as <- <-. left.
  exists user, (S sid'). eexists.
  split; [reflexivity | split; [reflexivity |]].
  split; [rewrite Howner; discriminate |].
  split; [intros Hempty; rewrite Hempty in Hcontent; discriminate |].
  split; [apply mysql_get_ai_response_nonempty |].
  split; [reflexivity |].
  split; [simpl; rewrite <- app_assoc; reflexivity |].
  split; [reflexivity | split; [reflexivity |]].
  simpl. rewrite map_map. apply map_ext. intros s.
  now destruct (MySQL.cs_id s =? S sid').
Qed.

(** X9: what the MySQL [send_message] leaves behind. It answers 200 only to
    a logged-in caller who owns the session; it has then appended exactly
    two rows to [messages], the caller's stripped text and then the reply
    returned as [ai_message], both in that session and neither of them
    empty. When it does not answer 200, the database is as it was - with one
    exception: a [file_id] that the driver cannot send makes the lookup of
    the file raise after the caller's message is stored, and the route
    answers 500 with that one row kept. In every case the uploaded items and
    the analyses are untouched and the sessions keep their identifiers and
    owners. *)
Theorem mysql_send_message_effect
    E login is_json session_id raw file_id now st st' r :
  MySQLApp.send_message_request E login is_json session_id raw file_id now st
  = (st', r) ->
  (exists user sid ai_response,
      login = Some user /\ session_id = Some sid
      /\ file_id <> MySQLApp.Unsendable
      /\ MySQL.find_session st sid user <> None
      /\ PyStr.strip raw <> "" /\ ai_response <> ""
      /\ r = Http 200 (JObj [("user_message", JStr (PyStr.strip raw));
                             ("ai_message", JStr ai_response);
                             ("session_id", JNum sid)])
      /\ MySQL.messages st'
         = MySQL.messages st ++
           [{| MySQL.m_id := MySQL.next_id st; MySQL.m_session_id := sid;
               MySQL.sender := "user"; MySQL.content := PyStr.strip raw;
               MySQL.timestamp := now 0 |};
            {| MySQL.m_id := S (MySQL.next_id st); MySQL.m_session_id := sid;
               MySQL.sender := "assistant"; MySQL.content := ai_response;
               MySQL.timestamp := now 1 |}]
      /\ MySQL.uploaded_items st' = MySQL.uploaded_items st
      /\ MySQL.analysis_results st' = MySQL.analysis_results st
      /\ map (fun s => (MySQL.cs_id s, MySQL.cs_user_id s))
             (MySQL.chat_sessions st')
         = map (fun s => (MySQL.cs_id s, MySQL.cs_user_id s))
               (MySQL.chat_sessions st))
  \/ (st' = st /\ forall body, r <> Http 200 body)
  \/ (exists user sid,
         login = Some user /\ session_id = Some sid
         /\ file_id = MySQLApp.Unsendable
         /\ MySQL.find_session st sid user <> None
         /\ PyStr.strip raw <> ""
         /\ r = MySQL.error 500 "Failed to process message"
         /\ MySQL.messages st'
            = MySQL.messages st ++
              [{| MySQL.m_id := MySQL.next_id st; MySQL.m_session_id := sid;
                  MySQL.sender := "user"; MySQL.content := PyStr.strip raw;
                  MySQL.timestamp := now 0 |}]
         /\ MySQL.uploaded_items st' = MySQL.uploaded_items st
         /\ MySQL.analysis_results st' = MySQL.analysis_results st
         /\ MySQL.chat_sessions st' = MySQL.chat_sessions st).
Proof.
  unfold MySQLApp.send_message_request. intros Hsend.
  destruct file_id as [| n |].
  - destruct (mysql_send_message_cases _ _ _ _ _ _ _ _ _ _ Hsend)
      as [(user & sid & ai & Hlogin & Hsid & Hrest) | Hsame];
      [left | right; left; exact Hsame].
    exists user, sid, ai. repeat (split; [assumption || discriminate |]).
    tauto.
  - destruct (mysql_send_message_cases _ _ _ _ _ _ _ _ _ _ Hsend)
      as [(user & sid & ai & Hlogin & Hsid & Hrest) | Hsame];
      [left | right; left; exact Hsame].
    exists user, sid, ai. repeat (split; [assumption || discriminate |]).
    tauto.
  - unfold MySQL.login_required, MySQL.error in Hsend.
    destruct login as [user |];
      [| destruct is_json; injection Hsend as <- <-; right; left; now split].
    destruct session_id as [[| sid'] |];
      try (injection Hsend as <- <-; right; left; now split).
    destruct (PyStr.truthy (PyStr.strip raw)) eqn:Hcontent;
      simpl negb in Hsend; cbv iota in Hsend;
      [| injection Hsend as <- <-; right; left; now split].
    destruct (MySQL.connected E); simpl negb in Hsend; cbv iota in Hsend;
      [| injection Hsend as <- <-; right; left; now split].
    destruct (MySQL.find_session st (S sid') user) eqn:Howner;
      [| injection Hsend as <- <-; right; left; now split].
    injection Hsend as <- <-. right. right.
    exists user, (S sid').
    repeat (split; [reflexivity |]).
    split; [rewrite Howner; discriminate |].
    split; [intros Hempty; rewrite Hempty in Hcontent; discriminate |].
    repeat split.
Qed.

Lemma mysql_send_message_effect_witness :
  List.length
    (MySQL.messages
       (fst (MySQLApp.send_message_request Scenario.sql_answering (Some 7)
               true (Some 1) " hello " MySQLApp.Unsendable Scenario.clock
               Scenario.sql_fresh)))
  = 1.
Proof.
  destruct (mysql_send_message_effect Scenario.sql_answering (Some 7) true
              (Some 1) " hello " MySQLApp.Unsendable Scenario.clock
              Scenario.sql_fresh
              (fst (MySQLApp.send_message_request Scenario.sql_answering
                      (Some 7) true (Some 1) " hello " MySQLApp.Unsendable
                      Scenario.clock Scenario.sql_fresh))
              (snd (MySQLApp.send_message_request Scenario.sql_answering
                      (Some 7) true (Some 1) " hello " MySQLApp.Unsendable
                      Scenario.clock Scenario.sql_fresh)))
    as [(user & sid & ai & _ & _ & Hsent & _)
       | [[_ Hrefused]
         | (user & sid & _ & _ & _ & _ & _ & _ & Hmessages & _)]].
  - vm_compute. reflexivity.
  - exfalso. now apply Hsent.
  - vm_compute. reflexivity.
  - rewrite Hmessages. reflexivity.
Defined.

Lemma mysql_file_context_foreign st fid sid user :
  (forall d, In d (MySQL.uploaded_items st) -> MySQL.ui_id d = fid ->
             ~ (MySQL.ui_session_id d = sid /\ MySQL.ui_user_id d = user)) ->
  MySQL.file_context st (Some fid) sid user = "".
Proof.
  intros Hforeign. unfold MySQL.file_context.
  destruct fid as [| fid']; [reflexivity |].
  destruct (find _ (MySQL.uploaded_items st)) as [d |] eqn:Hfind;
    [| reflexivity].
  apply find_some in Hfind. destruct Hfind as [Hd Hmatch].
  apply andb_prop in Hmatch. destruct Hmatch as [Hmatch Huser].
  apply andb_prop in Hmatch. destruct Hmatch as [Hid Hsession].
  apply Nat.eqb_eq in Hid, Hsession, Huser.
  exfalso. apply (Hforeign d Hd Hid). now split.
Qed.

(** X10: the MySQL [send_message] uses an attached file only if it is an
    uploaded item of the caller in the session of the message. A [file_id]
    that names no such item - an item of another user, of another session,
    or none - changes nothing: the database and the reply are those of the
    same message sent without a file. *)
Theorem mysql_foreign_file_is_ignored
    E user is_json sid raw fid now st :
  (forall d, In d (MySQL.uploaded_items st) -> MySQL.ui_id d = fid ->
             ~ (MySQL.ui_session_id d = sid /\ MySQL.ui_user_id d = user)) ->
  MySQL.send_message E (Some user) is_json (Some sid) raw (Some fid) now st
  = MySQL.send_message E (Some user) is_json (Some sid) raw None now st.
Proof.
  intros Hforeign.
  unfold MySQL.send_message, MySQL.login_required, MySQL.send_message_view.
  destruct sid as [| sid']; [reflexivity |].
  destruct (negb (PyStr.truthy (PyStr.strip raw))); [reflexivity |].
  destruct (negb (MySQL.connected E)); [reflexivity |].
  destruct (MySQL.find_session st (S sid') user); [| reflexivity].
  rewrite (mysql_file_context_foreign
             (MySQL.insert_message st (S sid') "user" (PyStr.strip raw) (now 0))
             fid (S sid') user Hforeign).
  reflexivity.
Qed.

Lemma mysql_foreign_file_is_ignored_witness :
  MySQL.send_message Scenario.sql_answering (Some 8) true (Some 2)
                     "what is due?" (Some 3) Scenario.clock Scenario.sql_shared
  = MySQL.send_message Scenario.sql_answering (Some 8) true (Some 2)
                       "what is due?" None Scenario.clock Scenario.sql_shared.
Proof.
  apply (mysql_foreign_file_is_ignored Scenario.sql_answering 8 true 2
           "what is due?" 3 Scenario.clock Scenario.sql_shared).
  intros d Hd Hid [Hsession _]. simpl in Hd.
  destruct Hd as [<- | [<- | []]]; simpl in Hsession; discriminate.
Defined.

(** ** Describing a stored image again ([app_mysql.py],
    [analyze_specific_image]) *)

(** X11: [analyze_specific_image] never changes a session, a message or an
    uploaded item. It either leaves the analyses as they were, or appends
    exactly one record: this happens only for a logged-in caller, for an item
    of type image whose [user_id] is the caller, and only when the vision
    model answered; the record is typed custom_vision_analysis, belongs to
    the item and to the item's session, holds the model's text, and the reply
    is a 200 that returns this text with [success] true. *)
Theorem mysql_reanalysis_effect
    E login is_json file_id custom_prompt now st st' r :
  MySQL.analyze_specific_image E login is_json file_id custom_prompt now st
  = (st', r) ->
  MySQL.chat_sessions st' = MySQL.chat_sessions st
  /\ MySQL.messages st' = MySQL.messages st
  /\ MySQL.uploaded_items st' = MySQL.uploaded_items st
  /\ (st' = st
      \/ exists user d text,
           login = Some user
           /\ In d (MySQL.uploaded_items st)
           /\ MySQL.ui_id d = file_id
           /\ MySQL.ui_user_id d = user
           /\ MySQL.file_type d = "image"
           /\ MySQL.vision_generate_content E (MySQL.vision_prompt custom_prompt)
                                            (MySQL.file_content d)
              = Gives text
           /\ MySQL.analysis_results st'
              = MySQL.analysis_results st ++
                [{| MySQL.ar_id := MySQL.next_id st;
                    MySQL.ar_item_id := file_id;
                    MySQL.ar_session_id := MySQL.ui_session_id d;
                    MySQL.analysis_type := "custom_vision_analysis";
                    MySQL.summary := text;
                    MySQL.created_at := now 0 |}]
           /\ r = Http 200 (JObj [("success", JBool true);
                                  ("analysis", JStr text);
                                  ("prompt_used", JStr custom_prompt);
                                  ("filename",
                                   JStr (MySQL.original_filename d))])).
Proof.
  unfold MySQL.analyze_specific_image, MySQL.login_required,
    MySQL.analyze_specific_image_view.
  intros Hcall.
  destruct login as [user |];
    [| destruct is_json; injection Hcall as <- <-; tauto].
  destruct (negb (MySQL.connected E)); [injection Hcall as <- <-; tauto |].
  destruct (find _ (MySQL.uploaded_items st)) as [d |] eqn:Hfind;
    [| injection Hcall as <- <-; tauto].
  destruct (nth_error (PyStr.rsplit1 "." (MySQL.original_filename d)) 1);
    [| injection Hcall as <- <-; tauto].
  apply find_some in Hfind. destruct Hfind as [Hd Hmatch].
  apply andb_prop in Hmatch. destruct Hmatch as [Hmatch Himage].
  apply andb_prop in Hmatch. destruct Hmatch as [Hid Huser].
  apply Nat.eqb_eq in Hid, Huser. apply String.eqb_eq in Himage.
  unfold MySQL.analyze_image_with_vision in Hcall.
  destruct (MySQL.vision_generate_content E (MySQL.vision_prompt custom_prompt)
              (MySQL.file_content d)) as [text | e] eqn:Hvision;
    simpl in Hcall; injection Hcall as <- <-; [| tauto].
  repeat split; try reflexivity.
  right. exists user, d, text. repeat split; assumption || reflexivity.
Qed.

Lemma mysql_reanalysis_effect_witness :
  MySQL.uploaded_items
    (fst (MySQL.analyze_specific_image Scenario.sql_answering (Some 7) true 4
            "Which animal?" Scenario.clock Scenario.sql_shared))
  = MySQL.uploaded_items Scenario.sql_shared.
Proof.
  apply (mysql_reanalysis_effect Scenario.sql_answering (Some 7) true 4
           "Which animal?" Scenario.clock Scenario.sql_shared _
           (snd (MySQL.analyze_specific_image Scenario.sql_answering (Some 7)
                   true 4 "Which animal?" Scenario.clock
                   Scenario.sql_shared))).
  vm_compute. reflexivity.
Defined.

(** ** Uploads of the MySQL backend ([app_mysql.py], [upload_file]) *)



(** ** Deleting a temporary file ([app_mysql.py], [safe_delete_temp_file]) *)

Lemma iter_double {num : Type} (double : num -> num) (k : nat) (d : num) :
  Nat.iter k double (double d) = Nat.iter (S k) double d.
Proof.
  induction k as [| k IH]; simpl; [reflexivity |]. now rewrite IH.
Qed.

Lemma attempts_spec {num : Type} (double : num -> num) (raises : nat -> bool)
    (max_attempts : nat) :
  forall remaining attempt delay,
    attempt + remaining = max_attempts ->
    let '(deleted, slept) :=
      TempFile.attempts double raises max_attempts remaining attempt delay in
    slept = map (fun k => Nat.iter k double delay) (seq 0 (List.length slept))
    /\ (forall k, k < List.length slept -> raises (attempt + k) = true)
    /\ (deleted = true ->
        raises (attempt + List.length slept) = false
        /\ attempt + List.length slept < max_attempts)
    /\ (deleted = false ->
        (forall k, k < remaining -> raises (attempt + k) = true)
        /\ List.length slept = remaining - 1).
Proof.
  induction remaining as [| remaining IH]; intros attempt delay Hsum.
  - simpl. repeat split; try discriminate; intros; lia.
  - simpl. destruct (raises attempt) eqn:Hraises.
    + destruct (attempt <? max_attempts - 1) eqn:Hlast.
      * specialize (IH (S attempt) (double delay)).
        destruct (TempFile.attempts double raises max_attempts remaining
                    (S attempt) (double delay)) as [deleted slept].
        destruct IH as (Hslept & Hfailed & Hdeleted & Hgave_up); [lia |].
        simpl List.length. repeat split.
        -- simpl. f_equal. rewrite <- seq_shift, map_map.
           rewrite Hslept at 1. apply map_ext. intros k.
           apply iter_double.
        -- intros [| k] Hk; [now rewrite Nat.add_0_r |].
           replace (attempt + S k) with (S attempt + k) by lia.
           apply Hfailed. lia.
        -- replace (attempt + S (List.length slept))
             with (S attempt + List.length slept) by lia.
           now apply Hdeleted.
        -- replace (attempt + S (List.length slept))
             with (S attempt + List.length slept) by lia.
           now apply Hdeleted.
        -- intros [| k] Hk; [now rewrite Nat.add_0_r |].
           replace (attempt + S k) with (S attempt + k) by lia.
           apply Hgave_up; [assumption | lia].
        -- destruct (Hgave_up H) as [_ Hlength].
           apply Nat.ltb_lt in Hlast. lia.
      * apply Nat.ltb_ge in Hlast.
        repeat split; try discriminate; simpl; try lia.
        intros k Hk. replace k with 0 by lia. now rewrite Nat.add_0_r.
    + simpl. repeat split; try discriminate; try (intros; lia).
      now rewrite Nat.add_0_r.
Qed.

(** X13: [safe_delete_temp_file] tries at most [max_attempts] times and
    stops at the first attempt that does not raise. It returns [True]
    exactly when one of the first [max_attempts] attempts does not raise; it
    sleeps once after every failed attempt but the last, so at most
    [max_attempts - 1] times, and each sleep lasts twice as long as the one
    before, starting from [delay]. When it gives up, every one of the
    [max_attempts] attempts has raised. *)
Theorem safe_delete_temp_file_spec {num : Type} (double : num -> num)
    (raises : nat -> bool) (max_attempts : nat) (delay : num) :
  let '(deleted, slept) :=
    TempFile.safe_delete_temp_file double raises max_attempts delay in
  (deleted = true <-> exists k, k < max_attempts /\ raises k = false)
  /\ slept = map (fun k => Nat.iter k double delay)
                 (seq 0 (List.length slept))
  /\ List.length slept <= max_attempts - 1
  /\ (forall k, k < List.length slept -> raises k = true)
  /\ (deleted = true -> raises (List.length slept) = false)
  /\ (deleted = false -> List.length slept = max_attempts - 1).
Proof.
  unfold TempFile.safe_delete_temp_file.
  pose proof (attempts_spec double raises max_attempts max_attempts 0 delay
                eq_refl) as Hspec.
  destruct (TempFile.attempts double raises max_attempts max_attempts 0 delay)
    as [deleted slept].
  destruct Hspec as (Hslept & Hfailed & Hdeleted & Hgave_up).
  simpl in Hfailed, Hdeleted, Hgave_up.
  repeat split.
  - intros Hd. exists (List.length slept). destruct (Hdeleted Hd). now split.
  - intros (k & Hk & Hok). destruct deleted; [reflexivity |].
    destruct (Hgave_up eq_refl) as [Hall _]. rewrite (Hall k Hk) in Hok.
    discriminate.
  - exact Hslept.
  - destruct deleted.
    + destruct (Hdeleted eq_refl). lia.
    + destruct (Hgave_up eq_refl). lia.
  - exact Hfailed.
  - intros Hd. now destruct (Hdeleted Hd).
  - intros Hd. now destruct (Hgave_up Hd).
Qed.

(** ** Deleting an item on the MySQL backend ([app_mysql.py],
    [delete_uploaded_item]) *)

Lemma mysql_joined_analyses_In st session_id a u :
  In (a, u) (MySQL.joined_analyses st session_id)
  <-> In a (MySQL.analysis_results st)
      /\ MySQL.ar_session_id a = session_id
      /\ MySQL.find_item st (MySQL.ar_item_id a) = Some u.
Proof.
  unfold MySQL.joined_analyses. rewrite in_flat_map. split.
  - intros (a' & Ha' & Hpair).
    apply in_sort_desc, filter_In in Ha'. destruct Ha' as [Ha' Hsession].
    apply Nat.eqb_eq in Hsession.
    destruct (MySQL.find_item st (MySQL.ar_item_id a')) eqn:Hfind;
      [| contradiction].
    destruct Hpair as [Hpair | []]. injection Hpair as -> ->. tauto.
  - intros (Ha & Hsession & Hfind). exists a. split.
    + apply in_sort_desc, filter_In. split; [exact Ha |].
      now apply Nat.eqb_eq.
    + rewrite Hfind. now left.
Qed.

Lemma mysql_find_item_after_delete st item_id k :
  MySQL.find_item (MySQLApp.delete_item_row st item_id) k
  = if k =? item_id then None else MySQL.find_item st k.
Proof.
  unfold MySQL.find_item, MySQLApp.delete_item_row. simpl.
  induction (MySQL.uploaded_items st) as [| u l IH]; simpl.
  - now destruct (k =? item_id).
  - destruct (MySQL.ui_id u =? item_id) eqn:Hu; simpl.
    + rewrite IH. apply Nat.eqb_eq in Hu.
      destruct (k =? item_id) eqn:Hk; [reflexivity |].
      apply Nat.eqb_neq in Hk.
      destruct (MySQL.ui_id u =? k) eqn:Huk; [| reflexivity].
      apply Nat.eqb_eq in Huk. congruence.
    + destruct (MySQL.ui_id u =? k) eqn:Huk.
      * apply Nat.eqb_eq in Huk. subst k. now rewrite Hu.
      * exact IH.
Qed.

(** X14: the MySQL [delete_uploaded_item] either answers 200 or leaves the
    database as it was. It answers 200 only to a logged-in caller who owns
    the session the item is stored in. The item is then gone, and with it
    - by the cascade of the foreign key - exactly the analyses of that item:
    every other item and analysis is kept, the listing of analyses of any
    session shows the rows it showed before except those of the item, and
    sessions and messages are untouched. *)
Theorem mysql_delete_item_effect E login is_json item_id st st' r :
  MySQLApp.delete_uploaded_item E login is_json item_id st = (st', r) ->
  (exists user d s,
      login = Some user
      /\ In d (MySQL.uploaded_items st) /\ MySQL.ui_id d = item_id
      /\ In s (MySQL.chat_sessions st)
      /\ MySQL.cs_id s = MySQL.ui_session_id d /\ MySQL.cs_user_id s = user
      /\ r = Http 200 (JObj [("message", JStr "Item deleted successfully")])
      /\ MySQL.find_item st' item_id = None
      /\ (forall u, In u (MySQL.uploaded_items st')
                    <-> In u (MySQL.uploaded_items st)
                        /\ MySQL.ui_id u <> item_id)
      /\ (forall a, In a (MySQL.analysis_results st')
                    <-> In a (MySQL.analysis_results st)
                        /\ MySQL.ar_item_id a <> item_id)
      /\ (forall session_id a u,
             In (a, u) (MySQL.joined_analyses st' session_id)
             <-> In (a, u) (MySQL.joined_analyses st session_id)
                 /\ MySQL.ar_item_id a <> item_id)
      /\ MySQL.messages st' = MySQL.messages st
      /\ MySQL.chat_sessions st' = MySQL.chat_sessions st)
  \/ (st' = st /\ forall body, r <> Http 200 body).
Proof.
  unfold MySQLApp.delete_uploaded_item, MySQL.login_required,
    MySQLApp.delete_uploaded_item_view, MySQL.error.
  intros Hcall.
  destruct login as [user |];
    [| destruct is_json; injection Hcall as <- <-; right; now split].
  destruct (negb (MySQL.connected E));
    [injection Hcall as <- <-; right; now split |].
  destruct (MySQLApp.owned_item st item_id user) as [d |] eqn:Howned;
    [| injection Hcall as <- <-; right; now split].
  injection Hcall as <- <-. left.
  apply find_some in Howned. destruct Howned as [Hd Hmatch].
  apply andb_prop in Hmatch. destruct Hmatch as [Hid Hsession].
  apply Nat.eqb_eq in Hid. apply existsb_exists in Hsession.
  destruct Hsession as (s & Hs & Hmatch).
  apply andb_prop in Hmatch. destruct Hmatch as [Hsid Howner].
  apply Nat.eqb_eq in Hsid, Howner.
  assert (Hitems : forall u,
             In u (MySQL.uploaded_items (MySQLApp.delete_item_row st item_id))
             <-> In u (MySQL.uploaded_items st) /\ MySQL.ui_id u <> item_id).
  { intros u. simpl. rewrite filter_In, negb_true_iff, Nat.eqb_neq.
    reflexivity. }
  assert (Hanalyses : forall a,
             In a (MySQL.analysis_results (MySQLApp.delete_item_row st item_id))
             <-> In a (MySQL.analysis_results st)
                 /\ MySQL.ar_item_id a <> item_id).
  { intros a. simpl. rewrite filter_In, negb_true_iff, Nat.eqb_neq.
    reflexivity. }
  exists user, d, s.
  repeat (split; [assumption || reflexivity |]).
  split; [rewrite mysql_find_item_after_delete; now rewrite Nat.eqb_refl |].
  split; [exact Hitems |]. split; [exact Hanalyses |].
  split; [| split; reflexivity].
  intros session_id a u. rewrite !mysql_joined_analyses_In, Hanalyses.
  rewrite mysql_find_item_after_delete.
  destruct (MySQL.ar_item_id a =? item_id) eqn:Ha.
  - apply Nat.eqb_eq in Ha. split; [intros (_ & _ & H); discriminate |].
    intros [_ Hother]. contradiction.
  - apply Nat.eqb_neq in Ha. tauto.
Qed.

Lemma mysql_delete_item_effect_witness :
  map MySQL.ar_id
      (MySQL.analysis_results
         (fst (MySQLApp.delete_uploaded_item Scenario.sql_answering (Some 7)
                 true 3 Scenario.sql_shared)))
  = [6].
Proof.
  destruct (mysql_delete_item_effect Scenario.sql_answering (Some 7) true 3
              Scenario.sql_shared
              (fst (MySQLApp.delete_uploaded_item Scenario.sql_answering
                      (Some 7) true 3 Scenario.sql_shared))
              (snd (MySQLApp.delete_uploaded_item Scenario.sql_answering
                      (Some 7) true 3 Scenario.sql_shared)))
    as [_ | [_ Hrefused]].
  - vm_compute. reflexivity.
  - vm_compute. reflexivity.
  - exfalso. eapply Hrefused. vm_compute. reflexivity.
Defined.

(** ** Reading the history of a session ([app.py]: [get_session_messages],
    [export_chat_history]; [app_mysql.py]: [get_messages]) *)

Section AscendingSort.
Context {A : Type} (key : A -> nat).

Lemma insert_asc_permutation (x : A) (l : list A) :
  Permutation (insert_asc key x l) (x :: l).
Proof.
  induction l as [| y l IH]; simpl; [reflexivity |].
  destruct (key x <=? key y); [reflexivity |].
  rewrite IH. apply perm_swap.
Qed.

Lemma sort_asc_permutation (l : list A) : Permutation (sort_asc key l) l.
Proof.
  induction l as [| x l IH]; simpl; [reflexivity |].
  rewrite insert_asc_permutation. now constructor.
Qed.

Lemma insert_asc_sorted (x : A) (l : list A) :
  Sorted (fun a b => key a <= key b) l ->
  Sorted (fun a b => key a <= key b) (insert_asc key x l).
Proof.
  induction l as [| y l IH]; simpl; intros Hsorted.
  - repeat constructor.
  - destruct (key x <=? key y) eqn:Hxy.
    + apply Nat.leb_le in Hxy. constructor; [exact Hsorted |].
      now constructor.
    + apply Nat.leb_gt in Hxy.
      inversion Hsorted as [| ? ? Hl Hhead]; subst.
      constructor; [now apply IH |].
      destruct l as [| z l]; simpl.
      * constructor. lia.
      * destruct (key x <=? key z); constructor; [lia |].
        now inversion Hhead.
Qed.

Lemma sort_asc_sorted (l : list A) :
  Sorted (fun a b => key a <= key b) (sort_asc key l).
Proof.
  induction l as [| x l IH]; simpl; [constructor |].
  now apply insert_asc_sorted.
Qed.

End AscendingSort.

Lemma mongo_all_messages_In (st : Mongo.store) (user : nat) (m : Mongo.message) :
  In m (MongoHistory.all_messages st user)
  <-> In m (Mongo.messages st)
      /\ exists s, In s (Mongo.chat_sessions st)
                   /\ Mongo.cs_user_id s = user
                   /\ Mongo.cs_id s = Mongo.m_session_id m.
Proof.
  unfold MongoHistory.all_messages, MongoHistory.session_ids.
  assert (Howned :
            existsb (Nat.eqb (Mongo.m_session_id m))
              (map Mongo.cs_id
                 (filter (fun s => Mongo.cs_user_id s =? user)
                         (Mongo.chat_sessions st))) = true
            <-> exists s, In s (Mongo.chat_sessions st)
                          /\ Mongo.cs_user_id s = user
                          /\ Mongo.cs_id s = Mongo.m_session_id m).
  { rewrite existsb_exists. split.
    - intros (k & Hk & Heq). apply Nat.eqb_eq in Heq. subst k.
      apply in_map_iff in Hk. destruct Hk as (s & Hid & Hs).
      apply filter_In in Hs. destruct Hs as [Hs Huser].
      apply Nat.eqb_eq in Huser. now exists s.
    - intros (s & Hs & Huser & Hid). exists (Mongo.cs_id s). split.
      + apply in_map, filter_In. split; [exact Hs |]. now apply Nat.eqb_eq.
      + apply Nat.eqb_eq. now symmetry. }
  split.
  - intros Hm. apply (Permutation_in _ (sort_asc_permutation _ _)) in Hm.
    apply filter_In in Hm. now rewrite Howned in Hm.
  - intros Hm.
    apply (Permutation_in _ (Permutation_sym (sort_asc_permutation _ _))).
    apply filter_In. now rewrite Howned.
Qed.

(** X15: the MongoDB [get_session_messages] answers any logged-in caller,
    whether the session is theirs or not, with all the messages of the
    session, oldest first, and changes nothing. [export_chat_history]
    returns, oldest first, exactly the messages stored under a session the
    caller owns - and so leaves out the messages of every other session. *)
Theorem mongo_history_reading (st : Mongo.store) (user session_id : nat) :
  MongoHistory.get_session_messages (Some user) session_id st
  = (st, Http 200
           (JObj [("messages",
                   JList (map MongoHistory.message_entry
                              (MongoHistory.session_messages st session_id)))]))
  /\ Permutation (MongoHistory.session_messages st session_id)
                 (Mongo.messages_of st session_id)
  /\ Sorted (fun a b => Mongo.timestamp a <= Mongo.timestamp b)
            (MongoHistory.session_messages st session_id)
  /\ (forall m, In m (MongoHistory.session_messages st session_id)
                <-> In m (Mongo.messages st)
                    /\ Mongo.m_session_id m = session_id)
  /\ MongoHistory.export_chat_history (Some user) st
     = (st, Http 200 (JList (map MongoHistory.exported_message
                                 (MongoHistory.all_messages st user))))
  /\ (forall m, In m (MongoHistory.all_messages st user)
                <-> In m (Mongo.messages st)
                    /\ exists s, In s (Mongo.chat_sessions st)
                                 /\ Mongo.cs_user_id s = user
                                 /\ Mongo.cs_id s = Mongo.m_session_id m)
  /\ Sorted (fun a b => Mongo.timestamp a <= Mongo.timestamp b)
            (MongoHistory.all_messages st user).
Proof.
  split; [reflexivity |].
  split; [apply sort_asc_permutation |].
  split; [apply sort_asc_sorted |].
  split.
  { intros m. unfold MongoHistory.session_messages, Mongo.messages_of.
    split.
    - intros Hm. apply (Permutation_in _ (sort_asc_permutation _ _)) in Hm.
      apply filter_In in Hm. now rewrite Nat.eqb_eq in Hm.
    - intros Hm.
      apply (Permutation_in _ (Permutation_sym (sort_asc_permutation _ _))).
      apply filter_In. now rewrite Nat.eqb_eq. }
  split; [reflexivity |].
  split; [| apply sort_asc_sorted].
  intros m. apply mongo_all_messages_In.
Qed.

(** X16: the MySQL [get_messages] never changes the database. It answers
    200 exactly when the caller is logged in, the database is reachable and
    the caller owns the session; the body then lists all the messages of the
    session, oldest first. A caller who does not own the session gets no
    message. *)
Theorem mysql_history_reading E login is_json session_id st :
  fst (MySQLApp.get_messages E login is_json session_id st) = st
  /\ ((exists body,
         snd (MySQLApp.get_messages E login is_json session_id st)
         = Http 200 body)
      <-> MySQL.connected E = true
          /\ exists user, login = Some user
                          /\ MySQL.find_session st session_id user <> None)
  /\ (forall body,
         snd (MySQLApp.get_messages E login is_json session_id st)
         = Http 200 body ->
         exists rows,
           body = JObj [("messages", JList (map MySQLApp.message_row rows))]
           /\ Permutation rows (MySQL.messages_of st session_id)
           /\ Sorted (fun a b => MySQL.timestamp a <= MySQL.timestamp b) rows).
Proof.
  unfold MySQLApp.get_messages, MySQL.login_required,
    MySQLApp.get_messages_view, MySQL.error.
  destruct login as [user |].
  2:{ destruct is_json; simpl; (split; [reflexivity |]); split;
        try (intros; discriminate);
        (split; [intros [body H]; discriminate
                | intros [_ (user & H & _)]; discriminate]). }
  destruct (MySQL.connected E); simpl negb; cbv iota.
  2:{ simpl. split; [reflexivity |]. split; [| intros; discriminate].
      split; [intros [body H]; discriminate | intros [H _]; discriminate]. }
  destruct (MySQL.find_session st session_id user) eqn:Howner; simpl.
  - split; [reflexivity |]. split.
    + split; [| eauto]. intros _. split; [reflexivity |].
      exists user. split; [reflexivity |]. rewrite Howner. discriminate.
    + intros body Hbody. injection Hbody as <-.
      eexists. split; [reflexivity |].
      split; [apply sort_asc_permutation | apply sort_asc_sorted].
  - split; [reflexivity |]. split; [| intros; discriminate].
    split; [intros [body H]; discriminate |].
    intros [_ (user' & Huser & Hsome)]. injection Huser as <-.
    contradiction.
Qed.



